(** * Resume-Management-AI: a shallow embedding of the orchestration code

    The repository is a retrieval-augmented question-answering tool over
    uploaded resumes.  Its own code (config.py, document_processor.py,
    vector_store.py, app.py) is thin glue over third-party services: file
    parsers, a text splitter, an embedding model, a vector database and a
    language model.  The glue is embedded here as state-passing functions
    in a small state-and-exception monad; the third-party services appear
    as oracles of an environment record or as small reference models that
    follow the specification's description of their contract. *)

From stdpp Require Import gmap strings list sorting pretty.
From Stdlib Require Import ZArith Lia Ascii String.

Open Scope string_scope.
Open Scope list_scope.

(** ** Python string primitives used by the code *)

Module PyStr.

(** Texts are held as their UTF-8 bytes.  [take] and [drop] cut at a
    byte position; the code below uses them at the positions of dots
    and slashes, which are single bytes. *)
Fixpoint take (n : nat) (s : string) : string :=
  match n, s with
  | S n', String c s' => String c (take n' s')
  | _, _ => EmptyString
  end.

Fixpoint drop (n : nat) (s : string) : string :=
  match n, s with
  | S n', String _ s' => drop n' s'
  | _, _ => s
  end.

(** [s.rfind(c)] for a one-character needle: the index of the last
    occurrence, [-1] when there is none. *)
Fixpoint rfind_from (c : ascii) (s : string) (i : Z) (last : Z) : Z :=
  match s with
  | EmptyString => last
  | String d s' =>
      rfind_from c s' (i + 1) (if Ascii.eqb c d then i else last)
  end.

Definition rfind (c : ascii) (s : string) : Z := rfind_from c s 0 (-1).

(** [str.lower()] on the ASCII letters; other bytes are left as they
    are.  Python also lowers capitals outside ASCII: for a text with
    such a capital the result here differs from Python's in that
    letter.  None of the extensions the code compares against contains
    the lower case of such a letter, so the comparisons are the same. *)
Definition lower_ascii (c : ascii) : ascii :=
  let n := nat_of_ascii c in
  if (65 <=? n)%nat && (n <=? 90)%nat then ascii_of_nat (n + 32) else c.

Fixpoint lower (s : string) : string :=
  match s with
  | EmptyString => EmptyString
  | String c s' => String (lower_ascii c) (lower s')
  end.

(** [sep.join(parts)] *)
Fixpoint join (sep : string) (parts : list string) : string :=
  match parts with
  | [] => ""
  | [p] => p
  | p :: ps => p ++ sep ++ join sep ps
  end.

(** [s.startswith(p)] *)
Fixpoint startswith (p s : string) : bool :=
  match p, s with
  | EmptyString, _ => true
  | String a p', String b s' => Ascii.eqb a b && startswith p' s'
  | String _ _, EmptyString => false
  end.

Definition dot : ascii := "."%char.
Definition slash : ascii := "/"%char.

(** [os.path.basename(p)] (POSIX): the part after the last slash. *)
Definition basename (p : string) : string :=
  drop (Z.to_nat (rfind slash p + 1)) p.

(** The loop of [genericpath._splitext] that skips leading dots of the
    file name: from [filenameIndex] up to [dotIndex], is there a
    character other than a dot? *)
Fixpoint has_non_dot (s : string) (n : nat) : bool :=
  match n, s with
  | S n', String c s' => negb (Ascii.eqb c dot) || has_non_dot s' n'
  | _, _ => false
  end.

(** [os.path.splitext(p)] (POSIX). *)
Definition splitext (p : string) : string * string :=
  let sepIndex := rfind slash p in
  let dotIndex := rfind dot p in
  if (sepIndex <? dotIndex)%Z then
    let filenameIndex := Z.to_nat (sepIndex + 1) in
    if has_non_dot (drop filenameIndex p) (Z.to_nat dotIndex - filenameIndex)
    then (take (Z.to_nat dotIndex) p, drop (Z.to_nat dotIndex) p)
    else (p, "")
  else (p, "").

(** [s.split('.')[-1]]: the text after the last dot, the whole string
    when it has none. *)
Definition last_dot_component (s : string) : string :=
  drop (Z.to_nat (rfind dot s + 1)) s.

(** A byte of the form 10xxxxxx continues the character begun before
    it. *)
Definition is_continuation (c : ascii) : bool :=
  let n := nat_of_ascii c in (128 <=? n)%nat && (n <? 192)%nat.

(** [len(s)]: the number of characters. *)
Fixpoint len (s : string) : nat :=
  match s with
  | EmptyString => 0
  | String c s' => (if is_continuation c then 0 else 1) + len s'
  end.

(** [list(s)]: the characters of [s], each with its continuation
    bytes. *)
Fixpoint chars (s : string) : list string :=
  match s with
  | EmptyString => []
  | String c s' =>
      let rest := chars s' in
      match s', rest with
      | String d _, ch :: rest' =>
          if is_continuation d then String c ch :: rest'
          else String c "" :: rest
      | _, _ => String c "" :: rest
      end
  end.

(** [s[:n]] and [s[n:]], counted in characters. *)
Definition prefix_chars (n : nat) (s : string) : string :=
  join "" (List.firstn n (chars s)).

Definition suffix_from (n : nat) (s : string) : string :=
  join "" (List.skipn n (chars s)).

(** The text with the given bytes. *)
Definition bytes (l : list nat) : string :=
  fold_right (fun n s => String (ascii_of_nat n) s) "" l.

(** The characters [str.isspace] accepts, as their UTF-8 bytes: the
    ASCII ones (tab to carriage return, the four separators 28 to 31,
    space), then U+0085, U+00A0, U+1680, U+2000 to U+200A, U+2028,
    U+2029, U+202F, U+205F and U+3000. *)
Definition whitespace : list string :=
  [bytes [9]; bytes [10]; bytes [11]; bytes [12]; bytes [13];
   bytes [28]; bytes [29]; bytes [30]; bytes [31]; bytes [32];
   bytes [194; 133]; bytes [194; 160]; bytes [225; 154; 128];
   bytes [226; 128; 128]; bytes [226; 128; 129]; bytes [226; 128; 130];
   bytes [226; 128; 131]; bytes [226; 128; 132]; bytes [226; 128; 133];
   bytes [226; 128; 134]; bytes [226; 128; 135]; bytes [226; 128; 136];
   bytes [226; 128; 137]; bytes [226; 128; 138]; bytes [226; 128; 168];
   bytes [226; 128; 169]; bytes [226; 128; 175]; bytes [226; 129; 159];
   bytes [227; 128; 128]].

(** [ch.isspace()] for one character. *)
Definition isspace (ch : string) : bool := bool_decide (ch ∈ whitespace).

(** The characters left once the leading white space is dropped. *)
Fixpoint lstrip_chars (l : list string) : list string :=
  match l with
  | ch :: rest => if isspace ch then lstrip_chars rest else l
  | [] => []
  end.

(** [s.strip()] *)
Definition strip (s : string) : string :=
  join "" (rev (lstrip_chars (rev (lstrip_chars (chars s))))).

(** [sub in s] *)
Fixpoint contains_str (sub s : string) : bool :=
  startswith sub s ||
  match s with
  | EmptyString => false
  | String _ s' => contains_str sub s'
  end.

(** [re.split(re.escape(sep), s)] for a non-empty [sep]: the texts
    between the occurrences of [sep], found from the left without
    overlap.  [skip] counts the bytes of an occurrence still to be
    passed over, [cur] is the text read since the last occurrence. *)
Fixpoint split_from (sep : string) (skip : nat) (cur s : string) : list string :=
  match s with
  | EmptyString => [cur]
  | String c s' =>
      match skip with
      | S n => split_from sep n cur s'
      | O =>
          if startswith sep s
          then cur :: split_from sep (String.length sep - 1) "" s'
          else split_from sep 0 (cur ++ String c "") s'
      end
  end.

(** [re.split(re.escape(sep), s)] *)
Definition split (sep s : string) : list string := split_from sep 0 "" s.

End PyStr.

(** ** config.py *)

Module config.

Definition OLLAMA_BASE_URL : string := "http://localhost:11434".
Definition DEFAULT_MODEL : string := "gemma:2b".
Definition CHROMA_DB_DIR : string := "./resume_chroma_db".
Definition COLLECTION_NAME : string := "resume_collection".
Definition CHUNK_SIZE : nat := 800.
Definition CHUNK_OVERLAP : nat := 100.

Definition general_template : string :=
"You are an expert resume analyzer and technical recruiter. 
    Analyze the resume context below to provide comprehensive insights about the candidate.

    Context: {context}
    Question: {question}

    Provide structured, professional analysis focusing on qualifications, experience, and role fit.
    Answer: ".

Definition technical_template : string :=
"You are a senior technical recruiter. Focus on technical skills analysis.
    
    Extract and analyze:
    - Programming languages and proficiency
    - Frameworks, tools, and technologies
    - Years of experience with each skill
    - Technical certifications
    - Project complexity indicators

    Context: {context}
    Question: {question}

    Structure as: 1) Primary Skills 2) Secondary Skills 3) Tools/Frameworks 4) Experience Level
    Answer: ".

Definition experience_template : string :=
"You are an HR professional analyzing work experience and career progression.
    
    Focus on:
    - Career timeline and progression
    - Job responsibilities and scope
    - Achievements and impact
    - Leadership and management experience
    - Industry background

    Context: {context}
    Question: {question}

    Structure as: 1) Career Summary 2) Key Positions 3) Achievements 4) Progression Analysis
    Answer: ".

Definition match_template : string :=
"You are evaluating candidate-role fit. Analyze how well this candidate matches specific requirements.
    
    Assess:
    - Required skills alignment
    - Experience level match
    - Industry background relevance
    - Growth potential
    - Potential concerns

    Context: {context}
    Question: {question}

    Structure as: 1) Match Score 2) Strengths 3) Gaps 4) Recommendations
    Answer: ".

(** The dict [RESUME_PROMPTS]. *)
Definition RESUME_PROMPTS : gmap string string :=
  <["general" := general_template]>
  (<["technical" := technical_template]>
  (<["experience" := experience_template]>
  (<["match" := match_template]> ∅))).

(** The dict [QUICK_QUESTIONS], in the order of its literal (the order
    [.items()] yields). *)
Definition QUICK_QUESTIONS : list (string * string) :=
  [
   ("Summary",
    "Provide a comprehensive professional summary of this candidate including their key strengths, experience level, and notable achievements.");
   ("Technical Skills",
    "List all technical skills mentioned, categorized by proficiency level and years of experience.");
   ("Experience",
    "Summarize the candidate's work experience including roles, companies, duration, and key responsibilities.");
   ("Education",
    "Detail the candidate's educational background, certifications, and relevant training.");
   ("Achievements",
    "Highlight the candidate's most significant professional achievements and accomplishments.");
   ("Leadership",
    "Identify any leadership, management, or team collaboration experience.");
   ("Career Progression",
    "Analyze the candidate's career progression and growth trajectory.");
   ("Red Flags",
    "Identify any potential concerns such as employment gaps, frequent job changes, or skill misalignments.")
  ].

End config.


(** ** Data model *)

(** Values stored in a document's metadata dict. *)
Inductive MetaValue :=
| MStr (s : string)
| MInt (n : Z).

(** [langchain.schema.Document]: a text and its metadata dict. *)
Record Document := mkDocument {
  page_content : string;
  metadata : gmap string MetaValue
}.

(** Python exceptions that reach the code.  [ExternalError] stands for
    whatever a parser or a remote service raises. *)
Inductive PyExc :=
| ValueError (msg : string)
| AttributeError (msg : string)
| KeyError (key : string)
| ExternalError (msg : string).

(** [str(e)] *)
Definition exc_str (e : PyExc) : string :=
  match e with
  | ValueError msg | AttributeError msg | ExternalError msg => msg
  | KeyError key => "'" ++ key ++ "'"
  end.

(** A call either returns or raises. *)
Inductive outcome (A : Type) :=
| Ok (a : A)
| Raise (e : PyExc).
Arguments Ok {A} a.
Arguments Raise {A} e.

(** What the Streamlit front end was asked to show ([st.error],
    [st.info], ...).  Pure layout calls (headers, dividers, columns,
    expanders, spinners) are not recorded. *)
Inductive UiEvent :=
| st_error (msg : string)
| st_info (msg : string)
| st_warning (msg : string)
| st_success (msg : string)
| st_markdown (msg : string).

(** An embedding: a numeric vector.  Components and similarity scores
    are integers here; only their order matters to the code. *)
Definition Embedding : Type := list Z.

(** One stored record of the vector database. *)
Record VectorRecord := mkVectorRecord {
  chunk : Document;
  embedding : Embedding
}.

(** The langchain wrapper bound to one named collection. *)
Record Chroma := mkChroma { collection_name : string }.

(** A chat message of the session: a dict with [role], [content] and an
    optional [sources] key. *)
Record Message := mkMessage {
  role : string;
  content : string;
  sources : option (list Document)
}.

(** A file handed over by the upload widget. *)
Record UploadedFile := mkUploadedFile {
  name : string;
  getbuffer : string
}.

(** The three parsers the loader chooses from. *)
Inductive Loader :=
| PyPDFLoader (file_path : string)
| TextLoader (file_path : string) (encoding : string)
| Docx2txtLoader (file_path : string).

Definition loader_path (l : Loader) : string :=
  match l with
  | PyPDFLoader p | TextLoader p _ | Docx2txtLoader p => p
  end.

(** The services outside the repository, as oracles.
    - [parse l bytes]: what [l.load()] returns for a file with these
      bytes ([None]: no such file);
    - [embed_text]: the embedding model, which may be unreachable;
    - [similarity]: the score the vector database ranks by;
    - [llm_invoke]: the language model, which may be unreachable;
    - [tmp_stem n]: the path of the n-th temporary file, without its
      suffix. *)
Record Env := mkEnv {
  parse : Loader -> option string -> outcome (list Document);
  embed_text : string -> outcome Embedding;
  similarity : Embedding -> Embedding -> Z;
  llm_invoke : string -> outcome string;
  tmp_stem : nat -> string
}.

(** Everything the code reads and writes: the front end's output, the
    file system, the persistent vector database, the [VectorStore]
    object, the calls made to the remote services, and
    [st.session_state]. *)
Record App := mkApp {
  ui : list UiEvent;
  files : gmap string string;
  tmp_counter : nat;
  collections : gmap string (list VectorRecord);
  vector_store : option Chroma;
  embed_calls : list string;
  llm_calls : list string;
  messages : list Message;
  resumes_processed : list string;
  current_prompt_type : string;
  pending_question : option string
}.

Definition set_ui (f : list UiEvent -> list UiEvent) (s : App) : App :=
  mkApp (f (ui s)) (files s) (tmp_counter s) (collections s) (vector_store s)
        (embed_calls s) (llm_calls s) (messages s) (resumes_processed s)
        (current_prompt_type s) (pending_question s).

Definition set_files (f : gmap string string -> gmap string string) (s : App) : App :=
  mkApp (ui s) (f (files s)) (tmp_counter s) (collections s) (vector_store s)
        (embed_calls s) (llm_calls s) (messages s) (resumes_processed s)
        (current_prompt_type s) (pending_question s).

Definition set_tmp_counter (n : nat) (s : App) : App :=
  mkApp (ui s) (files s) n (collections s) (vector_store s)
        (embed_calls s) (llm_calls s) (messages s) (resumes_processed s)
        (current_prompt_type s) (pending_question s).

Definition set_collections
  (f : gmap string (list VectorRecord) -> gmap string (list VectorRecord))
  (s : App) : App :=
  mkApp (ui s) (files s) (tmp_counter s) (f (collections s)) (vector_store s)
        (embed_calls s) (llm_calls s) (messages s) (resumes_processed s)
        (current_prompt_type s) (pending_question s).

Definition set_vector_store (v : option Chroma) (s : App) : App :=
  mkApp (ui s) (files s) (tmp_counter s) (collections s) v
        (embed_calls s) (llm_calls s) (messages s) (resumes_processed s)
        (current_prompt_type s) (pending_question s).

Definition set_embed_calls (f : list string -> list string) (s : App) : App :=
  mkApp (ui s) (files s) (tmp_counter s) (collections s) (vector_store s)
        (f (embed_calls s)) (llm_calls s) (messages s) (resumes_processed s)
        (current_prompt_type s) (pending_question s).

Definition set_llm_calls (f : list string -> list string) (s : App) : App :=
  mkApp (ui s) (files s) (tmp_counter s) (collections s) (vector_store s)
        (embed_calls s) (f (llm_calls s)) (messages s) (resumes_processed s)
        (current_prompt_type s) (pending_question s).

Definition set_messages (f : list Message -> list Message) (s : App) : App :=
  mkApp (ui s) (files s) (tmp_counter s) (collections s) (vector_store s)
        (embed_calls s) (llm_calls s) (f (messages s)) (resumes_processed s)
        (current_prompt_type s) (pending_question s).

Definition set_resumes_processed (f : list string -> list string) (s : App) : App :=
  mkApp (ui s) (files s) (tmp_counter s) (collections s) (vector_store s)
        (embed_calls s) (llm_calls s) (messages s) (f (resumes_processed s))
        (current_prompt_type s) (pending_question s).

Definition set_pending_question (q : option string) (s : App) : App :=
  mkApp (ui s) (files s) (tmp_counter s) (collections s) (vector_store s)
        (embed_calls s) (llm_calls s) (messages s) (resumes_processed s)
        (current_prompt_type s) q.

(** ** The state-and-exception monad *)

Definition M (A : Type) : Type := App -> outcome A * App.

Definition ret {A} (a : A) : M A := fun s => (Ok a, s).

Definition bind {A B} (m : M A) (k : A -> M B) : M B :=
  fun s =>
    match m s with
    | (Ok a, s') => k a s'
    | (Raise e, s') => (Raise e, s')
    end.

#[global] Instance M_ret : MRet M := @ret.
#[global] Instance M_bind : MBind M := fun A B k m => bind m k.

Definition raise {A} (e : PyExc) : M A := fun s => (Raise e, s).

Definition lift {A} (o : outcome A) : M A := fun s => (o, s).

Definition gets {A} (f : App -> A) : M A := fun s => (Ok (f s), s).

Definition modify (f : App -> App) : M unit := fun s => (Ok tt, f s).

(** [try: body  except Exception as e: handler(e)] *)
Definition try_except {A} (body : M A) (handler : PyExc -> M A) : M A :=
  fun s =>
    match body s with
    | (Ok a, s') => (Ok a, s')
    | (Raise e, s') => handler e s'
    end.

(** [try: body  finally: cleanup] *)
Definition try_finally {A} (body : M A) (cleanup : M unit) : M A :=
  fun s =>
    match body s with
    | (r, s') =>
        match cleanup s' with
        | (Ok _, s'') => (r, s'')
        | (Raise e, s'') => (Raise e, s'')
        end
    end.

(** [for x in xs: body(x)] *)
Fixpoint for_each {A} (xs : list A) (body : A -> M unit) : M unit :=
  match xs with
  | [] => ret tt
  | x :: xs' => body x ;; for_each xs' body
  end.

Definition show (ev : UiEvent) : M unit :=
  modify (set_ui (fun l => l ++ [ev])).

(** ** The text splitter *)

(** The splitter's parameters, as [DocumentProcessor.__init__] passes
    them ([length_function=len]: lengths are character counts). *)
Record TextSplitter := mkTextSplitter {
  chunk_size : nat;
  chunk_overlap : nat
}.

(** The text splitter ([RecursiveCharacterTextSplitter]) is a
    third-party class; the repository only constructs it and calls
    [split_documents].  Section 2 of the specification: the Chunker
    "splits raw text into overlapping fixed-size windows"; section 4.2:
    chunks are "each <= chunk size", the rule is "character-count based,
    with allowance for natural separators like paragraph breaks when
    present", and "deterministic".  The allowance is that of the class
    the code names, with the separators it has when none are given: the
    text is cut at the first of paragraph break, line break and space
    that occurs in it, each piece keeping the separator in front of it;
    pieces shorter than the chunk size are merged, longer ones are cut
    again at the next separator, down to single characters; a merged
    chunk is stripped of surrounding white space, and the next chunk
    starts with the last pieces of the previous one that fit into the
    overlap. *)

(** Modelled from the spec: the "natural separators" of the splitter,
    those of a splitter constructed without any: paragraph break, line
    break, space, and the empty separator that cuts between
    characters. *)
Definition default_separators : list string :=
  [String "010" (String "010" ""); String "010" ""; " "; ""].

(** Modelled from the spec: cutting a text at a separator
    ([_split_text_with_regex(text, separator, keep_separator=True)]):
    the pieces between the separators, each but the first with the
    separator in front; with the empty separator, the characters. *)
Definition _split_text_with_regex (text separator : string) : list string :=
  filter (fun s => s <> "")
    (if decide (separator = "") then PyStr.chars text
     else
       match PyStr.split separator text with
       | [] => []
       | first :: rest => first :: map (fun s => (separator ++ s)%string) rest
       end).

(** Modelled from the spec: a chunk from its pieces
    ([TextSplitter._join_docs], with [strip_whitespace=True]); a chunk
    of white space only is dropped. *)
Definition _join_docs (docs : list string) (separator : string) : option string :=
  let text := PyStr.strip (PyStr.join separator docs) in
  if decide (text = "") then None else Some text.

(** Modelled from the spec: the overlap (the [while] loop of
    [_merge_splits]): pieces are dropped from the front of the current
    chunk while it is longer than the overlap, or too long for the next
    piece to fit.  The loop cannot run out of pieces with its condition
    true, since [total] is their length. *)
Fixpoint pop_front (sp : TextSplitter) (separator_len _len : nat)
  (current_doc : list string) (total : nat) : list string * nat :=
  match current_doc with
  | [] => ([], total)
  | first :: rest =>
      if (chunk_overlap sp <? total)%nat
         || ((chunk_size sp <? total + _len + separator_len)%nat && (0 <? total)%nat)
      then
        pop_front sp separator_len _len rest
          (total - (PyStr.len first
                    + (if (1 <? List.length current_doc)%nat then separator_len else 0)))
      else (current_doc, total)
  end.

(** Modelled from the spec: merging pieces into chunks of at most the
    chunk size (the [for] loop of [_merge_splits]). *)
Fixpoint merge_from (sp : TextSplitter) (separator : string)
  (splits docs current_doc : list string) (total : nat) : list string :=
  match splits with
  | [] => docs ++ option_list (_join_docs current_doc separator)
  | d :: rest =>
      let separator_len := PyStr.len separator in
      let _len := PyStr.len d in
      let '(docs, current_doc, total) :=
        if (chunk_size sp
            <? total + _len
               + (if (0 <? List.length current_doc)%nat then separator_len else 0))%nat
        then
          match current_doc with
          | [] => (docs, current_doc, total)
          | _ =>
              let '(current_doc', total') :=
                pop_front sp separator_len _len current_doc total in
              (docs ++ option_list (_join_docs current_doc separator),
               current_doc', total')
          end
        else (docs, current_doc, total) in
      let current_doc := current_doc ++ [d] in
      merge_from sp separator rest docs current_doc
        (total + _len + (if (1 <? List.length current_doc)%nat then separator_len else 0))
  end.

(** Modelled from the spec: [TextSplitter._merge_splits]. *)
Definition _merge_splits (sp : TextSplitter) (splits : list string)
  (separator : string) : list string :=
  merge_from sp separator splits [] [] 0.

(** Modelled from the spec: the [for] loop of
    [RecursiveCharacterTextSplitter._split_text]: [finer] cuts a piece
    that is too long with the remaining separators. *)
Fixpoint split_loop (sp : TextSplitter) (finer : string -> list string)
  (splits _good_splits final_chunks : list string) : list string :=
  match splits with
  | [] =>
      match _good_splits with
      | [] => final_chunks
      | _ => final_chunks ++ _merge_splits sp _good_splits ""
      end
  | s :: rest =>
      if (PyStr.len s <? chunk_size sp)%nat
      then split_loop sp finer rest (_good_splits ++ [s]) final_chunks
      else
        let final_chunks :=
          match _good_splits with
          | [] => final_chunks
          | _ => final_chunks ++ _merge_splits sp _good_splits ""
          end in
        split_loop sp finer rest [] (final_chunks ++ finer s)
  end.

(** Modelled from the spec:
    [RecursiveCharacterTextSplitter._split_text]: the first separator
    that occurs in the text is used, the empty one at the latest;
    [last] is the separator used when none occurs. *)
Fixpoint _split_text (sp : TextSplitter) (last : string)
  (separators : list string) (text : string) : list string :=
  match separators with
  | [] =>
      split_loop sp (fun s => [s]) (_split_text_with_regex text last) [] []
  | _s :: new_separators =>
      if decide (_s = "")
      then split_loop sp (fun s => [s]) (_split_text_with_regex text _s) [] []
      else if PyStr.contains_str _s text
      then
        split_loop sp
          (match new_separators with
           | [] => fun s => [s]
           | _ => fun s => _split_text sp last new_separators s
           end)
          (_split_text_with_regex text _s) [] []
      else _split_text sp last new_separators text
  end.

(** Modelled from the spec: [split_text] of the splitter. *)
Definition split_text (sp : TextSplitter) (text : string) : list string :=
  _split_text sp (List.last default_separators "") default_separators text.

(** Modelled from the spec: [split_documents] of the absent splitter;
    section 4.2: "metadata propagated from parent document". *)
Definition split_documents (sp : TextSplitter) (documents : list Document)
  : list Document :=
  flat_map
    (fun d => map (fun c => mkDocument c (metadata d))
                  (split_text sp (page_content d)))
    documents.

(** ** document_processor.py *)

Record DocumentProcessor := mkDocumentProcessor {
  text_splitter : TextSplitter
}.

(** [DocumentProcessor.__init__] *)
Definition DocumentProcessor_init : DocumentProcessor :=
  mkDocumentProcessor (mkTextSplitter config.CHUNK_SIZE config.CHUNK_OVERLAP).

(** [os.path.splitext(file_path)[1].lower()] *)
Definition file_extension (file_path : string) : string :=
  PyStr.lower (snd (PyStr.splitext file_path)).

(** The if/elif chain of [load_document]. *)
Definition select_loader (file_path : string) : outcome Loader :=
  let ext := file_extension file_path in
  if decide (ext = ".pdf") then Ok (PyPDFLoader file_path)
  else if decide (ext ∈ [".txt"; ".md"]) then Ok (TextLoader file_path "utf-8")
  else if decide (ext = ".docx") then Ok (Docx2txtLoader file_path)
  else Raise (ValueError ("Unsupported file type: " ++ ext)).

(** [loader.load()]: the parser reads the file at the loader's path. *)
Definition loader_load (env : Env) (l : Loader) : M (list Document) :=
  fun s => (parse env l (files s !! loader_path l), s).

(** [doc.metadata['filename'] = os.path.basename(file_path)] *)
Definition set_filename (file_path : string) (doc : Document) : Document :=
  mkDocument (page_content doc)
             (<["filename" := MStr (PyStr.basename file_path)]> (metadata doc)).

(** [DocumentProcessor.load_document] *)
Definition load_document (env : Env) (file_path : string) : M (list Document) :=
  try_except
    (loader ← lift (select_loader file_path);
     documents ← loader_load env loader;
     ret (map (set_filename file_path) documents))
    (fun e =>
       show (st_error ("Error loading " ++ file_path ++ ": " ++ exc_str e));;
       ret []).

(** The loop of [process_documents]: [all_documents.extend(docs)] for
    each path in turn. *)
Fixpoint load_all (env : Env) (file_paths : list string)
  (all_documents : list Document) : M (list Document) :=
  match file_paths with
  | [] => ret all_documents
  | file_path :: rest =>
      docs ← load_document env file_path;
      load_all env rest (all_documents ++ docs)
  end.

(** [DocumentProcessor.process_documents] *)
Definition process_documents (env : Env) (self : DocumentProcessor)
  (file_paths : list string) : M (list Document) :=
  all_documents ← load_all env file_paths [];
  match all_documents with
  | [] => ret []
  | _ => ret (split_documents (text_splitter self) all_documents)
  end.

(** ** The vector database and the embedding service *)

(** One call to the embedding model: the call is recorded, then it
    returns or raises as the service does. *)
Definition embed_one (env : Env) (text : string) : M Embedding :=
  modify (set_embed_calls (fun l => l ++ [text]));;
  lift (embed_text env text).

Fixpoint embed_all (env : Env) (texts : list string) : M (list Embedding) :=
  match texts with
  | [] => ret []
  | t :: ts =>
      e ← embed_one env t;
      es ← embed_all env ts;
      ret (e :: es)
  end.

(** Modelled from the spec: [client.delete_collection] of the vector
    database (chromadb, third party).  Section 6: the store "supports
    add, similarity-query, and delete-collection operations".  Deleting a
    collection that is not there is reported as an error, the
    conservative reading: the caller's [except] branch is then live. *)
Definition delete_collection (collection : string) : M unit :=
  fun s =>
    match collections s !! collection with
    | Some _ => (Ok tt, set_collections (delete collection) s)
    | None =>
        (Raise (ValueError ("Collection " ++ collection ++ " does not exist.")), s)
    end.

(** Modelled from the spec: the constructor of the database wrapper
    ([Chroma(client=..., collection_name=...)], third party); section
    4.3, [clear()]: "recreates an empty one": the named collection is
    opened, and created empty when it does not exist. *)
Definition Chroma_open (collection : string) : M Chroma :=
  fun s =>
    (Ok (mkChroma collection),
     set_collections
       (fun c => match c !! collection with
                 | Some _ => c
                 | None => <[collection := []]> c
                 end) s).

(** Modelled from the spec: [add] of the wrapper (third party).  Section
    4.3: "embeds each chunk's text and persists (embedding, chunk) pairs
    to a named collection.  Fails (returns false / raises) if an embedding
    call fails for any chunk".  The choice the spec leaves open is made
    here as all-or-nothing: every text is embedded before anything is
    written. *)
Definition Chroma_add_documents (env : Env) (store : Chroma)
  (documents : list Document) : M unit :=
  embeddings ← embed_all env (map page_content documents);
  modify (set_collections
            (fun c => <[collection_name store :=
                          default [] (c !! collection_name store)
                          ++ zip_with mkVectorRecord documents embeddings]> c)).

(** The order the database ranks by: higher score first. *)
Definition by_score : relation (Document * Z) :=
  fun a b => (snd b <= snd a)%Z.

#[global] Instance by_score_dec : RelDecision by_score :=
  fun a b => Z_le_dec (snd b) (snd a).

(** Modelled from the spec: [retrieve(query, k)] of the vector database
    (third party).  Section 4.3: "embeds the query, returns the k chunks
    with highest similarity to the query embedding, along with their
    similarity scores and metadata.  Returns empty if the collection is
    empty or uninitialized." *)
Definition similarity_search_with_score (env : Env) (store : Chroma)
  (query : string) (k : nat) : M (list (Document * Z)) :=
  records ← gets (fun s => default [] (collections s !! collection_name store));
  match records with
  | [] => ret []
  | _ =>
      q ← embed_one env query;
      ret (take k
             (merge_sort by_score
                (map (fun r => (chunk r, similarity env q (embedding r)))
                     records)))
  end.

(** What [as_retriever(search_type=..., search_kwargs={"k": k})]
    returns: the store with the search settings. *)
Record Retriever := mkRetriever {
  retriever_store : Chroma;
  search_type : string;
  search_k : nat
}.

(** Modelled from the spec: running a retriever (third party): the
    chunks of [retrieve(query, k)], best first, without their scores. *)
Definition get_relevant_documents (env : Env) (r : Retriever) (query : string)
  : M (list Document) :=
  scored ← similarity_search_with_score env (retriever_store r) query (search_k r);
  ret (map fst scored).

(** ** vector_store.py *)

(** [VectorStore._initialize_vector_store] *)
Definition _initialize_vector_store : M unit :=
  try_except
    (store ← Chroma_open config.COLLECTION_NAME;
     modify (set_vector_store (Some store)))
    (fun e => show (st_error ("Error initializing vector store: " ++ exc_str e))).

(** [VectorStore.__init__] *)
Definition VectorStore_init : M unit :=
  modify (set_vector_store None);;
  _initialize_vector_store.

(** [VectorStore.add_documents] *)
Definition add_documents (env : Env) (documents : list Document) : M bool :=
  match documents with
  | [] => ret false
  | _ =>
      try_except
        (store ← gets vector_store;
         match store with
         | None =>
             raise (AttributeError
                      "'NoneType' object has no attribute 'add_documents'")
         | Some store => Chroma_add_documents env store documents
         end;;
         ret true)
        (fun e =>
           show (st_error ("Error adding documents: " ++ exc_str e));;
           ret false)
  end.

(** Modelled from the spec: [len] of the database wrapper (third
    party): the number of records of its collection.  Python takes an
    object with a length as true when the length is not zero, so a
    wrapper on an empty collection counts as false; section 4.3:
    "Returns empty if the collection is empty or uninitialized." *)
Definition Chroma_len (store : Chroma) : M nat :=
  gets (fun s => List.length (default [] (collections s !! collection_name store))).

(** [VectorStore.get_retriever]; [k = None] is a call that leaves the
    parameter to its default.  [if not self.vector_store] holds when the
    wrapper is [None] and when it is a wrapper on an empty collection. *)
Definition get_retriever (k : option nat) : M (option Retriever) :=
  store ← gets vector_store;
  match store with
  | None => ret None
  | Some store =>
      n ← Chroma_len store;
      if decide (n = 0) then ret None
      else ret (Some (mkRetriever store "similarity" (default 5 k)))
  end.

(** [VectorStore.clear_database] *)
Definition clear_database : M bool :=
  try_except
    (delete_collection config.COLLECTION_NAME;;
     _initialize_vector_store;;
     ret true)
    (fun e =>
       show (st_error ("Error clearing database: " ++ exc_str e));;
       ret false).

(** ** Prompts, the language model and the question-answering chain *)

(** [langchain.prompts.PromptTemplate] *)
Record PromptTemplate := mkPromptTemplate {
  template : string;
  input_variables : list string
}.

(** Modelled from the spec: rendering a prompt template (third party).
    Section 4.4: "substituting concatenated chunk texts for "context" and
    the raw question for "question"".  [skip] counts the characters of a
    placeholder still to be passed over. *)
Fixpoint render_from (skip : nat) (t context question : string) : string :=
  match t with
  | EmptyString => EmptyString
  | String c t' =>
      match skip with
      | S n => render_from n t' context question
      | O =>
          if PyStr.startswith "{context}" t
          then context ++ render_from 8 t' context question
          else if PyStr.startswith "{question}" t
          then question ++ render_from 9 t' context question
          else String c (render_from 0 t' context question)
      end
  end.

Definition PromptTemplate_format (p : PromptTemplate) (context question : string)
  : string :=
  render_from 0 (template p) context question.

(** One call to the language model: the prompt is recorded, then the
    model answers or the call raises. *)
Definition invoke_llm (env : Env) (prompt : string) : M string :=
  modify (set_llm_calls (fun l => l ++ [prompt]));;
  lift (llm_invoke env prompt).

(** What [RetrievalQA.from_chain_type] is given. *)
Record RetrievalQA := mkRetrievalQA {
  chain_type : string;
  retriever : Retriever;
  prompt : PromptTemplate;
  return_source_documents : bool
}.

(** Modelled from the spec: running the question-answering chain (third
    party).  Section 2: it "retrieves top-k chunks, renders the prompt,
    invokes the language model, and returns the answer plus cited source
    chunks"; the chunk texts are joined by a blank line. *)
Definition RetrievalQA_call (env : Env) (qa_chain : RetrievalQA) (query : string)
  : M (string * list Document) :=
  source_documents ← get_relevant_documents env (retriever qa_chain) query;
  let context := PyStr.join (String "010" (String "010" "")) (map page_content source_documents) in
  answer ← invoke_llm env (PromptTemplate_format (prompt qa_chain) context query);
  ret (answer, source_documents).

(** ** app.py *)

Record ResumeAnalyzer := mkResumeAnalyzer {
  document_processor : DocumentProcessor
}.

(** [ResumeAnalyzer.get_prompt_template]:
    [config.RESUME_PROMPTS.get(prompt_type, config.RESUME_PROMPTS["general"])] *)
Definition get_prompt_template (prompt_type : string) : PromptTemplate :=
  mkPromptTemplate
    (default (config.RESUME_PROMPTS !!! "general")
             (config.RESUME_PROMPTS !! prompt_type))
    ["context"; "question"].

(** [ResumeAnalyzer.setup_qa_chain] *)
Definition setup_qa_chain (prompt_type : string) : M (option RetrievalQA) :=
  retriever ← get_retriever (Some 5);
  match retriever with
  | None => ret None
  | Some retriever =>
      let prompt_template := get_prompt_template prompt_type in
      ret (Some (mkRetrievalQA "stuff" retriever prompt_template true))
  end.

(** [tempfile.NamedTemporaryFile(delete=False, suffix=...)] followed by
    [tmp_file.write(uploaded_file.getbuffer())]: a new file holding the
    upload's bytes; its path is returned.  This is what happens for a
    suffix without a slash, which is the case for every name the upload
    widget lets through (it only accepts names ending in pdf, txt or
    docx); for a suffix with a slash the file cannot be created and the
    call raises, which is not modelled: properties that depend on the
    call returning are stated for suffixes without a slash. *)
Definition save_upload (env : Env) (uploaded_file : UploadedFile) : M string :=
  n ← gets tmp_counter;
  let path :=
    (tmp_stem env n ++ "." ++ PyStr.last_dot_component (name uploaded_file))%string in
  modify (set_tmp_counter (S n));;
  modify (set_files (insert path (getbuffer uploaded_file)));;
  ret path.

(** The first loop of [process_uploaded_files], with its two local
    lists. *)
Fixpoint save_uploads (env : Env) (uploaded_files : list UploadedFile)
  (temp_files processed_names : list string) : M (list string * list string) :=
  match uploaded_files with
  | [] => ret (temp_files, processed_names)
  | uploaded_file :: rest =>
      path ← save_upload env uploaded_file;
      save_uploads env rest (temp_files ++ [path])
                   (processed_names ++ [name uploaded_file])
  end.

(** [os.unlink(temp_file)] inside [try ... except Exception: pass] *)
Definition unlink_quietly (temp_file : string) : M unit :=
  modify (set_files (delete temp_file)).

(** [ResumeAnalyzer.process_uploaded_files].  Saving an upload cannot
    raise here, so the lists the [finally] block sees are those of the
    completed first loop. *)
Definition process_uploaded_files (env : Env) (self : ResumeAnalyzer)
  (uploaded_files : list UploadedFile) : M bool :=
  match uploaded_files with
  | [] => ret false
  | _ =>
      '(temp_files, processed_names) ← save_uploads env uploaded_files [] [];
      try_finally
        (documents ← process_documents env (document_processor self) temp_files;
         match documents with
         | [] => ret false
         | _ =>
             success ← add_documents env documents;
             (if success : bool
              then modify (set_resumes_processed (fun l => l ++ processed_names))
              else ret tt);;
             ret success
         end)
        (for_each temp_files unlink_quietly)
  end.

(** [str] of a metadata value inside an f-string. *)
Definition meta_str (v : MetaValue) : string :=
  match v with
  | MStr s => s
  | MInt n => pretty n
  end.

(** The body of the "Resume Sources" expander: for each source, its
    file name and the first 400 characters of its text. *)
Definition show_sources (sources : list Document) : M unit :=
  for_each sources
    (fun source =>
       let filename := default "Unknown" (meta_str <$> metadata source !! "filename") in
       show (st_markdown ("**📄 " ++ filename ++ "**"));;
       show (st_markdown ("```" ++ String "010" ""
                          ++ PyStr.prefix_chars 400 (page_content source)
                          ++ "..." ++ String "010" "" ++ "```"))).

(** The part both question handlers of [run] share once a chain is
    there: run it, show the answer and its sources, record the message. *)
Definition answer_with_chain (env : Env) (qa_chain : RetrievalQA)
  (question : string) : M unit :=
  '(response, sources) ← RetrievalQA_call env qa_chain question;
  show (st_markdown response);;
  match sources with
  | [] => ret tt
  | _ => show_sources sources
  end;;
  modify (set_messages (fun l => l ++ [mkMessage "assistant" response (Some sources)])).

(** The [except Exception as e] branch of both handlers. *)
Definition report_failure (e : PyExc) : M unit :=
  let error_msg := ("❌ Error: " ++ exc_str e)%string in
  show (st_error error_msg);;
  modify (set_messages (fun l => l ++ [mkMessage "assistant" error_msg None])).

(** [run], lines 230-267: a question left by a quick-analysis button. *)
Definition handle_pending_question (env : Env) : M unit :=
  pending ← gets pending_question;
  match pending with
  | None => ret tt
  | Some question =>
      modify (set_pending_question None);;
      try_except
        (prompt_type ← gets current_prompt_type;
         qa_chain ← setup_qa_chain prompt_type;
         match qa_chain with
         | Some qa_chain => answer_with_chain env qa_chain question
         | None => show (st_error "Unable to setup analysis chain.")
         end)
        report_failure
  end.

(** [run], lines 269-312: a question typed into the chat box.  An
    empty input is falsy and starts nothing. *)
Definition handle_chat_input (env : Env) (chat_input : option string) : M unit :=
  match chat_input with
  | None => ret tt
  | Some prompt =>
      if decide (prompt = "") then ret tt
      else
        modify (set_messages (fun l => l ++ [mkMessage "user" prompt None]));;
        show (st_markdown prompt);;
        try_except
          (prompt_type ← gets current_prompt_type;
           qa_chain ← setup_qa_chain prompt_type;
           match qa_chain with
           | None =>
               show (st_error
                       "Unable to setup analysis chain. Please check your resumes.")
           | Some qa_chain => answer_with_chain env qa_chain prompt
           end)
          report_failure
  end.

(** [run], lines 130-137: the "Process Resumes" button was pressed.  The
    result tells whether the script asks to be run again ([st.rerun()]). *)
Definition press_process_resumes (env : Env) (self : ResumeAnalyzer)
  (uploaded_files : list UploadedFile) : M bool :=
  processed ← process_uploaded_files env self uploaded_files;
  if processed : bool
  then
    show (st_success ("✅ Processed " ++ pretty (List.length uploaded_files)
                      ++ " resumes!"));;
    ret true
  else show (st_error "❌ Failed to process resumes");; ret false.

(** [run], lines 174-179: the "Clear All" button was pressed. *)
Definition press_clear_all : M bool :=
  cleared ← clear_database;
  if cleared : bool
  then
    modify (set_resumes_processed (fun _ => []));;
    modify (set_messages (fun _ => []));;
    show (st_success "✅ Database cleared!");;
    ret true
  else ret false.

(** [run], lines 160-168: a quick-analysis button was pressed.  The
    result tells whether the script asks to be run again ([st.rerun()]). *)
Definition press_quick_question (question : string) : M bool :=
  processed ← gets resumes_processed;
  match processed with
  | [] => show (st_warning "Please upload resumes first!");; ret false
  | _ =>
      modify (set_messages (fun l => l ++ [mkMessage "user" question None]));;
      modify (set_pending_question (Some question));;
      ret true
  end.

(** The dict [mode_display] of [run]. *)
Definition mode_display : gmap string string :=
  <["general" := "🔍 General Analysis Mode"]>
  (<["technical" := "💻 Technical Skills Mode"]>
  (<["experience" := "💼 Experience Analysis Mode"]>
  (<["match" := "🎯 Role Matching Mode"]> ∅))).

Definition example_questions_technical : string :=
"
                **Technical Analysis:**
                - What programming languages does this candidate know?
                - List their technical certifications
                - What frameworks have they used?
                - Analyze their technical project experience
                ".

Definition example_questions_experience : string :=
"
                **Experience Analysis:**
                - Summarize their career progression
                - What leadership experience do they have?
                - Compare multiple candidates
                - Identify potential red flags
                ".

(** Showing one stored chat message. *)
Definition show_message (message : Message) : M unit :=
  show (st_markdown (content message));;
  match sources message with
  | Some ((_ :: _) as srcs) => show_sources srcs
  | _ => ret tt
  end.

(** [run], lines 181-312: the main interface.  With no processed resume
    in the session it only asks for an upload; otherwise it shows the
    chat and handles a pending or a typed question. *)
Definition main_interface (env : Env) (chat_input : option string) : M unit :=
  processed ← gets resumes_processed;
  match processed with
  | [] =>
      show (st_info "👆 Please upload resume files to start your analysis!");;
      show (st_markdown example_questions_technical);;
      show (st_markdown example_questions_experience)
  | _ =>
      prompt_type ← gets current_prompt_type;
      match mode_display !! prompt_type with
      | None => raise (KeyError prompt_type)
      | Some mode => show (st_info ("Current mode: " ++ mode))
      end;;
      history ← gets messages;
      for_each history show_message;;
      handle_pending_question env;;
      handle_chat_input env chat_input
  end.

(** ** app.py: the rest of the page *)

(** The four options of the analysis-type select box; the widget
    returns one of them. *)
Inductive AnalysisMode :=
| General
| Technical
| Experience
| Match.

Definition mode_key (m : AnalysisMode) : string :=
  match m with
  | General => "general"
  | Technical => "technical"
  | Experience => "experience"
  | Match => "match"
  end.

(** How a run of the script ends: it reaches its last line, it asks to
    be run again ([st.rerun()]), or it stops ([st.stop()]). *)
Inductive RunEnd :=
| Finished
| Rerun
| Stopped.

(** What the widgets return in one run: the uploaded files, whether the
    "Process Resumes" button was clicked, the selected analysis type,
    which quick-analysis buttons were clicked, whether "Clear All" was
    clicked, and the chat input. *)
Record UiInput := mkUiInput {
  in_uploaded_files : list UploadedFile;
  in_process_clicked : bool;
  in_selected_mode : AnalysisMode;
  in_quick_clicked : string -> bool;
  in_clear_clicked : bool;
  in_chat_input : option string
}.

(** Which keys [st.session_state] already holds when the script
    starts. *)
Record SessionKeys := mkSessionKeys {
  has_vector_store : bool;
  has_messages : bool;
  has_resumes_processed : bool;
  has_current_prompt_type : bool
}.

Definition set_current_prompt_type (prompt_type : string) (s : App) : App :=
  mkApp (ui s) (files s) (tmp_counter s) (collections s) (vector_store s)
        (embed_calls s) (llm_calls s) (messages s) (resumes_processed s)
        prompt_type (pending_question s).

(** [ResumeAnalyzer.__init__]: each session key is set only when it is
    missing; constructing the model client calls nothing. *)
Definition ResumeAnalyzer_init (keys : SessionKeys) : M ResumeAnalyzer :=
  (if has_vector_store keys then ret tt else VectorStore_init);;
  (if has_messages keys then ret tt else modify (set_messages (fun _ => [])));;
  (if has_resumes_processed keys then ret tt
   else modify (set_resumes_processed (fun _ => [])));;
  (if has_current_prompt_type keys then ret tt
   else modify (set_current_prompt_type "general"));;
  ret (mkResumeAnalyzer DocumentProcessor_init).

(** [st.write] of a string, which the front end renders as markdown. *)
Definition st_write (text : string) : M unit := show (st_markdown text).

(** [run], lines 99-106: the connection check.  The model is asked to
    complete "test"; the result is the status line of the sidebar. *)
Definition check_connection (env : Env) : M string :=
  try_except
    (invoke_llm env "test";; ret "🟢 Connected")
    (fun e =>
       show (st_error ("Cannot connect to Ollama: " ++ exc_str e));;
       show (st_info "Make sure Ollama is running: `ollama serve` and model is available: `ollama pull gemma:2b`");;
       ret "🔴 Disconnected").

(** [run], lines 111-118: the status lines of the sidebar and the list
    of loaded resumes. *)
Definition sidebar_status (connection_status : string) : M unit :=
  st_write ("Status: " ++ connection_status);;
  st_write ("Model: " ++ config.DEFAULT_MODEL);;
  processed ← gets resumes_processed;
  st_write ("Resumes loaded: " ++ pretty (List.length processed));;
  match processed with
  | [] => ret tt
  | _ => for_each processed (fun resume => st_write ("• " ++ resume))
  end.

(** [run], lines 123-137: the upload widget and its button.  The result
    tells whether the script asks to be run again. *)
Definition sidebar_upload (env : Env) (self : ResumeAnalyzer) (input : UiInput)
  : M bool :=
  match in_uploaded_files input with
  | [] => ret false
  | uploaded_files =>
      if in_process_clicked input
      then press_process_resumes env self uploaded_files
      else ret false
  end.

(** [run], lines 160-168: the loop over the quick-analysis buttons; it
    ends at the first button that asks for a rerun. *)
Fixpoint sidebar_quick_questions (clicked : string -> bool)
  (items : list (string * string)) : M bool :=
  match items with
  | [] => ret false
  | (question_type, question) :: rest =>
      rerun ← (if clicked question_type
               then press_quick_question question
               else ret false);
      if rerun : bool then ret true
      else sidebar_quick_questions clicked rest
  end.

(** [ResumeAnalyzer.run] *)
Definition run (env : Env) (self : ResumeAnalyzer) (input : UiInput) : M RunEnd :=
  show (st_markdown "**AI-powered resume analysis with local processing and privacy**");;
  connection_status ← check_connection env;
  sidebar_status connection_status;;
  rerun ← sidebar_upload env self input;
  if rerun : bool then ret Rerun
  else
    modify (set_current_prompt_type (mode_key (in_selected_mode input)));;
    rerun ← sidebar_quick_questions (in_quick_clicked input) config.QUICK_QUESTIONS;
    if rerun : bool then ret Rerun
    else
      rerun ← (if in_clear_clicked input then press_clear_all else ret false);
      if rerun : bool then ret Rerun
      else
        main_interface env (in_chat_input input);;
        ret Finished.

Definition ollama_help : string :=
"
        **Please ensure:**
        1. Ollama is installed and running: `ollama serve`
        2. The model is pulled: `ollama pull gemma:2b`
        3. The model is available: `ollama list`
        ".

(** [main]: the model is asked to complete "test"; when that fails the
    script stops before the analyzer is constructed. *)
Definition main (env : Env) (keys : SessionKeys) (input : UiInput) : M RunEnd :=
  healthy ← try_except
              (invoke_llm env "test";; ret true)
              (fun _ =>
                 show (st_error "❌ Ollama is not running or model not found!");;
                 show (st_markdown ollama_help);;
                 ret false);
  if healthy : bool
  then
    app ← ResumeAnalyzer_init keys;
    run env app input
  else ret Stopped.

(** ** Vocabulary of the properties *)

(** The extensions [load_document] has a parser for. *)
Definition supported_extensions : list string :=
  [".pdf"; ".txt"; ".md"; ".docx"].

(** The keys of [RESUME_PROMPTS]. *)
Definition recognized_modes : list string :=
  ["general"; "technical"; "experience"; "match"].

(** What [load_document] returns for a path, as a function of the file
    system: the parser's documents with the file name attached, nothing
    when no parser is chosen or the parser raises. *)
Definition loaded (env : Env) (fs : gmap string string) (file_path : string)
  : list Document :=
  match select_loader file_path with
  | Ok l =>
      match parse env l (fs !! loader_path l) with
      | Ok documents => map (set_filename file_path) documents
      | Raise _ => []
      end
  | Raise _ => []
  end.

(** The messages [load_document] shows for a path. *)
Definition load_report (env : Env) (fs : gmap string string) (file_path : string)
  : list UiEvent :=
  match select_loader file_path with
  | Ok l =>
      match parse env l (fs !! loader_path l) with
      | Ok _ => []
      | Raise e => [st_error ("Error loading " ++ file_path ++ ": " ++ exc_str e)]
      end
  | Raise e => [st_error ("Error loading " ++ file_path ++ ": " ++ exc_str e)]
  end.

(** A state after the front end was asked to show more events. *)
Definition add_ui (events : list UiEvent) (s : App) : App :=
  set_ui (fun l => l ++ events) s.

(** A state after more texts were sent to the embedding model. *)
Definition add_embed_calls (texts : list string) (s : App) : App :=
  set_embed_calls (fun l => l ++ texts) s.

(** A computation leaves a component of the state as it found it. *)
Definition keeps {X A} (f : App -> X) (m : M A) : Prop :=
  forall s, f (snd (m s)) = f s.

(** A computation always returns: no exception leaves it. *)
Definition never_raises {A} (m : M A) : Prop :=
  forall s, exists a, fst (m s) = Ok a.

(** The last [n] characters of [a] are the first [n] characters of [b]. *)
Definition overlap_by (n : nat) (a b : string) : Prop :=
  n <= PyStr.len a /\ n <= PyStr.len b /\
  PyStr.suffix_from (PyStr.len a - n) a = PyStr.prefix_chars n b.

(** The state [VectorStore.__init__] leaves behind: the wrapper is bound
    to the configured collection, and the collection exists. *)
Definition ready (s : App) : Prop :=
  vector_store s = Some (mkChroma config.COLLECTION_NAME) /\
  is_Some (collections s !! config.COLLECTION_NAME).

(** The records a store's collection holds. *)
Definition records_of (s : App) (store : Chroma) : list VectorRecord :=
  default [] (collections s !! collection_name store).

(** The store a retriever can be built on: the wrapper, when there is
    one and its collection holds a record. *)
Definition usable_store (s : App) : option Chroma :=
  match vector_store s with
  | Some store =>
      match records_of s store with
      | [] => None
      | _ => Some store
      end
  | None => None
  end.

(** Retrieval has nothing to return: there is no store, or its
    collection is empty or absent. *)
Definition nothing_to_retrieve (s : App) : Prop :=
  match vector_store s with
  | None => True
  | Some store => records_of s store = []
  end.

(** ** Sample environment and states *)

Fixpoint split_lines_from (cur s : string) : list string :=
  match s with
  | EmptyString => [cur]
  | String c s' =>
      if Ascii.eqb c "010"%char then cur :: split_lines_from "" s'
      else split_lines_from (cur ++ String c "")%string s'
  end.

(** A toy parser: a text or word file is one document; a PDF is a
    header line followed by one line per page, one document per page. *)
Definition sample_parse (l : Loader) (bytes : option string)
  : outcome (list Document) :=
  match bytes with
  | None => Raise (ExternalError "No such file or directory")
  | Some text =>
      match l with
      | PyPDFLoader p =>
          Ok (imap (fun i page =>
                      mkDocument page
                        (<["page" := MInt (Z.of_nat i)]> {["source" := MStr p]}))
                   (tail (split_lines_from "" text)))
      | TextLoader p _ | Docx2txtLoader p =>
          Ok [mkDocument text {["source" := MStr p]}]
      end
  end.

Definition sample_env : Env :=
  mkEnv sample_parse
        (fun t => Ok [Z.of_nat (String.length t)])
        (fun a b => (- Z.abs (hd 0 a - hd 0 b))%Z)
        (fun _ => Ok "The candidate knows Python.")
        (fun n => ("/tmp/tmp" ++ pretty n)%string).

(** A session before anything happened, and the same session once the
    [VectorStore] object is constructed. *)
Definition fresh_app : App :=
  mkApp [] ∅ 0 ∅ None [] [] [] [] "general" None.

Definition started_app : App := snd (VectorStore_init fresh_app).

Definition plain_doc (text : string) : Document := mkDocument text ∅.

(** The same services with the embedding model out of reach. *)
Definition offline_env : Env :=
  mkEnv sample_parse
        (fun _ => Raise (ExternalError "Connection refused"))
        (similarity sample_env) (llm_invoke sample_env) (tmp_stem sample_env).

Definition sample_analyzer : ResumeAnalyzer :=
  mkResumeAnalyzer DocumentProcessor_init.

(** A session whose database holds three chunks. *)
Definition stocked_app : App :=
  snd (add_documents sample_env
         [plain_doc "ab"; plain_doc "abcdefgh"; plain_doc "abcd"] started_app).

(** A session whose file system holds a PDF without pages, a text file
    and a spreadsheet. *)
Definition app_with_files : App :=
  set_files (fun _ => <["/tmp/blank.pdf" := "%PDF-1.4"]>
                      (<["/tmp/cv.txt" := "Experienced Python developer"]>
                      (<["/tmp/notes.csv" := "a,b"]> ∅)))
            fresh_app.

(** A text of two paragraphs of five hundred characters each. *)
Definition two_paragraphs : string :=
  (PyStr.join "" (replicate 500 "a") ++ String "010" (String "010" "")
   ++ PyStr.join "" (replicate 500 "b"))%string.

(** ** The claims that do not hold as stated, as predicates *)



(** "For an unsupported extension the loader fails with an error the
    caller can see." *)
Definition fails_on_unsupported (env : Env) (s : App) (file_path : string) : Prop :=
  file_extension file_path ∉ supported_extensions ->
  exists e, fst (load_document env file_path s) = Raise e.

(** "Every chunk is at most 800 characters long, consecutive chunks
    overlap by 100 characters, and each chunk carries the metadata of a
    parent document." *)
Definition chunks_as_claimed (documents : list Document) : Prop :=
  let chunks := split_documents (text_splitter DocumentProcessor_init) documents in
  Forall (fun c => PyStr.len (page_content c) <= 800) chunks /\
  (forall i a b, chunks !! i = Some a -> chunks !! S i = Some b ->
                 overlap_by 100 (page_content a) (page_content b)) /\
  Forall (fun c => exists d, d ∈ documents /\ metadata c = metadata d) chunks.

(** "A file with a supported extension that loads successfully gives at
    least one segment, each with the file's base name." *)
Definition loads_at_least_one (env : Env) (s : App) (file_path : string) : Prop :=
  forall l parsed,
    select_loader file_path = Ok l ->
    parse env l (files s !! file_path) = Ok parsed ->
    exists documents,
      fst (load_document env file_path s) = Ok documents /\
      documents <> [] /\
      Forall (fun d => metadata d !! "filename"
                       = Some (MStr (PyStr.basename file_path))) documents.

(** ** Vocabulary of the further properties *)

(** A component of the state only moves along a relation. *)
Definition evolves {X A} (R : relation X) (f : App -> X) (m : M A) : Prop :=
  forall s, R (f s) (f (snd (m s))).

(** A computation started in a state that satisfies [P] returns, with a
    result and a state that satisfy [Q]. *)
Definition returns_with {A} (P : App -> Prop) (m : M A) (Q : A -> App -> Prop)
  : Prop :=
  forall s, P s -> exists a s', m s = (Ok a, s') /\ Q a s'.

(** [c in s] for a one-character needle. *)
Fixpoint contains (c : ascii) (s : string) : bool :=
  match s with
  | EmptyString => false
  | String d s' => Ascii.eqb c d || contains c s'
  end.

(** The base name of a path has a character other than a dot. *)
Definition well_named (path : string) : Prop :=
  PyStr.has_non_dot (PyStr.basename path)
                    (String.length (PyStr.basename path)) = true.

(** The records of every collection of the database. *)
Definition all_records (s : App) (collection : string) : list VectorRecord :=
  default [] (collections s !! collection).

(** A state after one more prompt was sent to the language model. *)
Definition add_llm_calls (prompts : list string) (s : App) : App :=
  set_llm_calls (fun l => l ++ prompts) s.

(** Widget values of a run in which nothing is clicked or typed. *)
Definition idle_input : UiInput :=
  mkUiInput [] false General (fun _ => false) false None.

(** A run in which a question is typed and every quick-analysis button
    is clicked. *)
Definition eager_input : UiInput :=
  mkUiInput [] false Technical (fun _ => true) false (Some "Skills?").

Definition no_keys : SessionKeys := mkSessionKeys false false false false.
Definition all_keys : SessionKeys := mkSessionKeys true true true true.

(** The same services with the language model out of reach. *)
Definition mute_env : Env :=
  mkEnv sample_parse (embed_text sample_env) (similarity sample_env)
        (fun _ => Raise (ExternalError "Connection refused"))
        (tmp_stem sample_env).

(** A session with one processed resume in the database. *)
Definition loaded_app : App :=
  snd (process_uploaded_files sample_env sample_analyzer
         [mkUploadedFile "cv.txt" "Experienced Python developer"] started_app).

(** ** Facts about the string primitives *)

Section string_facts.

Implicit Types (s t : string) (n m k : nat).

Lemma append_cons x a b : (String x a ++ b)%string = String x (a ++ b)%string.
Proof. reflexivity. Qed.

Lemma append_nil_l b : ("" ++ b)%string = b.
Proof. reflexivity. Qed.

Lemma string_app_nil_r a : (a ++ "")%string = a.
Proof.
  induction a as [|x a IH]; rewrite ?append_cons, ?append_nil_l; [done|].
  by rewrite IH.
Qed.

Lemma if_same {A} (b : bool) (x : A) : (if b then x else x) = x.
Proof. by destruct b. Qed.

Lemma str_length_take n s :
  String.length (PyStr.take n s) = Nat.min n (String.length s).
Proof.
  revert s; induction n as [|n IH]; intros [|c s]; simpl; auto.
Qed.

Lemma str_length_drop n s :
  String.length (PyStr.drop n s) = String.length s - n.
Proof.
  revert s; induction n as [|n IH]; intros [|c s]; simpl; auto.
Qed.

Lemma str_take_all n s : String.length s <= n -> PyStr.take n s = s.
Proof.
  revert s; induction n as [|n IH]; intros [|c s]; simpl; intros H;
    try reflexivity; try lia.
  f_equal. apply IH. lia.
Qed.

Lemma str_take_take n m s :
  PyStr.take n (PyStr.take m s) = PyStr.take (Nat.min n m) s.
Proof.
  revert m s; induction n as [|n IH]; intros [|m] [|c s]; simpl; auto.
  f_equal. apply IH.
Qed.

Lemma str_drop_take n k s :
  PyStr.drop n (PyStr.take (n + k) s) = PyStr.take k (PyStr.drop n s).
Proof.
  revert s; induction n as [|n IH]; intros s; simpl.
  - destruct k, s; reflexivity.
  - destruct s as [|c s]; simpl; [by destruct k|]. apply IH.
Qed.

Lemma str_length_zero s : String.length s = 0 -> s = "".
Proof. by destruct s. Qed.

End string_facts.

(** ** Facts about the splitter *)

Section splitter_facts.

Lemma len_app a b : PyStr.len (a ++ b) = PyStr.len a + PyStr.len b.
Proof.
  induction a as [|c a IH]; [done|].
  rewrite append_cons. cbn [PyStr.len]. rewrite IH. lia.
Qed.

Lemma join_cons sep p ps :
  PyStr.join sep (p :: ps)
  = match ps with [] => p | _ => (p ++ sep ++ PyStr.join sep ps)%string end.
Proof. by destruct ps. Qed.

Lemma len_join l :
  PyStr.len (PyStr.join "" l) = sum_list_with PyStr.len l.
Proof.
  induction l as [|p ps IH]; [done|]. rewrite join_cons.
  destruct ps as [|q qs]; [simpl; lia|].
  rewrite len_app, append_nil_l, IH. done.
Qed.

Lemma join_chars s : PyStr.join "" (PyStr.chars s) = s.
Proof.
  induction s as [|c s IH]; [done|]. cbn [PyStr.chars].
  destruct s as [|d r]; [done|].
  destruct (PyStr.chars (String d r)) as [|ch rest] eqn:Hch; [done|].
  destruct (PyStr.is_continuation d).
  - rewrite join_cons in IH |- *. destruct rest as [|q qs].
    + by rewrite IH.
    + by rewrite append_cons, IH.
  - rewrite join_cons. by rewrite append_cons, !append_nil_l, IH.
Qed.

Lemma chars_shape s :
  match s with
  | EmptyString => PyStr.chars s = []
  | String d r =>
      exists t rest, PyStr.chars s = String d t :: rest /\ PyStr.len t = 0
  end /\
  Forall (fun ch => PyStr.len ch <= 1) (PyStr.chars s).
Proof.
  induction s as [|c s [IHhead IHall]]; [by split|]. cbn [PyStr.chars].
  destruct s as [|d r].
  { split; [by eexists _, _|]. cbn [PyStr.chars]. constructor; [|constructor].
    cbn [PyStr.len]. destruct (PyStr.is_continuation c); lia. }
  destruct IHhead as (t & rest & Hch & Ht). rewrite Hch in *.
  apply Forall_cons in IHall as [Hhead Hrest].
  destruct (PyStr.is_continuation d) eqn:Hd.
  - split; [eexists _, _; split; [done|]; cbn [PyStr.len]; rewrite Hd; lia|].
    constructor; [|done]. cbn [PyStr.len]. rewrite Hd, Ht.
    destruct (PyStr.is_continuation c); lia.
  - split; [by eexists _, _|]. constructor; [|by constructor].
    cbn [PyStr.len]. destruct (PyStr.is_continuation c); lia.
Qed.

Lemma len_chars s : Forall (fun ch => PyStr.len ch <= 1) (PyStr.chars s).
Proof. apply chars_shape. Qed.

Lemma sum_lstrip l :
  sum_list_with PyStr.len (PyStr.lstrip_chars l) <= sum_list_with PyStr.len l.
Proof.
  induction l as [|ch rest IH]; [done|]. cbn [PyStr.lstrip_chars].
  destruct (PyStr.isspace ch); simpl in *; lia.
Qed.

Lemma sum_rev l :
  sum_list_with PyStr.len (rev l) = sum_list_with PyStr.len l.
Proof.
  induction l as [|x l IH]; [done|]. simpl.
  rewrite sum_list_with_app, IH. simpl. lia.
Qed.

Lemma len_strip s : PyStr.len (PyStr.strip s) <= PyStr.len s.
Proof.
  unfold PyStr.strip. rewrite len_join, sum_rev.
  etrans; [apply sum_lstrip|]. rewrite sum_rev.
  etrans; [apply sum_lstrip|]. by rewrite <- len_join, join_chars.
Qed.

Context (sp : TextSplitter).

Local Abbreviation bounded := (Forall (fun c => PyStr.len c <= chunk_size sp)).

Lemma join_docs_bounded current_doc :
  sum_list_with PyStr.len current_doc <= chunk_size sp ->
  bounded (option_list (_join_docs current_doc "")).
Proof.
  intros Hsum. unfold _join_docs.
  destruct (decide (PyStr.strip (PyStr.join "" current_doc) = ""));
    [constructor|].
  repeat constructor. etrans; [apply len_strip|]. by rewrite len_join.
Qed.

Lemma pop_front_sum _len current_doc total :
  total = sum_list_with PyStr.len current_doc ->
  let '(current_doc', total') := pop_front sp 0 _len current_doc total in
  total' = sum_list_with PyStr.len current_doc' /\
  (total' + _len <= chunk_size sp \/ total' = 0).
Proof.
  revert total. induction current_doc as [|first rest IH]; intros total ->.
  { simpl. split; [done|]. by right. }
  cbn [pop_front].
  destruct ((chunk_overlap sp <? _)%nat || _) eqn:Hcond.
  - apply IH. simpl. destruct (1 <? S (List.length rest))%nat; lia.
  - split; [done|].
    apply orb_false_iff in Hcond as [_ Hcond].
    apply andb_false_iff in Hcond as [Hcond|Hcond].
    + apply Nat.ltb_ge in Hcond. left. lia.
    + apply Nat.ltb_ge in Hcond. right. lia.
Qed.

Lemma merge_from_bounded splits docs current_doc total :
  Forall (fun d => PyStr.len d < chunk_size sp) splits ->
  total = sum_list_with PyStr.len current_doc ->
  total <= chunk_size sp ->
  bounded docs ->
  bounded (merge_from sp "" splits docs current_doc total).
Proof.
  revert docs current_doc total.
  induction splits as [|d rest IH]; intros docs current_doc total Hsplits -> Htotal Hdocs.
  { simpl. apply Forall_app. split; [done|]. by apply join_docs_bounded. }
  apply Forall_cons in Hsplits as [Hd Hrest].
  cbn [merge_from]. cbn [PyStr.len]. rewrite !if_same, !Nat.add_0_r.
  destruct (chunk_size sp <? _)%nat eqn:Hover.
  - destruct current_doc as [|c cs].
    + rewrite ?if_same, ?Nat.add_0_r. apply IH; try done; simpl; lia.
    + pose proof (pop_front_sum (PyStr.len d) (c :: cs) _ eq_refl) as Hpop.
      destruct (pop_front sp 0 (PyStr.len d) (c :: cs) _)
        as [current_doc' total'].
      destruct Hpop as [-> Hexit].
      rewrite if_same, Nat.add_0_r. apply IH; try done.
      * rewrite sum_list_with_app. simpl. lia.
      * lia.
      * apply Forall_app. split; [done|]. by apply join_docs_bounded.
  - apply Nat.ltb_ge in Hover. rewrite ?if_same, ?Nat.add_0_r.
    apply IH; try done; rewrite ?sum_list_with_app; simpl; lia.
Qed.

Lemma merge_splits_bounded splits :
  Forall (fun d => PyStr.len d < chunk_size sp) splits ->
  bounded (_merge_splits sp splits "").
Proof.
  intros Hsplits. unfold _merge_splits.
  apply merge_from_bounded; [done|done|simpl; lia|constructor].
Qed.

Lemma split_loop_bounded finer splits _good_splits final_chunks :
  Forall (fun s => chunk_size sp <= PyStr.len s -> bounded (finer s)) splits ->
  Forall (fun d => PyStr.len d < chunk_size sp) _good_splits ->
  bounded final_chunks ->
  bounded (split_loop sp finer splits _good_splits final_chunks).
Proof.
  revert _good_splits final_chunks.
  induction splits as [|s rest IH]; intros good final Hfiner Hgood Hfinal.
  { simpl. destruct good; [done|]. apply Forall_app. split; [done|].
    by apply merge_splits_bounded. }
  apply Forall_cons in Hfiner as [Hs Hrest]. cbn [split_loop].
  destruct (PyStr.len s <? chunk_size sp)%nat eqn:Hlen.
  - apply Nat.ltb_lt in Hlen. apply IH; try done.
    apply Forall_app. split; [done|]. by repeat constructor.
  - apply Nat.ltb_ge in Hlen. apply IH; try done.
    apply Forall_app. split; [|by apply Hs].
    destruct good; [done|]. apply Forall_app. split; [done|].
    by apply merge_splits_bounded.
Qed.

Lemma split_into_chars_bounded text :
  1 < chunk_size sp ->
  bounded (split_loop sp (fun s => [s]) (_split_text_with_regex text "") [] []).
Proof.
  intros Hsize. apply split_loop_bounded; [|constructor|constructor].
  unfold _split_text_with_regex. rewrite decide_True by done.
  apply Forall_forall. intros ch [_ Hch]%list_elem_of_filter Hlong.
  pose proof (len_chars text) as Hall. rewrite Forall_forall in Hall.
  specialize (Hall ch Hch). lia.
Qed.

(** With the empty separator among them, no chunk is longer than the
    chunk size. *)
Lemma split_text_from_bounded separators text :
  1 < chunk_size sp ->
  "" ∈ separators ->
  bounded (_split_text sp (List.last separators "") separators text).
Proof.
  intros Hsize. generalize (List.last separators "") as last.
  intros last Hin. revert text.
  induction separators as [|_s new_separators IH]; intros text;
    [by apply elem_of_nil in Hin|].
  cbn [_split_text]. destruct (decide (_s = "")) as [->|Hne].
  { by apply split_into_chars_bounded. }
  apply elem_of_cons in Hin as [Heq|Hin]; [done|].
  destruct (PyStr.contains_str _s text); [|by apply IH].
  apply split_loop_bounded; [|constructor|constructor].
  apply Forall_forall. intros s _ _.
  destruct new_separators; [by apply elem_of_nil in Hin|]. by apply IH.
Qed.

Lemma split_text_bounded text :
  1 < chunk_size sp -> bounded (split_text sp text).
Proof.
  intros Hsize. apply split_text_from_bounded; [done|].
  unfold default_separators. rewrite !elem_of_cons. auto.
Qed.

End splitter_facts.

Lemma split_documents_chunk sp documents c :
  c ∈ split_documents sp documents <->
  exists d, d ∈ documents /\ metadata c = metadata d /\
            page_content c ∈ split_text sp (page_content d).
Proof.
  unfold split_documents. rewrite list_elem_of_In, in_flat_map. split.
  - intros (d & Hd & Hc). apply in_map_iff in Hc as (t & <- & Ht).
    exists d. by rewrite !list_elem_of_In.
  - intros (d & Hd & Hm & Hc). exists d. rewrite <- list_elem_of_In.
    split; [done|]. apply in_map_iff. exists (page_content c).
    rewrite <- list_elem_of_In. split; [|done].
    destruct c as [text meta]; simpl in *. by rewrite Hm.
Qed.

(** ** Facts about the monad *)

Section monad_facts.

Context {X : Type} (f : App -> X).

Lemma keeps_ret {A} (a : A) : keeps f (ret a).
Proof. by intros s. Qed.

Lemma keeps_mret {A} (a : A) : keeps f (mret a).
Proof. by intros s. Qed.

Lemma keeps_raise {A} e : keeps f (@raise A e).
Proof. by intros s. Qed.

Lemma keeps_lift {A} (o : outcome A) : keeps f (lift o).
Proof. by intros s. Qed.

Lemma keeps_gets {A} (g : App -> A) : keeps f (gets g).
Proof. by intros s. Qed.

Lemma keeps_modify (g : App -> App) :
  (forall s, f (g s) = f s) -> keeps f (modify g).
Proof. intros Hg s. apply Hg. Qed.

Lemma keeps_bind {A B} (m : M A) (k : A -> M B) :
  keeps f m -> (forall a, keeps f (k a)) -> keeps f (m ≫= k).
Proof.
  intros Hm Hk s. unfold mbind, M_bind, bind.
  specialize (Hm s). destruct (m s) as [[a|e] s']; simpl in *; [|done].
  by rewrite Hk.
Qed.

Lemma keeps_try_except {A} (body : M A) handler :
  keeps f body -> (forall e, keeps f (handler e)) ->
  keeps f (try_except body handler).
Proof.
  intros Hm Hk s. unfold try_except.
  specialize (Hm s). destruct (body s) as [[a|e] s']; simpl in *; [done|].
  by rewrite Hk.
Qed.

Lemma keeps_try_finally {A} (body : M A) cleanup :
  keeps f body -> keeps f cleanup -> keeps f (try_finally body cleanup).
Proof.
  intros Hm Hc s. unfold try_finally.
  specialize (Hm s). destruct (body s) as [r s']; simpl in *.
  specialize (Hc s'). by destruct (cleanup s') as [[[]|e] s'']; simpl in *;
    rewrite Hc.
Qed.

Lemma keeps_for_each {A} (xs : list A) body :
  (forall x, keeps f (body x)) -> keeps f (for_each xs body).
Proof.
  intros Hb. induction xs as [|x xs IH]; simpl.
  - apply keeps_ret.
  - apply keeps_bind; auto.
Qed.

Lemma keeps_show ev :
  (forall g s, f (set_ui g s) = f s) -> keeps f (show ev).
Proof. intros H. apply keeps_modify. intros s. apply H. Qed.

End monad_facts.

Lemma never_raises_for_each {A} (xs : list A) body :
  (forall x s, exists s', body x s = (Ok tt, s')) ->
  forall s, exists s', for_each xs body s = (Ok tt, s').
Proof.
  intros Hb. induction xs as [|x xs IH]; intros s; simpl.
  - by eexists.
  - unfold mbind, M_bind, bind. destruct (Hb x s) as [s' ->]. apply IH.
Qed.

Lemma add_ui_nil s : add_ui [] s = s.
Proof. destruct s. unfold add_ui, set_ui. simpl. by rewrite app_nil_r. Qed.

Lemma add_ui_app a b s : add_ui b (add_ui a s) = add_ui (a ++ b) s.
Proof. destruct s. unfold add_ui, set_ui. simpl. by rewrite app_assoc. Qed.

Lemma add_embed_calls_nil s : add_embed_calls [] s = s.
Proof.
  destruct s. unfold add_embed_calls, set_embed_calls. simpl.
  by rewrite app_nil_r.
Qed.

Lemma add_embed_calls_app a b s :
  add_embed_calls b (add_embed_calls a s) = add_embed_calls (a ++ b) s.
Proof.
  destruct s. unfold add_embed_calls, set_embed_calls. simpl.
  by rewrite app_assoc.
Qed.

(** ** Facts about document_processor.py *)

Lemma load_document_run env file_path s :
  load_document env file_path s
  = (Ok (loaded env (files s) file_path),
     add_ui (load_report env (files s) file_path) s).
Proof.
  unfold load_document, loaded, load_report, try_except, loader_load, lift.
  unfold mbind, M_bind, bind.
  destruct (select_loader file_path) as [l|e]; simpl.
  - destruct (parse env l (files s !! loader_path l)) as [documents|e]; simpl.
    + by rewrite add_ui_nil.
    + done.
  - done.
Qed.

Lemma load_all_run env file_paths all_documents s :
  load_all env file_paths all_documents s
  = (Ok (all_documents ++ flat_map (loaded env (files s)) file_paths),
     add_ui (flat_map (load_report env (files s)) file_paths) s).
Proof.
  revert all_documents s.
  induction file_paths as [|file_path rest IH]; intros all_documents s; simpl.
  - by rewrite app_nil_r, add_ui_nil.
  - unfold mbind, M_bind, bind. rewrite load_document_run, IH. simpl.
    by rewrite add_ui_app, app_assoc.
Qed.

Lemma process_documents_run env self file_paths s :
  process_documents env self file_paths s
  = (Ok (match flat_map (loaded env (files s)) file_paths with
         | [] => []
         | all_documents =>
             split_documents (text_splitter self) all_documents
         end),
     add_ui (flat_map (load_report env (files s)) file_paths) s).
Proof.
  unfold process_documents, mbind, M_bind, bind.
  rewrite load_all_run. simpl.
  by destruct (flat_map (loaded env (files s)) file_paths).
Qed.

(** The loader chooses a parser exactly for the supported extensions,
    and the parser is given the path itself. *)
Lemma select_loader_supported file_path :
  file_extension file_path ∈ supported_extensions <->
  exists l, select_loader file_path = Ok l.
Proof.
  unfold select_loader, supported_extensions.
  repeat case_decide; rewrite ?elem_of_cons, ?elem_of_nil in *;
    split; intros Hs; eauto; try tauto.
  by destruct Hs.
Qed.

Lemma select_loader_path file_path l :
  select_loader file_path = Ok l -> loader_path l = file_path.
Proof.
  unfold select_loader. repeat case_decide; intros [= <-]; done.
Qed.

Lemma select_loader_unsupported file_path :
  file_extension file_path ∉ supported_extensions ->
  select_loader file_path
  = Raise (ValueError ("Unsupported file type: " ++ file_extension file_path)).
Proof.
  unfold select_loader, supported_extensions.
  repeat case_decide; rewrite ?elem_of_cons, ?elem_of_nil in *;
    intros Hs; try done; tauto.
Qed.

(** Two runs over the same file system load and split alike, whatever
    else differs between the two sessions. *)
Lemma process_documents_same_files env self file_paths s1 s2 :
  files s1 = files s2 ->
  fst (process_documents env self file_paths s1)
  = fst (process_documents env self file_paths s2).
Proof. intros Hfs. rewrite !process_documents_run. simpl. by rewrite Hfs. Qed.

(** ** Facts about the vector store *)

#[global] Instance by_score_total : Total by_score.
Proof. intros a b. unfold by_score. lia. Qed.

#[global] Instance by_score_trans : Transitive by_score.
Proof. intros a b c. unfold by_score. lia. Qed.

Lemma StronglySorted_take {A} (R : relation A) k l :
  StronglySorted R l -> StronglySorted R (take k l).
Proof.
  intros Hsorted. revert k.
  induction Hsorted as [|x l Hl IH Hx]; intros [|k]; simpl; try constructor.
  - apply IH.
  - by apply Forall_take.
Qed.

Lemma embed_one_run env text s :
  embed_one env text s = (embed_text env text, add_embed_calls [text] s).
Proof. reflexivity. Qed.

(** Embedding a list of texts only talks to the embedding model: the
    texts sent are a prefix of the list, all of it when no call fails. *)
Lemma embed_all_run env texts s :
  exists r sent,
    embed_all env texts s = (r, add_embed_calls sent s) /\
    sent `prefix_of` texts /\
    (forall embeddings, r = Ok embeddings ->
       sent = texts /\ List.length embeddings = List.length texts).
Proof.
  revert s. induction texts as [|t ts IH]; intros s; simpl.
  - exists (Ok []), []. rewrite add_embed_calls_nil.
    split; [done|]. split; [done|]. by intros ? [= <-].
  - unfold mbind, M_bind, bind. rewrite embed_one_run.
    destruct (embed_text env t) as [e|exc].
    + destruct (IH (add_embed_calls [t] s)) as (r & sent & -> & Hpre & Hok).
      rewrite add_embed_calls_app. destruct r as [es|exc].
      * exists (Ok (e :: es)), (t :: sent).
        split; [done|]. split; [by apply prefix_cons|].
        intros ? [= <-]. destruct (Hok es eq_refl) as [-> Hlen].
        simpl. by rewrite Hlen.
      * exists (Raise exc), (t :: sent).
        split; [done|]. split; [by apply prefix_cons|]. by intros ? [=].
    + exists (Raise exc), [t].
      split; [done|]. split; [apply prefix_cons, prefix_nil|]. by intros ? [=].
Qed.

(** What a search returns: at most [k] scored chunks, best first, each
    a stored chunk with its score against the query's embedding. *)
Lemma similarity_search_run env store query k s scored :
  fst (similarity_search_with_score env store query k s) = Ok scored ->
  List.length scored <= k /\
  StronglySorted by_score scored /\
  Forall (fun p => exists q r,
            embed_text env query = Ok q /\ r ∈ records_of s store /\
            p = (chunk r, similarity env q (embedding r))) scored.
Proof.
  unfold similarity_search_with_score, mbind, M_bind, bind, gets.
  fold (records_of s store). simpl.
  destruct (records_of s store) as [|r0 rs] eqn:Hrecords; simpl.
  - intros [= <-]. repeat split; [simpl; lia|constructor|constructor].
  - destruct (embed_text env query) as [q|exc]; simpl; [|discriminate].
    intros [= <-]. repeat split.
    + rewrite length_take. lia.
    + apply StronglySorted_take, StronglySorted_merge_sort; apply _.
    + apply Forall_forall. intros p Hp.
      apply elem_of_take in Hp as (i & Hp & _).
      apply list_elem_of_lookup_2 in Hp. rewrite merge_sort_Permutation in Hp.
      change (?x :: map ?g rs) with (map g (r0 :: rs)) in Hp.
      apply list_elem_of_In, in_map_iff in Hp as (r & <- & Hr).
      exists q, r. by rewrite list_elem_of_In.
Qed.

(** A search over an empty or absent collection returns nothing and
    calls no service. *)
Lemma similarity_search_empty env store query k s :
  records_of s store = [] ->
  similarity_search_with_score env store query k s = (Ok [], s).
Proof.
  intros Hempty.
  unfold similarity_search_with_score, mbind, M_bind, bind, gets.
  fold (records_of s store). by rewrite Hempty.
Qed.

Lemma get_retriever_run k s :
  get_retriever k s
  = (Ok ((fun store => mkRetriever store "similarity" (default 5 k))
           <$> usable_store s), s).
Proof.
  unfold get_retriever, usable_store, Chroma_len, records_of,
    mbind, M_bind, bind, gets.
  destruct (vector_store s) as [store|]; [|done].
  by destruct (default [] (collections s !! collection_name store)).
Qed.

Lemma usable_store_none s : usable_store s = None <-> nothing_to_retrieve s.
Proof.
  unfold usable_store, nothing_to_retrieve.
  destruct (vector_store s) as [store|]; [|done].
  by destruct (records_of s store).
Qed.

Lemma usable_store_some s store :
  usable_store s = Some store <->
  vector_store s = Some store /\ records_of s store <> [].
Proof.
  unfold usable_store. destruct (vector_store s) as [store'|].
  - destruct (records_of s store') eqn:Hrecords.
    + split; [done|]. intros [[= ->] Hne]. by rewrite Hrecords in Hne.
    + split; [intros [= ->]; by rewrite Hrecords|by intros [[= ->] _]].
  - split; [done|]. by intros [? _].
Qed.

(** A step that leaves the wrapper and the database alone leaves the
    usable store alone. *)
Lemma usable_store_frame s s' :
  vector_store s' = vector_store s -> collections s' = collections s ->
  usable_store s' = usable_store s.
Proof.
  intros Hstore Hcollections. unfold usable_store, records_of.
  by rewrite Hstore, Hcollections.
Qed.

(** [VectorStore.__init__] leaves the store ready, whatever the database
    held before. *)
Lemma VectorStore_init_ready s : ready (snd (VectorStore_init s)).
Proof.
  unfold ready. simpl. split; [done|].
  destruct (collections s !! config.COLLECTION_NAME) eqn:Hc.
  - by rewrite Hc.
  - rewrite lookup_insert_eq. by eexists.
Qed.

(** On a ready store [add_documents] returns without raising, and the
    store stays ready; the texts are embedded before anything is
    written, and a failed embedding writes nothing. *)
Lemma add_documents_ready env documents s :
  ready s ->
  exists b s',
    add_documents env documents s = (Ok b, s') /\ ready s' /\
    (b = false -> collections s' = collections s).
Proof.
  intros [Hstore Hcoll]. destruct documents as [|d ds].
  - exists false, s. repeat split; done.
  - unfold add_documents, try_except, mbind, M_bind, bind, gets.
    rewrite Hstore. unfold Chroma_add_documents, mbind, M_bind, bind.
    destruct (embed_all_run env (map page_content (d :: ds)) s)
      as (r & sent & -> & _ & _).
    destruct r as [embeddings|exc]; simpl.
    + eexists true, _. repeat split; try done.
      simpl. rewrite lookup_insert_eq. by eexists.
    + eexists false, _. repeat split; done.
Qed.

(** On a ready store [clear_database] succeeds: the collection is
    deleted and an empty one is put in its place, nothing else changes. *)
Lemma clear_database_run s :
  ready s ->
  clear_database s
  = (Ok true,
     set_collections
       (fun c => <[config.COLLECTION_NAME := []]> (delete config.COLLECTION_NAME c))
       s).
Proof.
  intros [Hstore [records Hrecords]].
  unfold clear_database, try_except, mbind, M_bind, bind, delete_collection.
  rewrite Hrecords. simpl.
  destruct s as [u fs n c vs ec lc ms rp cpt pq]. simpl in *.
  unfold set_vector_store, set_collections. simpl.
  rewrite lookup_delete_eq. by subst vs.
Qed.

(** The default of [get_retriever]'s parameter is 5. *)
Lemma get_retriever_default s : get_retriever None s = get_retriever (Some 5) s.
Proof. reflexivity. Qed.

(** ** Facts about app.py *)

(** The prompt dict has exactly the four recognized modes as keys. *)
Lemma RESUME_PROMPTS_unknown prompt_type :
  config.RESUME_PROMPTS !! prompt_type = None <->
  prompt_type ∉ recognized_modes.
Proof.
  unfold config.RESUME_PROMPTS, recognized_modes. split.
  - intros Hnone Hin. rewrite !elem_of_cons, elem_of_nil in Hin.
    destruct Hin as [->|[->|[->|[->|[]]]]]; vm_compute in Hnone; discriminate.
  - intros Hnotin. rewrite !not_elem_of_cons in Hnotin.
    destruct Hnotin as (? & ? & ? & ? & _).
    by rewrite !lookup_insert_ne, lookup_empty.
Qed.

Lemma RESUME_PROMPTS_general :
  config.RESUME_PROMPTS !!! "general" = config.general_template.
Proof. apply lookup_total_correct, lookup_insert_eq. Qed.

(** Each recognized mode selects its own template. *)
Lemma get_prompt_template_recognized :
  template (get_prompt_template "general") = config.general_template /\
  template (get_prompt_template "technical") = config.technical_template /\
  template (get_prompt_template "experience") = config.experience_template /\
  template (get_prompt_template "match") = config.match_template.
Proof. repeat split; by vm_compute. Qed.

Ltac keeps_step :=
  first
    [ apply keeps_ret | apply keeps_mret | apply keeps_raise | apply keeps_lift
    | apply keeps_gets | apply keeps_bind | apply keeps_try_except
    | apply keeps_try_finally | apply keeps_for_each
    | apply keeps_modify; intros []; reflexivity
    | match goal with
      | |- keeps _ (match ?x with _ => _ end) => destruct x
      end
    | match goal with |- forall _, _ => intro end ].

Ltac keeps_auto := repeat keeps_step.

Lemma keeps_embed_all {X} (f : App -> X) env texts :
  (forall g s, f (set_embed_calls g s) = f s) ->
  keeps f (embed_all env texts).
Proof.
  intros Hf. induction texts as [|t ts IH]; simpl; [apply keeps_mret|].
  apply keeps_bind; [|intros e; apply keeps_bind; [done|intros; apply keeps_mret]].
  apply keeps_bind; [|intros; apply keeps_lift].
  apply keeps_modify. intros s. apply Hf.
Qed.

Lemma add_documents_keeps_resumes env documents :
  keeps resumes_processed (add_documents env documents).
Proof.
  unfold add_documents, Chroma_add_documents, show.
  destruct documents; [apply keeps_ret|].
  apply keeps_try_except; [|keeps_auto].
  apply keeps_bind; [apply keeps_gets|].
  intros [store|]; [|keeps_auto].
  apply keeps_bind; [|keeps_auto].
  apply keeps_bind; [by apply keeps_embed_all|keeps_auto].
Qed.

Lemma add_documents_returns env documents s :
  exists b, fst (add_documents env documents s) = Ok b.
Proof.
  unfold add_documents. destruct documents; [by exists false|].
  unfold try_except.
  match goal with |- context [match ?m s with _ => _ end] =>
    destruct (m s) as [[b|exc] s'] end; simpl; eauto.
Qed.

Lemma save_uploads_run env uploaded_files temp_files processed_names s :
  exists paths s1,
    save_uploads env uploaded_files temp_files processed_names s
    = (Ok (temp_files ++ paths, processed_names ++ map name uploaded_files), s1) /\
    List.length paths = List.length uploaded_files /\
    resumes_processed s1 = resumes_processed s.
Proof.
  revert temp_files processed_names s.
  induction uploaded_files as [|u us IH]; intros temp_files processed_names s.
  - exists [], s. simpl. by rewrite !app_nil_r.
  - simpl. unfold mbind, M_bind, bind. simpl.
    match goal with |- context [save_uploads env us ?t ?p ?s0] =>
      destruct (IH t p s0) as (paths & s1 & -> & Hlen & Hkeep) end.
    eexists (_ :: paths), s1. rewrite <- !app_assoc. simpl.
    split; [done|]. split; [by rewrite Hlen|]. by rewrite Hkeep.
Qed.

Lemma unlink_all_run temp_files s :
  exists s', for_each temp_files unlink_quietly s = (Ok tt, s') /\
             resumes_processed s' = resumes_processed s.
Proof.
  destruct (never_raises_for_each temp_files unlink_quietly) with (s := s)
    as [s' Hrun]; [by eexists|].
  exists s'. split; [done|].
  pose proof (keeps_for_each resumes_processed temp_files unlink_quietly) as Hk.
  specialize (Hk (fun x => ltac:(by intros []))) . specialize (Hk s).
  by rewrite Hrun in Hk.
Qed.

Lemma show_run ev s : show ev s = (Ok tt, add_ui [ev] s).
Proof. reflexivity. Qed.

(** The chain [setup_qa_chain] builds in a state, if any. *)
Lemma setup_qa_chain_run prompt_type s :
  setup_qa_chain prompt_type s
  = (Ok ((fun store =>
            mkRetrievalQA "stuff" (mkRetriever store "similarity" 5)
                          (get_prompt_template prompt_type) true)
           <$> usable_store s), s).
Proof.
  unfold setup_qa_chain, mbind, M_bind, bind. rewrite get_retriever_run.
  by destruct (usable_store s).
Qed.

Lemma handler_body_run (K : option RetrievalQA -> M unit) handler s :
  try_except
    (prompt_type ← gets current_prompt_type;
     qa_chain ← setup_qa_chain prompt_type;
     K qa_chain) handler s
  = try_except
      (K ((fun store =>
             mkRetrievalQA "stuff" (mkRetriever store "similarity" 5)
                           (get_prompt_template (current_prompt_type s)) true)
            <$> usable_store s)) handler s.
Proof.
  unfold try_except, mbind, M_bind, bind, gets.
  by rewrite setup_qa_chain_run.
Qed.

(** A typed question when no chain can be set up: only the user's
    message is recorded, and the setup error is shown. *)
Lemma handle_chat_input_no_chain env question s :
  question <> "" ->
  usable_store s = None ->
  handle_chat_input env (Some question) s
  = (Ok tt,
     add_ui [st_markdown question;
             st_error "Unable to setup analysis chain. Please check your resumes."]
            (set_messages (fun l => l ++ [mkMessage "user" question None]) s)).
Proof.
  intros Hq Hnone. unfold handle_chat_input. rewrite decide_False by done.
  unfold mbind at 1 2, M_bind at 1 2, bind at 1 2.
  unfold modify at 1. cbv beta iota. rewrite show_run. cbv beta iota.
  rewrite handler_body_run. rewrite (usable_store_frame s) by done.
  rewrite Hnone. simpl fmap. cbv beta iota.
  unfold try_except. rewrite show_run. by rewrite add_ui_app.
Qed.

(** Handling the pending question: nothing without one; with one, the
    queue is emptied and the question answered as a typed one is, except
    that the question itself is not recorded again. *)
Lemma handle_pending_question_idle env s :
  pending_question s = None -> handle_pending_question env s = (Ok tt, s).
Proof.
  intros Hnone. unfold handle_pending_question, mbind, M_bind, bind, gets.
  by rewrite Hnone.
Qed.

Lemma handle_pending_question_no_chain env question s :
  pending_question s = Some question ->
  usable_store s = None ->
  handle_pending_question env s
  = (Ok tt,
     add_ui [st_error "Unable to setup analysis chain."]
            (set_pending_question None s)).
Proof.
  intros Hpending Hnone.
  unfold handle_pending_question, mbind at 1, M_bind at 1, bind at 1, gets at 1.
  rewrite Hpending.
  unfold mbind at 1, M_bind at 1, bind at 1, modify at 1. cbv beta iota.
  rewrite handler_body_run. rewrite (usable_store_frame s) by done.
  rewrite Hnone. simpl fmap. cbv beta iota.
  unfold try_except. by rewrite show_run.
Qed.

(** Closing a decidable goal about concrete data by evaluation. *)
Ltac by_evaluation := apply (bool_decide_unpack _); vm_compute; exact I.

(** ** Worked examples *)

Example splitext_upper_case :
  PyStr.splitext "/tmp/tmpab12.PDF" = ("/tmp/tmpab12", ".PDF").
Proof. reflexivity. Qed.

Example splitext_hidden_file : PyStr.splitext "/home/u/.bashrc" = ("/home/u/.bashrc", "").
Proof. reflexivity. Qed.

Example splitext_last_dot_only : PyStr.splitext "cv.tar.gz" = ("cv.tar", ".gz").
Proof. reflexivity. Qed.

Example file_extension_is_lower_cased : file_extension "/tmp/CV.Final.DOCX" = ".docx".
Proof. reflexivity. Qed.

Example suffix_of_upload_without_dot : PyStr.last_dot_component "resume" = "resume".
Proof. reflexivity. Qed.

Example split_text_without_separators :
  split_text (mkTextSplitter 8 3) "abcdefghijklmnopqrstuvwxyz"
  = ["abcdefgh"; "fghijklm"; "klmnopqr"; "pqrstuvw"; "uvwxyz"].
Proof. reflexivity. Qed.

Example split_text_at_spaces :
  split_text (mkTextSplitter 10 3) "hello world this is a test of  the splitter"
  = ["hello"; "world"; "this is a"; "a test of"; "of  the"; "splitter"].
Proof. reflexivity. Qed.

Example split_text_at_paragraphs :
  map PyStr.len (split_text (mkTextSplitter 800 100) two_paragraphs) = [500; 500].
Proof. by vm_compute. Qed.

Example len_counts_characters : PyStr.len "é👆" = 2 /\ String.length "é👆" = 6.
Proof. by vm_compute. Qed.

Example render_general :
  PromptTemplate_format (mkPromptTemplate "Context: {context} / Question: {question}!" [])
                        "five years of Python" "Skills?"
  = "Context: five years of Python / Question: Skills?!".
Proof. reflexivity. Qed.

Example blank_pdf_has_no_page :
  fst (load_document sample_env "/tmp/blank.pdf" app_with_files) = Ok [].
Proof. by vm_compute. Qed.

Example upload_of_a_text_file :
  let run := process_uploaded_files sample_env sample_analyzer
               [mkUploadedFile "cv.txt" "Experienced Python developer"]
               started_app in
  fst run = Ok true /\ resumes_processed (snd run) = ["cv.txt"] /\
  files (snd run) = ∅ /\
  embed_calls (snd run) = ["Experienced Python developer"].
Proof. by vm_compute. Qed.

Example upload_of_an_unsupported_file :
  let run := process_uploaded_files sample_env sample_analyzer
               [mkUploadedFile "notes.csv" "a,b"] started_app in
  fst run = Ok false /\ resumes_processed (snd run) = [] /\
  ui (snd run)
  = [st_error "Error loading /tmp/tmp0.csv: Unsupported file type: .csv"].
Proof. by vm_compute. Qed.

Example upload_with_the_embedding_model_down :
  let run := process_uploaded_files offline_env sample_analyzer
               [mkUploadedFile "cv.txt" "Experienced Python developer"]
               started_app in
  fst run = Ok false /\ resumes_processed (snd run) = [] /\
  ui (snd run) = [st_error "Error adding documents: Connection refused"] /\
  records_of (snd run) (mkChroma config.COLLECTION_NAME) = [].
Proof. by vm_compute. Qed.

Example question_in_technical_mode :
  let s := snd (process_uploaded_files sample_env sample_analyzer
                  [mkUploadedFile "cv.txt"
                     "Experienced Python developer with 5 years at Acme Corp"]
                  started_app) in
  let s' := snd (handle_chat_input sample_env
                   (Some "What programming languages does this candidate know?")
                   (set_pending_question None s)) in
  (sources <$> last (messages s'))
  = Some (Some [mkDocument
                  "Experienced Python developer with 5 years at Acme Corp"
                  (<["filename" := MStr "tmp0.txt"]>
                     {["source" := MStr "/tmp/tmp0.txt"]})]).
Proof. by vm_compute. Qed.

Example clear_all_resets_the_session :
  let s := snd (press_process_resumes sample_env sample_analyzer
                  [mkUploadedFile "cv.txt" "Experienced Python developer"]
                  started_app) in
  resumes_processed s = ["cv.txt"] /\
  ui s = [st_success "✅ Processed 1 resumes!"] /\
  resumes_processed (snd (press_clear_all s)) = [] /\
  records_of (snd (press_clear_all s)) (mkChroma config.COLLECTION_NAME) = [].
Proof. by vm_compute. Qed.

(** ** The claims *)




(** C2, as stated, fails: for a path with an unsupported extension
    [load_document] does not fail; it returns the empty list. *)
Lemma C2_counterexample :
  ~ fails_on_unsupported sample_env app_with_files "/tmp/notes.csv".
Proof.
  intros Hclaim. destruct Hclaim as [e He]; [by_evaluation|].
  vm_compute in He. discriminate He.
Qed.

(** C2, amended: for every path whose extension is not one of .pdf, .txt,
    .md, .docx, [load_document] shows "Error loading <path>: Unsupported
    file type: <ext>" and returns the empty list, no exception reaching
    the caller; [process_documents] goes on with the remaining paths and
    returns what it returns without that path. *)
Theorem C2_unsupported_is_reported_and_skipped
  env self file_path before after s :
  file_extension file_path ∉ supported_extensions ->
  load_document env file_path s
  = (Ok [],
     add_ui [st_error ("Error loading " ++ file_path
                       ++ ": Unsupported file type: "
                       ++ file_extension file_path)] s) /\
  fst (process_documents env self (before ++ file_path :: after) s)
  = fst (process_documents env self (before ++ after) s).
Proof.
  intros Hext. pose proof (select_loader_unsupported _ Hext) as Hsel.
  assert (loaded env (files s) file_path = []) as Hloaded
    by (unfold loaded; by rewrite Hsel).
  split.
  - rewrite load_document_run, Hloaded. unfold load_report. by rewrite Hsel.
  - rewrite !process_documents_run. simpl.
    by rewrite !flat_map_app; simpl; rewrite Hloaded.
Qed.

Lemma C2_witness :
  load_document sample_env "/tmp/notes.csv" app_with_files
  = (Ok [],
     add_ui [st_error ("Error loading " ++ "/tmp/notes.csv"
                       ++ ": Unsupported file type: "
                       ++ file_extension "/tmp/notes.csv")] app_with_files) /\
  fst (process_documents sample_env DocumentProcessor_init
         (["/tmp/cv.txt"] ++ "/tmp/notes.csv" :: []) app_with_files)
  = fst (process_documents sample_env DocumentProcessor_init
           (["/tmp/cv.txt"] ++ []) app_with_files).
Proof.
  apply (C2_unsupported_is_reported_and_skipped sample_env
           DocumentProcessor_init "/tmp/notes.csv" ["/tmp/cv.txt"] []
           app_with_files).
  by_evaluation.
Defined.

(** C3: a retriever built by [get_retriever] with parameter [k] ([k]
    being 5 when the caller leaves it out) returns, for every query, at
    most [k] chunks, ordered by decreasing similarity to the query's
    embedding: they are the first components of a list of scored stored
    chunks in which no later score exceeds an earlier one. *)
Theorem C3_at_most_k_best_first env k query s r documents :
  fst (get_retriever k s) = Ok (Some r) ->
  fst (get_relevant_documents env r query s) = Ok documents ->
  search_k r = default 5 k /\
  List.length documents <= default 5 k /\
  exists scored,
    documents = map fst scored /\
    StronglySorted by_score scored /\
    Forall (fun p => exists q rec,
              embed_text env query = Ok q /\
              rec ∈ records_of s (retriever_store r) /\
              p = (chunk rec, similarity env q (embedding rec))) scored.
Proof.
  rewrite get_retriever_run. simpl. intros Hr.
  assert (search_k r = default 5 k) as Hk.
  { destruct (usable_store s); simpl in Hr; [|done]. by injection Hr as <-. }
  unfold get_relevant_documents, mbind, M_bind, bind.
  destruct (similarity_search_with_score env (retriever_store r) query
              (search_k r) s) as [[scored|exc] s'] eqn:Hsearch; [|done].
  simpl. intros [= <-].
  destruct (similarity_search_run env (retriever_store r) query (search_k r)
              s scored) as (Hlen & Hsorted & Hscores).
  { by rewrite Hsearch. }
  split; [done|]. split; [rewrite length_map; lia|]. by exists scored.
Qed.

Lemma C3_witness :
  search_k (mkRetriever (mkChroma config.COLLECTION_NAME) "similarity" 2)
  = default 5 (Some 2) /\
  List.length [plain_doc "abcdefgh"; plain_doc "abcd"] <= default 5 (Some 2) /\
  exists scored,
    [plain_doc "abcdefgh"; plain_doc "abcd"] = map fst scored /\
    StronglySorted by_score scored /\
    Forall (fun p => exists q rec,
              embed_text sample_env "abcdefg" = Ok q /\
              rec ∈ records_of stocked_app
                      (retriever_store
                         (mkRetriever (mkChroma config.COLLECTION_NAME)
                                      "similarity" 2)) /\
              p = (chunk rec, similarity sample_env q (embedding rec))) scored.
Proof.
  apply (C3_at_most_k_best_first sample_env (Some 2) "abcdefg" stocked_app).
  - vm_compute. reflexivity.
  - vm_compute. reflexivity.
Defined.

(** C4, as stated, fails: a document of two paragraphs of 500
    characters is cut at the paragraph break into two chunks of 500
    characters, which are consecutive and have no text in common. *)
Lemma C4_counterexample :
  ~ chunks_as_claimed [plain_doc two_paragraphs].
Proof.
  intros (_ & Hoverlap & _).
  assert (split_documents (text_splitter DocumentProcessor_init)
            [plain_doc two_paragraphs]
          = [plain_doc (PyStr.join "" (replicate 500 "a"));
             plain_doc (PyStr.join "" (replicate 500 "b"))])
    as Hchunks by (by vm_compute).
  destruct (Hoverlap 0 (plain_doc (PyStr.join "" (replicate 500 "a")))
                       (plain_doc (PyStr.join "" (replicate 500 "b"))))
    as (_ & _ & Hshared).
  - by rewrite Hchunks.
  - by rewrite Hchunks.
  - vm_compute in Hshared. discriminate Hshared.
Qed.

(** C4, amended: for every list of input documents, every chunk is at
    most 800 characters long and carries the metadata of the document
    it was cut from; no overlap between consecutive chunks is
    promised. *)
Theorem C4_chunks_bounded_with_parent_metadata (documents : list Document) :
  let sp := text_splitter DocumentProcessor_init in
  Forall (fun c => PyStr.len (page_content c) <= config.CHUNK_SIZE)
         (split_documents sp documents) /\
  Forall (fun c => exists d, d ∈ documents /\ metadata c = metadata d /\
                             page_content c ∈ split_text sp (page_content d))
         (split_documents sp documents).
Proof.
  intros sp. split.
  - apply Forall_forall. intros c Hc.
    apply split_documents_chunk in Hc as (d & _ & _ & Hc).
    pose proof (split_text_bounded sp (page_content d)) as Hall.
    rewrite Forall_forall in Hall. apply Hall; [|done].
    unfold sp, DocumentProcessor_init, config.CHUNK_SIZE. simpl. lia.
  - apply Forall_forall. intros c Hc.
    by apply split_documents_chunk in Hc.
Qed.

(** C5: on a constructed store, after [add_documents] with any chunks
    followed by [clear_database], the clearing succeeded, the collection
    was deleted and an empty one recreated, retrieval returns nothing
    for every query ([get_retriever] gives out no retriever on the
    emptied collection, and a retriever on the store returns the empty
    list), and a second [clear_database] leaves the very same state. *)
Theorem C5_clear_empties_and_is_idempotent env chunks s :
  ready s ->
  let s1 := snd (add_documents env chunks s) in
  let s2 := snd (clear_database s1) in
  fst (clear_database s1) = Ok true /\
  collections s2
  = <[config.COLLECTION_NAME := []]>
      (delete config.COLLECTION_NAME (collections s1)) /\
  ready s2 /\
  (forall query k,
     get_retriever k s2 = (Ok None, s2) /\
     get_relevant_documents env
       (mkRetriever (mkChroma config.COLLECTION_NAME) "similarity" (default 5 k))
       query s2
     = (Ok [], s2)) /\
  clear_database s2 = (Ok true, s2).
Proof.
  intros Hready s1 s2.
  destruct (add_documents_ready env chunks s Hready) as (b & s1' & Hadd & Hready1 & _).
  assert (s1 = s1') as Hs1 by (unfold s1; by rewrite Hadd).
  rewrite <- Hs1 in Hready1. clear Hadd Hs1 s1'.
  pose proof (clear_database_run s1 Hready1) as Hclear.
  assert (ready s2) as Hready2.
  { unfold s2. rewrite Hclear. destruct Hready1 as [Hstore _].
    split; [done|]. simpl. rewrite lookup_insert_eq. by eexists. }
  split; [by rewrite Hclear|].
  split; [unfold s2; by rewrite Hclear|].
  split; [done|]. split.
  - intros query k.
    assert (records_of s2 (mkChroma config.COLLECTION_NAME) = []) as Hempty.
    { unfold records_of, s2. rewrite Hclear. simpl.
      by rewrite lookup_insert_eq. }
    split.
    + rewrite get_retriever_run. unfold usable_store.
      destruct Hready2 as [-> _]. by rewrite Hempty.
    + unfold get_relevant_documents, mbind, M_bind, bind. simpl.
      by rewrite similarity_search_empty.
  - rewrite (clear_database_run s2 Hready2). f_equal.
    unfold s2. rewrite Hclear.
    destruct s1 as [u fs n c vs ec lc ms rp cpt pq].
    unfold set_collections. simpl. f_equal.
    by rewrite delete_insert_eq, delete_delete_eq.
Qed.

Lemma C5_witness :
  let s1 := snd (add_documents sample_env [plain_doc "Python"] started_app) in
  let s2 := snd (clear_database s1) in
  fst (clear_database s1) = Ok true /\
  collections s2
  = <[config.COLLECTION_NAME := []]>
      (delete config.COLLECTION_NAME (collections s1)) /\
  ready s2 /\
  (forall query k,
     get_retriever k s2 = (Ok None, s2) /\
     get_relevant_documents sample_env
       (mkRetriever (mkChroma config.COLLECTION_NAME) "similarity" (default 5 k))
       query s2
     = (Ok [], s2)) /\
  clear_database s2 = (Ok true, s2).
Proof.
  apply (C5_clear_empties_and_is_idempotent sample_env [plain_doc "Python"]
           started_app).
  split; [reflexivity|]. vm_compute. by eexists.
Defined.

(** C6: for every mode string outside {general, technical, experience,
    match}, the prompt selector returns what it returns for "general",
    and so does the rendered prompt for any context and question. *)
Theorem C6_unknown_mode_falls_back_to_general prompt_type context question :
  prompt_type ∉ recognized_modes ->
  get_prompt_template prompt_type = get_prompt_template "general" /\
  PromptTemplate_format (get_prompt_template prompt_type) context question
  = PromptTemplate_format (get_prompt_template "general") context question.
Proof.
  intros Hunknown%RESUME_PROMPTS_unknown.
  assert (get_prompt_template prompt_type = get_prompt_template "general")
    as Heq.
  { unfold get_prompt_template. rewrite Hunknown, RESUME_PROMPTS_general.
    f_equal. }
  by rewrite Heq.
Qed.

Lemma C6_witness :
  get_prompt_template "summary" = get_prompt_template "general" /\
  PromptTemplate_format (get_prompt_template "summary") "Python, 5 years" "Skills?"
  = PromptTemplate_format (get_prompt_template "general") "Python, 5 years" "Skills?".
Proof.
  apply (C6_unknown_mode_falls_back_to_general "summary").
  by_evaluation.
Defined.

(** C7, as stated, fails: a PDF without pages has a supported extension
    and is parsed without an error, and the loader returns no segment. *)
Lemma C7_counterexample :
  ~ loads_at_least_one sample_env app_with_files "/tmp/blank.pdf".
Proof.
  intros Hclaim.
  destruct (Hclaim (PyPDFLoader "/tmp/blank.pdf") [] eq_refl eq_refl)
    as (documents & Hrun & Hne & _).
  vm_compute in Hrun. injection Hrun as <-. done.
Qed.

(** C7, amended: for every file with a supported extension whose parser
    returns without raising, the loader returns the parser's segments,
    one for one and with the same texts (so at least one exactly when the
    parser yields at least one), and every returned segment's metadata
    field "filename" is the base name of the input path. *)
Theorem C7_segments_carry_base_name env file_path s :
  file_extension file_path ∈ supported_extensions ->
  exists l,
    select_loader file_path = Ok l /\ loader_path l = file_path /\
    forall parsed,
      parse env l (files s !! file_path) = Ok parsed ->
      exists documents,
        fst (load_document env file_path s) = Ok documents /\
        map page_content documents = map page_content parsed /\
        List.length documents = List.length parsed /\
        Forall (fun d => metadata d !! "filename"
                         = Some (MStr (PyStr.basename file_path))) documents.
Proof.
  intros Hext. apply select_loader_supported in Hext as [l Hsel].
  pose proof (select_loader_path _ _ Hsel) as Hpath.
  exists l. repeat split; try done.
  intros parsed Hparse. rewrite load_document_run. simpl.
  unfold loaded. rewrite Hsel, Hpath, Hparse.
  eexists. split; [done|]. repeat split.
  - rewrite map_map. by apply map_ext.
  - by rewrite length_map.
  - apply Forall_forall. intros d Hd.
    apply list_elem_of_In, in_map_iff in Hd as (d0 & <- & _). simpl.
    apply lookup_insert_eq.
Qed.

Lemma C7_witness :
  exists l,
    select_loader "/tmp/cv.txt" = Ok l /\ loader_path l = "/tmp/cv.txt" /\
    forall parsed,
      parse sample_env l (files app_with_files !! "/tmp/cv.txt") = Ok parsed ->
      exists documents,
        fst (load_document sample_env "/tmp/cv.txt" app_with_files)
        = Ok documents /\
        map page_content documents = map page_content parsed /\
        List.length documents = List.length parsed /\
        Forall (fun d => metadata d !! "filename"
                         = Some (MStr (PyStr.basename "/tmp/cv.txt"))) documents.
Proof.
  apply (C7_segments_carry_base_name sample_env "/tmp/cv.txt" app_with_files).
  by_evaluation.
Defined.

(** C9: [add_documents] on an empty list returns [False] and touches
    nothing: no embedding is attempted, the collection is unchanged and
    nothing is shown. *)
Theorem C9_adding_nothing_changes_nothing env s :
  let run := add_documents env [] s in
  fst run = Ok false /\
  embed_calls (snd run) = embed_calls s /\
  collections (snd run) = collections s /\
  snd run = s.
Proof. intros run. unfold run. simpl. repeat split. Qed.

(** C10: [process_uploaded_files] always returns a boolean; it returns
    [True] and appends the uploads' names to the session's
    processed-resume list exactly when some document was parsed and
    [add_documents] succeeded on the parsed documents; when no document
    was parsed or the add failed it returns [False] and the list is
    unchanged. *)
Theorem C10_resume_list_grows_only_on_success env self uploaded_files s :
  exists temp_files s1 documents s2,
    save_uploads env uploaded_files [] [] s
    = (Ok (temp_files, map name uploaded_files), s1) /\
    process_documents env (document_processor self) temp_files s1
    = (Ok documents, s2) /\
    let r := fst (process_uploaded_files env self uploaded_files s) in
    let s' := snd (process_uploaded_files env self uploaded_files s) in
    (documents <> [] /\ fst (add_documents env documents s2) = Ok true /\
     r = Ok true /\
     resumes_processed s' = resumes_processed s ++ map name uploaded_files)
    \/
    ((documents = [] \/ fst (add_documents env documents s2) = Ok false) /\
     r = Ok false /\
     resumes_processed s' = resumes_processed s).
Proof.
  destruct (save_uploads_run env uploaded_files [] [] s)
    as (temp_files & s1 & Hsave & _ & Hkeep1).
  simpl in Hsave.
  exists temp_files, s1. rewrite process_documents_run. do 2 eexists.
  split; [exact Hsave|]. split; [reflexivity|].
  destruct (process_uploaded_files env self uploaded_files s) as [r s']
    eqn:Hrun. simpl.
  destruct uploaded_files as [|u us].
  { injection Hsave as <- <-. injection Hrun as <- <-. right. simpl. auto. }
  unfold process_uploaded_files, mbind, M_bind, bind in Hrun.
  rewrite Hsave in Hrun. cbv beta iota in Hrun.
  unfold try_finally in Hrun. rewrite process_documents_run in Hrun.
  set (documents := match flat_map _ temp_files with [] => [] | _ => _ end) in *.
  set (s2 := add_ui _ s1) in *.
  assert (resumes_processed s2 = resumes_processed s) as Hkeep2 by done.
  clearbody documents s2.
  destruct documents as [|d ds].
  - right. destruct (unlink_all_run temp_files s2) as (s3 & Hclean & Hkeep3).
    unfold ret in Hrun. rewrite Hclean in Hrun. injection Hrun as <- <-.
    split; [by left|]. split; [done|]. congruence.
  - pose proof (add_documents_keeps_resumes env (d :: ds) s2) as Hkeep3.
    destruct (add_documents_returns env (d :: ds) s2) as [b Hb].
    destruct (add_documents env (d :: ds) s2) as [r3 s3]. simpl in Hb, Hkeep3.
    subst r3. destruct b.
    + left. unfold modify, ret in Hrun.
      match type of Hrun with context [for_each temp_files unlink_quietly ?s0] =>
        destruct (unlink_all_run temp_files s0) as (s4 & Hclean & Hkeep4) end.
      rewrite Hclean in Hrun. injection Hrun as <- <-.
      repeat split; try done. rewrite Hkeep4. simpl. congruence.
    + right. unfold ret in Hrun.
      destruct (unlink_all_run temp_files s3) as (s4 & Hclean & Hkeep4).
      rewrite Hclean in Hrun. injection Hrun as <- <-.
      split; [by right|]. split; [done|]. congruence.
Qed.

(** * Further properties of the code *)

(** ** Further facts about paths and extensions *)

Section path_facts.

Implicit Types (s a b p : string) (c d : ascii) (i last : Z).

Lemma string_app_assoc a b p : ((a ++ b) ++ p = a ++ (b ++ p))%string.
Proof.
  induction a as [|x a IH]; rewrite ?append_cons, ?append_nil_l; [done|].
  by rewrite IH.
Qed.

Lemma string_length_app a b :
  String.length (a ++ b)%string = String.length a + String.length b.
Proof.
  induction a as [|x a IH]; rewrite ?append_cons, ?append_nil_l; simpl; [done|].
  by rewrite IH.
Qed.

Lemma str_take_drop n p : (PyStr.take n p ++ PyStr.drop n p)%string = p.
Proof.
  revert p; induction n as [|n IH]; intros [|x p]; simpl; try done.
  by rewrite append_cons, IH.
Qed.

Lemma str_drop_app a b :
  PyStr.drop (String.length a) (a ++ b)%string = b.
Proof.
  induction a as [|x a IH]; rewrite ?append_cons, ?append_nil_l; simpl;
    [by destruct b|done].
Qed.

Lemma str_drop_app_le n a b :
  n <= String.length a ->
  PyStr.drop n (a ++ b)%string = (PyStr.drop n a ++ b)%string.
Proof.
  revert a; induction n as [|n IH]; intros a Hn.
  - by destruct a, b.
  - destruct a as [|x a]; simpl in Hn; [lia|].
    rewrite append_cons. simpl. apply IH. lia.
Qed.

Lemma rfind_from_app c a b i last :
  PyStr.rfind_from c (a ++ b)%string i last
  = PyStr.rfind_from c b (i + Z.of_nat (String.length a))
                     (PyStr.rfind_from c a i last).
Proof.
  revert i last; induction a as [|x a IH]; intros i last;
    rewrite ?append_cons, ?append_nil_l.
  - simpl. by rewrite Z.add_0_r.
  - simpl PyStr.rfind_from. rewrite IH. f_equal. simpl String.length. lia.
Qed.

Lemma rfind_from_absent c s i last :
  contains c s = false -> PyStr.rfind_from c s i last = last.
Proof.
  revert i last; induction s as [|x s IH]; intros i last; simpl; [done|].
  intros [Hx Hs]%orb_false_elim. rewrite Hx. by apply IH.
Qed.

Lemma rfind_from_bounds c s i last :
  (last < i)%Z ->
  (last <= PyStr.rfind_from c s i last < i + Z.of_nat (String.length s))%Z.
Proof.
  revert i last; induction s as [|x s IH]; intros i last Hlast; simpl; [lia|].
  destruct (Ascii.eqb c x).
  - specialize (IH (i + 1)%Z i). lia.
  - specialize (IH (i + 1)%Z last). lia.
Qed.

Lemma rfind_from_present c s i last :
  contains c s = true -> (i <= PyStr.rfind_from c s i last)%Z.
Proof.
  revert i last; induction s as [|x s IH]; intros i last; simpl; [done|].
  destruct (Ascii.eqb c x) eqn:Hx; simpl.
  - intros _. pose proof (rfind_from_bounds c s (i + 1) i). lia.
  - intros Hs. specialize (IH (i + 1)%Z last Hs). lia.
Qed.

Lemma rfind_from_last c a b i last :
  contains c b = false ->
  PyStr.rfind_from c (a ++ String c b)%string i last
  = (i + Z.of_nat (String.length a))%Z.
Proof.
  intros Hb. rewrite rfind_from_app. simpl. rewrite Ascii.eqb_refl.
  by apply rfind_from_absent.
Qed.

(** A string that has the character splits at its last occurrence. *)
Lemma rfind_split c p :
  contains c p = true ->
  exists a b, p = (a ++ String c b)%string /\ contains c b = false /\
              PyStr.rfind c p = Z.of_nat (String.length a).
Proof.
  intros Hp.
  assert (exists a b, p = (a ++ String c b)%string /\ contains c b = false)
    as (a & b & -> & Hb).
  { induction p as [|x p IH]; simpl in Hp; [done|].
    destruct (contains c p) eqn:Hcp.
    - destruct (IH eq_refl) as (a & b & -> & Hb).
      by exists (String x a), b.
    - rewrite orb_false_r in Hp. apply Ascii.eqb_eq in Hp as ->.
      by exists EmptyString, p. }
  exists a, b. repeat split; try done.
  unfold PyStr.rfind. by rewrite rfind_from_last.
Qed.

Lemma rfind_none c p : contains c p = false -> PyStr.rfind c p = (-1)%Z.
Proof. apply rfind_from_absent. Qed.

Lemma rfind_upper c p : (-1 <= PyStr.rfind c p < Z.of_nat (String.length p))%Z.
Proof. pose proof (rfind_from_bounds c p 0 (-1)). unfold PyStr.rfind. lia. Qed.

Lemma contains_app c a b :
  contains c (a ++ b)%string = contains c a || contains c b.
Proof.
  induction a as [|x a IH]; rewrite ?append_cons, ?append_nil_l; simpl; [done|].
  by rewrite IH, orb_assoc.
Qed.

Lemma lower_ascii_idemp d : PyStr.lower_ascii (PyStr.lower_ascii d) = PyStr.lower_ascii d.
Proof. by destruct d as [[] [] [] [] [] [] [] []]. Qed.

Lemma lower_ascii_dot d :
  Ascii.eqb PyStr.dot (PyStr.lower_ascii d) = Ascii.eqb PyStr.dot d.
Proof. by destruct d as [[] [] [] [] [] [] [] []]. Qed.

Lemma lower_ascii_slash d :
  Ascii.eqb PyStr.slash (PyStr.lower_ascii d) = Ascii.eqb PyStr.slash d.
Proof. by destruct d as [[] [] [] [] [] [] [] []]. Qed.

Lemma lower_idemp s : PyStr.lower (PyStr.lower s) = PyStr.lower s.
Proof.
  induction s as [|x s IH]; cbn [PyStr.lower]; [done|].
  by rewrite lower_ascii_idemp, IH.
Qed.

Lemma contains_dot_lower s : contains PyStr.dot (PyStr.lower s) = contains PyStr.dot s.
Proof.
  induction s as [|x s IH]; cbn [PyStr.lower contains]; [done|].
  by rewrite lower_ascii_dot, IH.
Qed.

Lemma contains_slash_lower s :
  contains PyStr.slash (PyStr.lower s) = contains PyStr.slash s.
Proof.
  induction s as [|x s IH]; cbn [PyStr.lower contains]; [done|].
  by rewrite lower_ascii_slash, IH.
Qed.

Lemma has_non_dot_app a b :
  PyStr.has_non_dot (a ++ b)%string (String.length a)
  = PyStr.has_non_dot a (String.length a).
Proof.
  induction a as [|x a IH]; rewrite ?append_cons, ?append_nil_l; simpl;
    [by destruct b|]. by rewrite IH.
Qed.

Lemma last_dot_component_no_dot s :
  contains PyStr.dot (PyStr.last_dot_component s) = false.
Proof.
  unfold PyStr.last_dot_component.
  destruct (contains PyStr.dot s) eqn:Hs.
  - destruct (rfind_split _ _ Hs) as (a & b & -> & Hb & ->).
    replace (Z.to_nat (Z.of_nat (String.length a) + 1))
      with (String.length (a ++ String PyStr.dot "")%string)
      by (rewrite string_length_app; simpl; lia).
    replace (a ++ String PyStr.dot b)%string
      with ((a ++ String PyStr.dot "") ++ b)%string
      by (by rewrite string_app_assoc).
    by rewrite str_drop_app.
  - rewrite rfind_none by done. simpl. done.
Qed.

(** [os.path.splitext]: the two parts make up the path, and the second
    is empty or a dot followed by characters other than dot and slash. *)
Lemma splitext_parts p :
  (fst (PyStr.splitext p) ++ snd (PyStr.splitext p))%string = p /\
  (snd (PyStr.splitext p) = "" \/
   exists x, snd (PyStr.splitext p) = String PyStr.dot x /\
             contains PyStr.dot x = false /\ contains PyStr.slash x = false).
Proof.
  unfold PyStr.splitext.
  destruct (PyStr.rfind PyStr.slash p <? PyStr.rfind PyStr.dot p)%Z eqn:Hlt;
    simpl; [|split; [apply string_app_nil_r|by left]].
  destruct (PyStr.has_non_dot _ _); simpl;
    [|split; [apply string_app_nil_r|by left]].
  split; [apply str_take_drop|]. right.
  apply Z.ltb_lt in Hlt.
  destruct (contains PyStr.dot p) eqn:Hdot.
  - destruct (rfind_split _ _ Hdot) as (a & b & -> & Hb & Hr).
    rewrite Hr in *. rewrite Nat2Z.id, str_drop_app.
    exists b. repeat split; try done.
    destruct (contains PyStr.slash b) eqn:Hslash; [|done].
    exfalso. unfold PyStr.rfind in Hlt. rewrite rfind_from_app in Hlt.
    simpl in Hlt.
    pose proof (rfind_from_present PyStr.slash b
                  (0 + Z.of_nat (String.length a) + 1)
                  (PyStr.rfind_from PyStr.slash a 0 (-1)) Hslash).
    simpl in *. lia.
  - rewrite (rfind_none _ _ Hdot) in Hlt.
    pose proof (rfind_upper PyStr.slash p). lia.
Qed.

End path_facts.


(** X1: the extension [load_document] dispatches on is empty, or a dot
    followed by characters that are neither a dot nor a slash, and
    lower-casing it again changes nothing. *)
Theorem X1_extension_shape file_path :
  file_extension file_path = "" \/
  exists x, file_extension file_path = String PyStr.dot x /\
            contains PyStr.dot x = false /\
            contains PyStr.slash x = false /\
            PyStr.lower x = x.
Proof.
  unfold file_extension.
  destruct (splitext_parts file_path) as [_ [->|(x & -> & Hdot & Hslash)]];
    [by left|right].
  exists (PyStr.lower x). repeat split.
  - by rewrite contains_dot_lower.
  - by rewrite contains_slash_lower.
  - apply lower_idemp.
Qed.

(** The path [save_upload] writes to. *)
Lemma save_upload_path env uploaded_file s :
  fst (save_upload env uploaded_file s)
  = Ok (tmp_stem env (tmp_counter s)
        ++ String PyStr.dot (PyStr.last_dot_component (name uploaded_file)))%string.
Proof. reflexivity. Qed.

Lemma temp_path_extension stem suffix :
  well_named stem ->
  contains PyStr.dot suffix = false ->
  contains PyStr.slash suffix = false ->
  file_extension (stem ++ String PyStr.dot suffix)%string
  = String PyStr.dot (PyStr.lower suffix).
Proof.
  intros Hnamed Hdot Hslash. unfold file_extension, PyStr.splitext.
  assert (PyStr.rfind PyStr.dot (stem ++ String PyStr.dot suffix)%string
          = Z.of_nat (String.length stem)) as ->.
  { unfold PyStr.rfind. by rewrite rfind_from_last. }
  assert (PyStr.rfind PyStr.slash (stem ++ String PyStr.dot suffix)%string
          = PyStr.rfind PyStr.slash stem) as ->.
  { unfold PyStr.rfind. rewrite rfind_from_app. apply rfind_from_absent.
    simpl. by rewrite Hslash. }
  pose proof (rfind_upper PyStr.slash stem) as Hsep.
  replace (PyStr.rfind PyStr.slash stem <? Z.of_nat (String.length stem))%Z
    with true by (symmetry; apply Z.ltb_lt; lia).
  rewrite Nat2Z.id.
  rewrite str_drop_app_le by lia.
  replace (String.length stem - Z.to_nat (PyStr.rfind PyStr.slash stem + 1))
    with (String.length
            (PyStr.drop (Z.to_nat (PyStr.rfind PyStr.slash stem + 1)) stem))
    by (rewrite str_length_drop; lia).
  rewrite has_non_dot_app. unfold well_named, PyStr.basename in Hnamed.
  rewrite Hnamed. simpl. by rewrite str_drop_app.
Qed.

(** X2: an upload is parsed under the lower-cased text after the last
    dot of its name (its whole name when it has no dot), whatever the
    temporary file is called: the loader finds a parser exactly when
    that text is pdf, txt, md or docx. *)
Theorem X2_upload_extension env uploaded_file s path :
  fst (save_upload env uploaded_file s) = Ok path ->
  well_named (tmp_stem env (tmp_counter s)) ->
  contains PyStr.slash (PyStr.last_dot_component (name uploaded_file)) = false ->
  file_extension path
  = String PyStr.dot (PyStr.lower (PyStr.last_dot_component (name uploaded_file))) /\
  ((exists l, select_loader path = Ok l) <->
   PyStr.lower (PyStr.last_dot_component (name uploaded_file))
   ∈ ["pdf"; "txt"; "md"; "docx"]).
Proof.
  rewrite save_upload_path. intros [= <-] Hnamed Hslash.
  pose proof (temp_path_extension _ _ Hnamed
                (last_dot_component_no_dot (name uploaded_file)) Hslash) as Hext.
  split; [done|].
  rewrite <- select_loader_supported, Hext. unfold supported_extensions.
  rewrite !elem_of_cons, !elem_of_nil.
  split; intros [H|[H|[H|[H|[]]]]]; first [injection H as H | rewrite H]; auto.
Qed.

Lemma X2_witness :
  file_extension "/tmp/tmp0.PDF"
  = String PyStr.dot (PyStr.lower (PyStr.last_dot_component "CV.Final.PDF")) /\
  ((exists l, select_loader "/tmp/tmp0.PDF" = Ok l) <->
   PyStr.lower (PyStr.last_dot_component "CV.Final.PDF")
   ∈ ["pdf"; "txt"; "md"; "docx"]).
Proof.
  apply (X2_upload_extension sample_env (mkUploadedFile "CV.Final.PDF" "%PDF")
           started_app "/tmp/tmp0.PDF").
  - reflexivity.
  - reflexivity.
  - reflexivity.
Defined.

(** ** Further facts about the monad *)

Section evolves_facts.

Context {X : Type} (R : relation X) `{!PreOrder R} (f : App -> X).

Lemma evolves_keeps {A} (m : M A) : keeps f m -> evolves R f m.
Proof. intros Hk s. by rewrite Hk. Qed.

Lemma evolves_ret {A} (a : A) : evolves R f (ret a).
Proof. by intros s. Qed.

Lemma evolves_mret {A} (a : A) : evolves R f (mret a).
Proof. by intros s. Qed.

Lemma evolves_modify (g : App -> App) :
  (forall s, R (f s) (f (g s))) -> evolves R f (modify g).
Proof. intros Hg s. apply Hg. Qed.

Lemma evolves_bind {A B} (m : M A) (k : A -> M B) :
  evolves R f m -> (forall a, evolves R f (k a)) -> evolves R f (m ≫= k).
Proof.
  intros Hm Hk s. unfold mbind, M_bind, bind.
  specialize (Hm s). destruct (m s) as [[a|e] s']; simpl in *; [|done].
  by etrans; [|apply Hk].
Qed.

Lemma evolves_try_except {A} (body : M A) handler :
  evolves R f body -> (forall e, evolves R f (handler e)) ->
  evolves R f (try_except body handler).
Proof.
  intros Hm Hk s. unfold try_except.
  specialize (Hm s). destruct (body s) as [[a|e] s']; simpl in *; [done|].
  by etrans; [|apply Hk].
Qed.

Lemma evolves_for_each {A} (xs : list A) body :
  (forall x, evolves R f (body x)) -> evolves R f (for_each xs body).
Proof.
  intros Hb. induction xs as [|x xs IH]; simpl.
  - apply evolves_ret.
  - apply evolves_bind; auto.
Qed.

End evolves_facts.

Section returns_facts.

Lemma never_raises_ret {A} (a : A) : never_raises (ret a).
Proof. intros s. by eexists. Qed.

Lemma never_raises_mret {A} (a : A) : never_raises (mret a : M A).
Proof. intros s. by eexists. Qed.

Lemma never_raises_gets {A} (g : App -> A) : never_raises (gets g).
Proof. intros s. by eexists. Qed.

Lemma never_raises_modify g : never_raises (modify g).
Proof. intros s. by eexists. Qed.

Lemma never_raises_show ev : never_raises (show ev).
Proof. intros s. by eexists. Qed.

Lemma never_raises_bind {A B} (m : M A) (k : A -> M B) :
  never_raises m -> (forall a, never_raises (k a)) -> never_raises (m ≫= k).
Proof.
  intros Hm Hk s. unfold mbind, M_bind, bind.
  destruct (Hm s) as [a Ha]. destruct (m s) as [r s']. simpl in Ha. subst r.
  apply Hk.
Qed.

Lemma never_raises_try_except {A} (body : M A) handler :
  (forall e, never_raises (handler e)) -> never_raises (try_except body handler).
Proof.
  intros Hk s. unfold try_except.
  destruct (body s) as [[a|e] s']; [by eexists|apply Hk].
Qed.

Lemma never_raises_try_finally {A} (body : M A) cleanup :
  never_raises body -> never_raises cleanup ->
  never_raises (try_finally body cleanup).
Proof.
  intros Hb Hc s. unfold try_finally.
  destruct (Hb s) as [a Ha]. destruct (body s) as [r s']. simpl in Ha. subst r.
  destruct (Hc s') as [u Hu]. destruct (cleanup s') as [r s'']. simpl in Hu.
  subst r. by eexists.
Qed.

Lemma never_raises_loop {A} (xs : list A) body :
  (forall x, never_raises (body x)) -> never_raises (for_each xs body).
Proof.
  intros Hb. induction xs as [|x xs IH]; simpl.
  - apply never_raises_ret.
  - apply never_raises_bind; auto.
Qed.

End returns_facts.

Ltac returns_step :=
  first
    [ apply never_raises_ret | apply never_raises_mret | apply never_raises_gets
    | apply never_raises_modify | apply never_raises_show
    | apply never_raises_bind | apply never_raises_try_except
    | apply never_raises_try_finally | apply never_raises_loop
    | match goal with
      | |- never_raises (match ?x with _ => _ end) => destruct x
      | |- never_raises (if ?x then _ else _) => destruct x
      | |- forall _, _ => intro
      end ].

Ltac returns_auto := repeat returns_step.

Ltac keeps_more :=
  first
    [ apply keeps_ret | apply keeps_mret | apply keeps_raise | apply keeps_lift
    | apply keeps_gets | apply keeps_bind | apply keeps_try_except
    | apply keeps_try_finally | apply keeps_for_each
    | apply keeps_modify; intros []; reflexivity
    | match goal with
      | |- keeps _ (match ?x with _ => _ end) => destruct x
      | |- keeps _ (if ?x then _ else _) => destruct x
      | |- forall _, _ => intro
      end ].

Ltac keeps_all := repeat keeps_more.

(** ** Further properties of document_processor.py *)

(** X3: a file with a supported extension whose parser raises (a missing
    or corrupt file) does not stop [load_document]: the failure is shown
    as "Error loading <path>: <message>", the empty list is returned and
    nothing else changes. *)
Theorem X3_parse_failure_is_reported env file_path s l e :
  select_loader file_path = Ok l ->
  parse env l (files s !! file_path) = Raise e ->
  load_document env file_path s
  = (Ok [],
     add_ui [st_error ("Error loading " ++ file_path ++ ": " ++ exc_str e)] s).
Proof.
  intros Hsel Hparse. rewrite load_document_run. unfold loaded, load_report.
  rewrite Hsel, (select_loader_path _ _ Hsel), Hparse. done.
Qed.

Lemma X3_witness :
  load_document sample_env "/tmp/missing.txt" app_with_files
  = (Ok [],
     add_ui [st_error ("Error loading " ++ "/tmp/missing.txt" ++ ": "
                       ++ exc_str (ExternalError "No such file or directory"))]
            app_with_files).
Proof.
  apply (X3_parse_failure_is_reported sample_env "/tmp/missing.txt"
           app_with_files (TextLoader "/tmp/missing.txt" "utf-8")).
  - reflexivity.
  - by vm_compute.
Defined.

(** X4: [load_document] keeps what the parser put into a segment's
    metadata: it sets the key "filename" and leaves every other key, and
    the segment's text, as the parser returned them. *)
Theorem X4_parser_metadata_is_kept env file_path s l parsed :
  select_loader file_path = Ok l ->
  parse env l (files s !! file_path) = Ok parsed ->
  exists documents,
    fst (load_document env file_path s) = Ok documents /\
    List.length documents = List.length parsed /\
    forall i d0,
      parsed !! i = Some d0 ->
      exists d,
        documents !! i = Some d /\
        page_content d = page_content d0 /\
        metadata d !! "filename" = Some (MStr (PyStr.basename file_path)) /\
        forall key, key <> "filename" -> metadata d !! key = metadata d0 !! key.
Proof.
  intros Hsel Hparse. rewrite load_document_run. unfold loaded.
  rewrite Hsel, (select_loader_path _ _ Hsel), Hparse. simpl.
  eexists. split; [done|]. split; [by rewrite length_map|].
  intros i d0 Hi. exists (set_filename file_path d0).
  split; [by rewrite list_lookup_fmap_Some; eauto|].
  split; [done|]. split; [apply lookup_insert_eq|].
  intros key Hkey. simpl. by rewrite lookup_insert_ne.
Qed.

Lemma X4_witness :
  exists documents,
    fst (load_document sample_env "/tmp/cv.txt" app_with_files) = Ok documents /\
    List.length documents
    = List.length [mkDocument "Experienced Python developer"
                              {["source" := MStr "/tmp/cv.txt"]}] /\
    forall i d0,
      [mkDocument "Experienced Python developer"
                  {["source" := MStr "/tmp/cv.txt"]}] !! i = Some d0 ->
      exists d,
        documents !! i = Some d /\
        page_content d = page_content d0 /\
        metadata d !! "filename" = Some (MStr (PyStr.basename "/tmp/cv.txt")) /\
        forall key, key <> "filename" -> metadata d !! key = metadata d0 !! key.
Proof.
  apply (X4_parser_metadata_is_kept sample_env "/tmp/cv.txt" app_with_files
           (TextLoader "/tmp/cv.txt" "utf-8")).
  - reflexivity.
  - by vm_compute.
Defined.

Lemma load_report_errors env fs file_path :
  Forall (fun ev => exists msg,
            ev = st_error ("Error loading " ++ file_path ++ ": " ++ msg))
         (load_report env fs file_path) /\
  List.length (load_report env fs file_path) <= 1 /\
  (load_report env fs file_path <> [] -> loaded env fs file_path = []).
Proof.
  unfold load_report, loaded.
  destruct (select_loader file_path) as [l|e].
  - destruct (parse env l (fs !! loader_path l)) as [docs|e]; simpl.
    + split; [constructor|]. split; [lia|done].
    + split; [|split; [lia|done]]. constructor; [by eexists|constructor].
  - simpl. split; [|split; [lia|done]]. constructor; [by eexists|constructor].
Qed.

(** X5: [process_documents] never raises and never touches anything but
    the front end: files, database, service calls and session are as
    before; what it shows is, in the order of the paths, at most one
    "Error loading <path>: ..." per path, each for a path of the list. *)
Theorem X5_process_documents_only_reports env self file_paths s :
  exists chunks errors,
    process_documents env self file_paths s = (Ok chunks, add_ui errors s) /\
    List.length errors <= List.length file_paths /\
    Forall (fun ev => exists file_path msg,
              file_path ∈ file_paths /\
              ev = st_error ("Error loading " ++ file_path ++ ": " ++ msg))
           errors.
Proof.
  rewrite process_documents_run. do 2 eexists. split; [done|].
  induction file_paths as [|p ps [IHlen IHall]]; simpl; [by split|].
  destruct (load_report_errors env (files s) p) as (Hall & Hlen & _).
  split.
  - rewrite length_app. lia.
  - apply Forall_app. split.
    + eapply Forall_impl; [exact Hall|]. intros ev [msg ->].
      exists p, msg. split; [constructor|done].
    + eapply Forall_impl; [exact IHall|]. intros ev (q & msg & Hq & ->).
      exists q, msg. split; [by constructor|done].
Qed.

(** ** Further properties of vector_store.py *)

Lemma add_documents_without_store env documents s :
  documents <> [] ->
  vector_store s = None ->
  add_documents env documents s
  = (Ok false,
     add_ui [st_error "Error adding documents: 'NoneType' object has no attribute 'add_documents'"]
            s).
Proof.
  intros Hne Hnone. destruct documents as [|d ds]; [done|].
  unfold add_documents, try_except, mbind, M_bind, bind, gets.
  by rewrite Hnone.
Qed.

(** X7: [add_documents] with documents on a store that was never
    initialised returns [False], shows the attribute error of the missing
    wrapper, and sends nothing to the embedding model or the database. *)
Theorem X7_add_without_store env documents s :
  documents <> [] ->
  vector_store s = None ->
  add_documents env documents s
  = (Ok false,
     add_ui [st_error "Error adding documents: 'NoneType' object has no attribute 'add_documents'"]
            s).
Proof.
  intros Hne Hnone. destruct documents as [|d ds]; [done|].
  unfold add_documents, try_except, mbind, M_bind, bind, gets.
  by rewrite Hnone.
Qed.

Lemma X7_witness :
  add_documents sample_env [plain_doc "Python"] fresh_app
  = (Ok false,
     add_ui [st_error "Error adding documents: 'NoneType' object has no attribute 'add_documents'"]
            fresh_app).
Proof.
  apply (X7_add_without_store sample_env [plain_doc "Python"] fresh_app).
  - done.
  - reflexivity.
Defined.

(** X8: [add_documents] never raises and never touches the session or
    the store object.  When it returns [True] it has shown nothing; when
    it returns [False] either the list was empty and nothing at all
    happened, or exactly one "Error adding documents: ..." was shown. *)
Theorem X8_add_reports_every_failure env documents s :
  exists b s',
    add_documents env documents s = (Ok b, s') /\
    vector_store s' = vector_store s /\
    messages s' = messages s /\
    resumes_processed s' = resumes_processed s /\
    (b = true -> documents <> [] /\ ui s' = ui s) /\
    (b = false ->
     (documents = [] /\ s' = s) \/
     exists msg, ui s' = ui s ++ [st_error ("Error adding documents: " ++ msg)]).
Proof.
  destruct documents as [|d ds].
  { exists false, s. repeat split; try done. by left. }
  destruct (vector_store s) as [store|] eqn:Hstore.
  - unfold add_documents, try_except, mbind, M_bind, bind, gets.
    rewrite Hstore. unfold Chroma_add_documents, mbind, M_bind, bind.
    destruct (embed_all_run env (map page_content (d :: ds)) s)
      as (r & sent & -> & _ & _).
    destruct r as [embeddings|exc]; simpl.
    + eexists true, _. repeat split; try done.
    + eexists false, _. repeat split; try done. intros _. right. by eexists.
  - rewrite add_documents_without_store by done.
    eexists false, _. repeat split; try done. intros _. right. by eexists.
Qed.

(** X9: when the configured collection is not in the database, the
    deletion fails and [clear_database] returns [False] after showing
    "Error clearing database: ...": the store is not initialised again,
    and "Clear All" then leaves the chat history and the resume list as
    they are. *)
Theorem X9_clear_without_collection s :
  collections s !! config.COLLECTION_NAME = None ->
  exists msg,
    clear_database s
    = (Ok false, add_ui [st_error ("Error clearing database: " ++ msg)] s) /\
    press_clear_all s
    = (Ok false, add_ui [st_error ("Error clearing database: " ++ msg)] s).
Proof.
  intros Hnone.
  exists (exc_str (ValueError ("Collection " ++ config.COLLECTION_NAME
                               ++ " does not exist."))).
  assert (clear_database s
          = (Ok false,
             add_ui [st_error
                       ("Error clearing database: "
                        ++ exc_str (ValueError ("Collection "
                                                ++ config.COLLECTION_NAME
                                                ++ " does not exist.")))] s))
    as Hclear.
  { unfold clear_database, try_except, mbind, M_bind, bind, delete_collection.
    by rewrite Hnone. }
  split; [exact Hclear|].
  unfold press_clear_all, mbind, M_bind, bind. by rewrite Hclear.
Qed.

Lemma X9_witness :
  exists msg,
    clear_database fresh_app
    = (Ok false, add_ui [st_error ("Error clearing database: " ++ msg)] fresh_app) /\
    press_clear_all fresh_app
    = (Ok false, add_ui [st_error ("Error clearing database: " ++ msg)] fresh_app).
Proof. apply (X9_clear_without_collection fresh_app). reflexivity. Defined.

(** X10: on a constructed store "Clear All" succeeds and asks for a
    rerun: the chat history and the resume list are emptied, the
    configured collection is empty, every other collection of the
    database is untouched, and "Database cleared!" is shown. *)
Theorem X10_clear_all_resets_the_session s :
  ready s ->
  let s' := snd (press_clear_all s) in
  fst (press_clear_all s) = Ok true /\
  messages s' = [] /\
  resumes_processed s' = [] /\
  all_records s' config.COLLECTION_NAME = [] /\
  (forall collection,
     collection <> config.COLLECTION_NAME ->
     collections s' !! collection = collections s !! collection) /\
  ui s' = ui s ++ [st_success "✅ Database cleared!"].
Proof.
  intros Hready. unfold press_clear_all, mbind, M_bind, bind.
  rewrite (clear_database_run s Hready). simpl.
  repeat split; try done.
  - unfold all_records. simpl. by rewrite lookup_insert_eq.
  - intros collection Hne. simpl.
    by rewrite lookup_insert_ne, lookup_delete_ne.
Qed.

Lemma X10_witness :
  let s' := snd (press_clear_all loaded_app) in
  fst (press_clear_all loaded_app) = Ok true /\
  messages s' = [] /\
  resumes_processed s' = [] /\
  all_records s' config.COLLECTION_NAME = [] /\
  (forall collection,
     collection <> config.COLLECTION_NAME ->
     collections s' !! collection = collections loaded_app !! collection) /\
  ui s' = ui loaded_app ++ [st_success "✅ Database cleared!"].
Proof.
  apply (X10_clear_all_resets_the_session loaded_app).
  split; [reflexivity|]. vm_compute. by eexists.
Defined.

(** ** Further facts about answering a question *)

Lemma add_llm_calls_nil s : add_llm_calls [] s = s.
Proof.
  destruct s. unfold add_llm_calls, set_llm_calls. simpl. by rewrite app_nil_r.
Qed.

Lemma for_each_shows {A} (xs : list A) (body : A -> M unit) :
  (forall x s, exists events, body x s = (Ok tt, add_ui events s)) ->
  forall s, exists events, for_each xs body s = (Ok tt, add_ui events s).
Proof.
  intros Hbody. induction xs as [|x xs IH]; intros s; simpl.
  - exists []. by rewrite add_ui_nil.
  - unfold mbind, M_bind, bind. destruct (Hbody x s) as [ev1 ->].
    destruct (IH (add_ui ev1 s)) as [ev2 ->]. rewrite add_ui_app. by eexists.
Qed.

Lemma show_sources_run documents s :
  exists events, show_sources documents s = (Ok tt, add_ui events s).
Proof.
  apply for_each_shows. intros source s0. eexists [_; _].
  unfold mbind, M_bind, bind, show, modify, add_ui, set_ui. destruct s0. simpl.
  by rewrite <- app_assoc.
Qed.

Lemma show_message_run message s :
  exists events, show_message message s = (Ok tt, add_ui events s).
Proof.
  unfold show_message, mbind, M_bind, bind. rewrite show_run.
  destruct (sources message) as [srcs|]; [destruct srcs as [|d ds]|].
  - by eexists.
  - destruct (show_sources_run (d :: ds) (add_ui [st_markdown (content message)] s))
      as [events ->].
    rewrite add_ui_app. by eexists.
  - by eexists.
Qed.

(** Retrieval only talks to the embedding model, and returns at most
    [search_k] documents. *)
Lemma get_relevant_documents_run env r query s :
  exists result sent,
    get_relevant_documents env r query s = (result, add_embed_calls sent s) /\
    forall documents, result = Ok documents ->
                      List.length documents <= search_k r.
Proof.
  unfold get_relevant_documents, similarity_search_with_score,
    mbind, M_bind, bind, gets. simpl.
  destruct (default [] (collections s !! collection_name (retriever_store r)))
    as [|r0 rs].
  - exists (Ok []), []. rewrite add_embed_calls_nil. split; [done|].
    intros ? [= <-]. simpl. lia.
  - destruct (embed_text env query) as [q|exc]; simpl.
    + exists (Ok (map fst (take (search_k r)
                     (merge_sort by_score
                        (map (fun x => (chunk x, similarity env q (embedding x)))
                             (r0 :: rs)))))), [query].
      split; [done|]. intros ? [= <-].
      rewrite length_map, length_take. lia.
    + exists (Raise exc), [query]. split; [done|]. by intros ? [=].
Qed.

(** Running the chain talks to the two services and changes nothing
    else; the sources it returns are at most [search_k]. *)
Lemma RetrievalQA_call_run env qa_chain query s :
  exists result sent prompts,
    RetrievalQA_call env qa_chain query s
    = (result, add_llm_calls prompts (add_embed_calls sent s)) /\
    List.length prompts <= 1 /\
    forall response source_documents,
      result = Ok (response, source_documents) ->
      List.length source_documents <= search_k (retriever qa_chain).
Proof.
  unfold RetrievalQA_call, mbind, M_bind, bind.
  destruct (get_relevant_documents_run env (retriever qa_chain) query s)
    as (result & sent & -> & Hlen).
  destruct result as [documents|exc].
  - unfold invoke_llm, mbind, M_bind, bind, modify, lift. simpl.
    match goal with |- context [llm_invoke env ?p] =>
      destruct (llm_invoke env p) as [answer|exc] eqn:Hllm end.
    + eexists _, sent, [_]. split; [reflexivity|]. split; [simpl; lia|].
      intros ? ? [= <- <-]. by apply Hlen.
    + eexists _, sent, [_]. split; [reflexivity|]. split; [simpl; lia|].
      by intros ? ? [=].
  - exists (Raise exc), sent, []. rewrite add_llm_calls_nil.
    split; [done|]. split; [simpl; lia|]. by intros ? ? [=].
Qed.

(** Answering with a chain, with the handlers' [except] branch around
    it, never raises and appends exactly one assistant message: the
    answer with at most [search_k] sources, or the error text without
    sources. *)
Lemma answer_or_report_run env qa_chain question s :
  exists message events prompts sent,
    try_except (answer_with_chain env qa_chain question) report_failure s
    = (Ok tt,
       set_messages (fun l => l ++ [message])
         (add_ui events (add_llm_calls prompts (add_embed_calls sent s)))) /\
    role message = "assistant" /\
    List.length prompts <= 1 /\
    (sources message = None \/
     exists l, sources message = Some l /\
               List.length l <= search_k (retriever qa_chain)).
Proof.
  unfold try_except, answer_with_chain, mbind, M_bind, bind.
  destruct (RetrievalQA_call_run env qa_chain question s)
    as (result & sent & prompts & -> & Hprompts & Hlen).
  destruct result as [[response source_documents]|exc].
  - specialize (Hlen response source_documents eq_refl).
    rewrite show_run. destruct source_documents as [|d ds].
    + eexists (mkMessage "assistant" response (Some [])), _, prompts, sent.
      split; [reflexivity|]. repeat split; try done. right. by eexists.
    + match goal with |- context [show_sources (d :: ds) ?s0] =>
        destruct (show_sources_run (d :: ds) s0) as [events ->] end.
      rewrite add_ui_app.
      eexists (mkMessage "assistant" response (Some (d :: ds))), _, prompts, sent.
      split; [reflexivity|]. repeat split; try done. right. by eexists.
  - unfold report_failure, mbind, M_bind, bind. rewrite show_run.
    eexists (mkMessage "assistant" _ None), _, prompts, sent.
    split; [reflexivity|]. repeat split; try done. by left.
Qed.

(** A typed question when a chain can be set up: the user's message,
    then what answering leaves. *)
Lemma handle_chat_input_with_chain env question s store :
  question <> "" ->
  usable_store s = Some store ->
  exists m events prompts sent,
    handle_chat_input env (Some question) s
    = (Ok tt,
       set_messages (fun l => l ++ [m])
         (add_ui events
            (add_llm_calls prompts
               (add_embed_calls sent
                  (add_ui [st_markdown question]
                     (set_messages
                        (fun l => l ++ [mkMessage "user" question None]) s)))))) /\
    role m = "assistant" /\
    List.length prompts <= 1 /\
    (sources m = None \/ exists l, sources m = Some l /\ List.length l <= 5).
Proof.
  intros Hq Hstore. unfold handle_chat_input. rewrite decide_False by done.
  unfold mbind at 1 2, M_bind at 1 2, bind at 1 2.
  unfold modify at 1. cbv beta iota. rewrite show_run. cbv beta iota.
  rewrite handler_body_run. rewrite (usable_store_frame s) by done.
  rewrite Hstore. simpl fmap. cbv beta iota.
  match goal with |- context [try_except (answer_with_chain env ?c question) _ ?s0] =>
    destruct (answer_or_report_run env c question s0)
      as (m & events & prompts & sent & -> & Hrole & Hprompts & Hsources) end.
  by exists m, events, prompts, sent.
Qed.

Lemma handle_pending_question_with_chain env question s store :
  pending_question s = Some question ->
  usable_store s = Some store ->
  exists m events prompts sent,
    handle_pending_question env s
    = (Ok tt,
       set_messages (fun l => l ++ [m])
         (add_ui events
            (add_llm_calls prompts
               (add_embed_calls sent (set_pending_question None s))))) /\
    role m = "assistant" /\
    List.length prompts <= 1 /\
    (sources m = None \/ exists l, sources m = Some l /\ List.length l <= 5).
Proof.
  intros Hpending Hstore.
  unfold handle_pending_question, mbind at 1, M_bind at 1, bind at 1, gets at 1.
  rewrite Hpending.
  unfold mbind at 1, M_bind at 1, bind at 1, modify at 1. cbv beta iota.
  rewrite handler_body_run. rewrite (usable_store_frame s) by done.
  rewrite Hstore. simpl fmap. cbv beta iota.
  match goal with |- context [try_except (answer_with_chain env ?c question) _ ?s0] =>
    destruct (answer_or_report_run env c question s0)
      as (m & events & prompts & sent & -> & Hrole & Hprompts & Hsources) end.
  by exists m, events, prompts, sent.
Qed.

(** ** Further properties of app.py: questions *)

(** X11: a typed question never raises and never changes the database
    or the resume list.  The user's message is recorded first.  With an
    initialised store whose collection holds a record, exactly one
    assistant message follows: the answer with at most five sources, or
    the error text without sources.  With no store or an empty
    collection only the user's message is recorded. *)
Theorem X11_chat_turn env question s :
  question <> "" ->
  let s' := snd (handle_chat_input env (Some question) s) in
  fst (handle_chat_input env (Some question) s) = Ok tt /\
  resumes_processed s' = resumes_processed s /\
  collections s' = collections s /\
  (nothing_to_retrieve s ->
   messages s' = messages s ++ [mkMessage "user" question None]) /\
  (forall store,
     vector_store s = Some store -> records_of s store <> [] ->
     exists m,
       messages s' = messages s ++ [mkMessage "user" question None; m] /\
       role m = "assistant" /\
       (sources m = None \/
        exists l, sources m = Some l /\ List.length l <= 5)).
Proof.
  intros Hq. destruct (usable_store s) as [store|] eqn:Hstore.
  - destruct (handle_chat_input_with_chain env question s store Hq Hstore)
      as (m & events & prompts & sent & -> & Hrole & _ & Hsources).
    simpl. split; [done|]. split; [done|]. split; [done|]. split.
    + intros Hnothing%usable_store_none. by rewrite Hnothing in Hstore.
    + intros _ _ _. exists m. rewrite <- app_assoc. by repeat split.
  - rewrite handle_chat_input_no_chain by done. simpl.
    split; [done|]. split; [done|]. split; [done|]. split; [done|].
    intros store Hwrapper Hrecords.
    assert (usable_store s = Some store) as Husable
      by (by apply usable_store_some).
    by rewrite Husable in Hstore.
Qed.

Lemma X11_witness :
  let s' := snd (handle_chat_input sample_env (Some "Skills?") loaded_app) in
  fst (handle_chat_input sample_env (Some "Skills?") loaded_app) = Ok tt /\
  resumes_processed s' = resumes_processed loaded_app /\
  collections s' = collections loaded_app /\
  (nothing_to_retrieve loaded_app ->
   messages s' = messages loaded_app ++ [mkMessage "user" "Skills?" None]) /\
  (forall store,
     vector_store loaded_app = Some store -> records_of loaded_app store <> [] ->
     exists m,
       messages s' = messages loaded_app ++ [mkMessage "user" "Skills?" None; m] /\
       role m = "assistant" /\
       (sources m = None \/
        exists l, sources m = Some l /\ List.length l <= 5)).
Proof.
  apply (X11_chat_turn sample_env "Skills?" loaded_app). by_evaluation.
Defined.

Lemma RetrievalQA_call_model_down env qa_chain query s e :
  (forall prompt, llm_invoke env prompt = Raise e) ->
  (forall text, exists v, embed_text env text = Ok v) ->
  exists sent prompt,
    RetrievalQA_call env qa_chain query s
    = (Raise e, add_llm_calls [prompt] (add_embed_calls sent s)).
Proof.
  intros Hllm Hembed. unfold RetrievalQA_call, mbind, M_bind, bind.
  destruct (get_relevant_documents_run env (retriever qa_chain) query s)
    as (result & sent & Hrun & _).
  assert (exists documents, result = Ok documents) as [documents ->].
  { destruct result as [documents|exc]; [by eexists|]. exfalso. revert Hrun.
    unfold get_relevant_documents, similarity_search_with_score,
      mbind, M_bind, bind, gets. cbv beta iota.
    match goal with |- context [match ?l with [] => _ | _ :: _ => _ end] =>
      destruct l end; [done|].
    rewrite embed_one_run. destruct (Hembed query) as [vec ->]. done. }
  rewrite Hrun. unfold invoke_llm, mbind, M_bind, bind, modify, lift.
  cbv beta iota. rewrite Hllm. by do 2 eexists.
Qed.

Lemma answer_with_chain_raises env qa_chain question s e s1 :
  RetrievalQA_call env qa_chain question s = (Raise e, s1) ->
  try_except (answer_with_chain env qa_chain question) report_failure s
  = report_failure e s1.
Proof.
  intros Hcall. unfold try_except, answer_with_chain, mbind, M_bind, bind.
  by rewrite Hcall.
Qed.

Lemma handle_chat_input_model_down env question s store e :
  question <> "" ->
  usable_store s = Some store ->
  (forall prompt, llm_invoke env prompt = Raise e) ->
  (forall text, exists v, embed_text env text = Ok v) ->
  exists sent prompt,
    handle_chat_input env (Some question) s
    = report_failure e
        (add_llm_calls [prompt]
           (add_embed_calls sent
              (add_ui [st_markdown question]
                 (set_messages
                    (fun l => l ++ [mkMessage "user" question None]) s)))).
Proof.
  intros Hq Hstore Hllm Hembed.
  unfold handle_chat_input. rewrite decide_False by done.
  unfold mbind at 1 2, M_bind at 1 2, bind at 1 2.
  unfold modify at 1. cbv beta iota. rewrite show_run. cbv beta iota.
  rewrite handler_body_run. rewrite (usable_store_frame s) by done.
  rewrite Hstore. simpl fmap. cbv beta iota.
  match goal with |- context [try_except (answer_with_chain env ?c question) _ ?s0] =>
    destruct (RetrievalQA_call_model_down env c question s0 e Hllm Hembed)
      as (sent & prompt & Hcall);
    rewrite (answer_with_chain_raises env c question s0 e _ Hcall) end.
  by exists sent, prompt.
Qed.

(** X12: when the language model cannot be reached while the embedding
    model answers, a typed question on a store whose collection holds a
    record ends with the error shown as "❌ Error: <message>" and
    recorded as the assistant's message, without sources; the model was
    called once. *)
Theorem X12_model_failure_is_recorded env question s store e :
  question <> "" ->
  vector_store s = Some store ->
  records_of s store <> [] ->
  (forall prompt, llm_invoke env prompt = Raise e) ->
  (forall text, exists v, embed_text env text = Ok v) ->
  let s' := snd (handle_chat_input env (Some question) s) in
  ui s' = ui s ++ [st_markdown question; st_error ("❌ Error: " ++ exc_str e)] /\
  messages s'
  = messages s ++ [mkMessage "user" question None;
                   mkMessage "assistant" ("❌ Error: " ++ exc_str e) None] /\
  List.length (llm_calls s') = S (List.length (llm_calls s)).
Proof.
  intros Hq Hstore Hrecords Hllm Hembed s'. unfold s'. clear s'.
  assert (usable_store s = Some store) as Husable
    by (by apply usable_store_some).
  destruct (handle_chat_input_model_down env question s store e
              Hq Husable Hllm Hembed) as (sent & prompt & ->).
  simpl. split; [by rewrite <- app_assoc|]. split; [by rewrite <- app_assoc|].
  rewrite length_app. simpl. lia.
Qed.

Lemma X12_witness :
  let s' := snd (handle_chat_input mute_env (Some "Skills?") loaded_app) in
  ui s' = ui loaded_app
          ++ [st_markdown "Skills?";
              st_error ("❌ Error: " ++ exc_str (ExternalError "Connection refused"))] /\
  messages s'
  = messages loaded_app
    ++ [mkMessage "user" "Skills?" None;
        mkMessage "assistant"
                  ("❌ Error: " ++ exc_str (ExternalError "Connection refused")) None] /\
  List.length (llm_calls s') = S (List.length (llm_calls loaded_app)).
Proof.
  apply (X12_model_failure_is_recorded mute_env "Skills?" loaded_app
           (mkChroma config.COLLECTION_NAME)).
  - by_evaluation.
  - reflexivity.
  - by vm_compute.
  - reflexivity.
  - intros text. by eexists.
Defined.

(** X13: a pending quick question is consumed once: handling it never
    raises and leaves no pending question, so handling again changes
    nothing; with an initialised store whose collection holds a record
    it records exactly one assistant message and does not record the
    question a second time. *)
Theorem X13_pending_question_is_consumed env s :
  let s' := snd (handle_pending_question env s) in
  fst (handle_pending_question env s) = Ok tt /\
  pending_question s' = None /\
  handle_pending_question env s' = (Ok tt, s') /\
  (forall question store,
     pending_question s = Some question ->
     vector_store s = Some store -> records_of s store <> [] ->
     exists m, messages s' = messages s ++ [m] /\ role m = "assistant").
Proof.
  destruct (pending_question s) as [question|] eqn:Hpending.
  - destruct (usable_store s) as [store|] eqn:Hstore.
    + destruct (handle_pending_question_with_chain env question s store
                  Hpending Hstore)
        as (m & events & prompts & sent & -> & Hrole & _ & _).
      simpl. split; [done|]. split; [done|].
      split; [by apply handle_pending_question_idle|].
      intros ? ? _ _ _. by exists m.
    + rewrite (handle_pending_question_no_chain env question) by done.
      simpl. split; [done|]. split; [done|].
      split; [by apply handle_pending_question_idle|].
      intros ? store _ Hwrapper Hrecords.
      assert (usable_store s = Some store) as Husable
        by (by apply usable_store_some).
      by rewrite Husable in Hstore.
  - rewrite handle_pending_question_idle by done. simpl.
    split; [done|]. split; [done|].
    split; [by apply handle_pending_question_idle|]. by intros ? ? [=].
Qed.

(** X14: with a processed resume in the session, a click on a
    quick-analysis button records the question as the user's message,
    queues it and asks for a rerun; the next handling of the pending
    question, with an initialised store whose collection holds a
    record, adds exactly one assistant message after it and empties the
    queue. *)
Theorem X14_quick_question_is_answered_next env question s store :
  resumes_processed s <> [] ->
  vector_store s = Some store ->
  records_of s store <> [] ->
  let s1 := snd (press_quick_question question s) in
  let s2 := snd (handle_pending_question env s1) in
  fst (press_quick_question question s) = Ok true /\
  pending_question s1 = Some question /\
  pending_question s2 = None /\
  exists m,
    messages s2 = messages s ++ [mkMessage "user" question None; m] /\
    role m = "assistant".
Proof.
  intros Hresumes Hstore Hrecords.
  assert (usable_store s = Some store) as Husable
    by (by apply usable_store_some).
  unfold press_quick_question, mbind, M_bind, bind, gets. cbv beta iota.
  destruct (resumes_processed s) as [|r rs] eqn:Hr; [done|].
  cbn [fst snd modify ret].
  set (s1 := set_pending_question _ _).
  destruct (handle_pending_question_with_chain env question s1 store)
    as (m & events & prompts & sent & -> & Hrole & _ & _);
    [done|by rewrite <- Husable; apply usable_store_frame|].
  simpl. split; [done|]. split; [done|]. split; [done|].
  exists m. by rewrite <- app_assoc.
Qed.

Lemma X14_witness :
  let s1 := snd (press_quick_question "Education?" loaded_app) in
  let s2 := snd (handle_pending_question sample_env s1) in
  fst (press_quick_question "Education?" loaded_app) = Ok true /\
  pending_question s1 = Some "Education?" /\
  pending_question s2 = None /\
  exists m,
    messages s2 = messages loaded_app ++ [mkMessage "user" "Education?" None; m] /\
    role m = "assistant".
Proof.
  apply (X14_quick_question_is_answered_next sample_env "Education?" loaded_app
           (mkChroma config.COLLECTION_NAME)).
  - by vm_compute.
  - reflexivity.
  - by vm_compute.
Defined.

(** ** Further facts about uploads *)

Section upload_frame.

Context {X : Type} (f : App -> X).
Hypothesis f_ui : forall g s, f (set_ui g s) = f s.
Hypothesis f_files : forall g s, f (set_files g s) = f s.
Hypothesis f_tmp_counter : forall n s, f (set_tmp_counter n s) = f s.
Hypothesis f_embed_calls : forall g s, f (set_embed_calls g s) = f s.
Hypothesis f_collections : forall g s, f (set_collections g s) = f s.

Lemma save_uploads_keeps env uploaded_files temp_files processed_names :
  keeps f (save_uploads env uploaded_files temp_files processed_names).
Proof.
  revert temp_files processed_names.
  induction uploaded_files as [|u us IH]; intros temp_files processed_names;
    simpl; [apply keeps_mret|].
  apply keeps_bind; [|intros; apply IH].
  unfold save_upload. apply keeps_bind; [apply keeps_gets|]. intros n.
  apply keeps_bind; [apply keeps_modify; intros; apply f_tmp_counter|]. intros _.
  apply keeps_bind; [apply keeps_modify; intros; apply f_files|]. intros _.
  apply keeps_mret.
Qed.

Lemma process_documents_keeps env self file_paths :
  keeps f (process_documents env self file_paths).
Proof. intros s. rewrite process_documents_run. apply f_ui. Qed.

Lemma add_documents_keeps env documents :
  keeps f (add_documents env documents).
Proof.
  unfold add_documents, Chroma_add_documents.
  destruct documents; [apply keeps_ret|].
  apply keeps_try_except.
  - apply keeps_bind; [apply keeps_gets|].
    intros [store|]; [|apply keeps_bind; [apply keeps_raise|intros; apply keeps_mret]].
    apply keeps_bind; [|intros; apply keeps_mret].
    apply keeps_bind; [by apply keeps_embed_all|]. intros embeddings.
    apply keeps_modify. intros; apply f_collections.
  - intros e. apply keeps_bind; [|intros; apply keeps_mret].
    apply keeps_modify. intros; apply f_ui.
Qed.

Lemma unlink_all_keeps temp_files :
  keeps f (for_each temp_files unlink_quietly).
Proof.
  apply keeps_for_each. intros p. apply keeps_modify. intros; apply f_files.
Qed.

Hypothesis f_resumes : forall g s, f (set_resumes_processed g s) = f s.

(** The part of [process_uploaded_files] inside its [try]. *)
Lemma upload_body_keeps env self temp_files processed_names :
  keeps f
    (documents ← process_documents env (document_processor self) temp_files;
     match documents with
     | [] => ret false
     | _ =>
         success ← add_documents env documents;
         (if success : bool
          then modify (set_resumes_processed (fun l => l ++ processed_names))
          else ret tt);;
         ret success
     end).
Proof.
  apply keeps_bind; [apply process_documents_keeps|]. intros [|d ds];
    [apply keeps_mret|].
  apply keeps_bind; [apply add_documents_keeps|]. intros [|].
  - apply keeps_bind; [|intros; apply keeps_mret].
    apply keeps_modify. intros; apply f_resumes.
  - apply keeps_bind; [apply keeps_mret|intros; apply keeps_mret].
Qed.

Lemma process_uploaded_files_keeps env self uploaded_files :
  keeps f (process_uploaded_files env self uploaded_files).
Proof.
  unfold process_uploaded_files. destruct uploaded_files as [|u us];
    [apply keeps_ret|].
  apply keeps_bind; [apply save_uploads_keeps|]. intros [temp_files names].
  apply keeps_try_finally; [apply upload_body_keeps|apply unlink_all_keeps].
Qed.

Lemma press_process_resumes_keeps env self uploaded_files :
  keeps f (press_process_resumes env self uploaded_files).
Proof.
  unfold press_process_resumes.
  apply keeps_bind; [apply process_uploaded_files_keeps|]. intros [|].
  - apply keeps_bind; [|intros; apply keeps_mret].
    apply keeps_modify. intros; apply f_ui.
  - apply keeps_bind; [|intros; apply keeps_mret].
    apply keeps_modify. intros; apply f_ui.
Qed.

End upload_frame.

Lemma save_uploads_returns env uploaded_files temp_files processed_names :
  never_raises (save_uploads env uploaded_files temp_files processed_names).
Proof.
  revert temp_files processed_names.
  induction uploaded_files as [|u us IH]; intros temp_files processed_names;
    simpl; [apply never_raises_mret|].
  apply never_raises_bind; [|intros; apply IH].
  unfold save_upload. returns_auto.
Qed.

Lemma process_documents_returns env self file_paths :
  never_raises (process_documents env self file_paths).
Proof. intros s. rewrite process_documents_run. by eexists. Qed.

Lemma add_documents_never_raises env documents :
  never_raises (add_documents env documents).
Proof. intros s. apply add_documents_returns. Qed.

Lemma process_uploaded_files_returns env self uploaded_files :
  never_raises (process_uploaded_files env self uploaded_files).
Proof.
  unfold process_uploaded_files. destruct uploaded_files as [|u us];
    [apply never_raises_ret|].
  apply never_raises_bind; [apply save_uploads_returns|].
  intros [temp_files names].
  apply never_raises_try_finally;
    [|apply never_raises_loop; intros; apply never_raises_modify].
  apply never_raises_bind; [apply process_documents_returns|].
  intros [|d ds]; [apply never_raises_mret|].
  apply never_raises_bind; [apply add_documents_never_raises|].
  intros [|]; returns_auto.
Qed.

(** Where the temporary files go, and that they are gone in the end. *)
Lemma save_uploads_files env uploaded_files temp_files processed_names s :
  exists paths s1,
    save_uploads env uploaded_files temp_files processed_names s
    = (Ok (temp_files ++ paths, processed_names ++ map name uploaded_files), s1) /\
    forall p, p ∉ paths -> files s1 !! p = files s !! p.
Proof.
  revert temp_files processed_names s.
  induction uploaded_files as [|u us IH]; intros temp_files processed_names s.
  - exists [], s. simpl. by rewrite !app_nil_r.
  - simpl. unfold mbind, M_bind, bind. simpl.
    match goal with |- context [save_uploads env us ?t ?n ?s0] =>
      destruct (IH t n s0) as (paths & s1 & -> & Hfiles) end.
    eexists (_ :: paths), s1. rewrite <- !app_assoc. simpl.
    split; [done|]. intros p [Hne Hp]%not_elem_of_cons.
    rewrite Hfiles by done. simpl. rewrite lookup_insert_ne; [done|].
    intros Heq. apply Hne. by rewrite Heq.
Qed.

Lemma unlink_all_files temp_files s :
  exists s',
    for_each temp_files unlink_quietly s = (Ok tt, s') /\
    forall p, (p ∈ temp_files -> files s' !! p = None) /\
              (p ∉ temp_files -> files s' !! p = files s !! p).
Proof.
  revert s. induction temp_files as [|t ts IH]; intros s; simpl.
  - exists s. split; [done|]. intros p. split; [by intros ?%elem_of_nil|done].
  - unfold mbind, M_bind, bind. simpl.
    destruct (IH (set_files (delete t) s)) as (s' & -> & Hfiles).
    exists s'. split; [done|]. intros p. split.
    + intros Hp. destruct (decide (p ∈ ts)) as [Hin|Hout].
      * by apply Hfiles.
      * apply elem_of_cons in Hp as [Heq|Hp]; [subst p|done].
        rewrite (proj2 (Hfiles t)) by done. simpl. apply lookup_delete_eq.
    + intros [Hne Hp]%not_elem_of_cons.
      rewrite (proj2 (Hfiles p)) by done. simpl.
      rewrite lookup_delete_ne; [done|]. intros Heq. apply Hne. by rewrite Heq.
Qed.



(** ** Further facts about a whole run *)

Section returns_with_facts.

Lemma returns_with_bind {A B} P (m : M A) Q (k : A -> M B) R :
  returns_with P m Q -> (forall a, returns_with (Q a) (k a) R) ->
  returns_with P (m ≫= k) R.
Proof.
  intros Hm Hk s Hs. unfold mbind, M_bind, bind.
  destruct (Hm s Hs) as (a & s' & -> & Hq). by apply Hk.
Qed.

Lemma returns_with_weaken {A} (P P' : App -> Prop) (m : M A) (Q Q' : A -> App -> Prop) :
  returns_with P m Q ->
  (forall s, P' s -> P s) -> (forall a s, Q a s -> Q' a s) ->
  returns_with P' m Q'.
Proof.
  intros Hm HP HQ s Hs. destruct (Hm s (HP s Hs)) as (a & s' & -> & Hq).
  exists a, s'. split; [done|]. by apply HQ.
Qed.

Lemma returns_with_frame {X A} (f : App -> X) (m : M A) (I : X -> Prop) :
  never_raises m -> keeps f m ->
  returns_with (fun s => I (f s)) m (fun _ s => I (f s)).
Proof.
  intros Hr Hk s Hs. destruct (Hr s) as [a Ha]. specialize (Hk s).
  destruct (m s) as [r s']. simpl in *. subst r.
  exists a, s'. split; [done|]. by rewrite Hk.
Qed.

Lemma returns_with_any {A} (m : M A) :
  never_raises m -> returns_with (fun _ => True) m (fun _ _ => True).
Proof.
  intros Hr s _. destruct (Hr s) as [a Ha]. destruct (m s) as [r s'].
  simpl in Ha. subst r. by exists a, s'.
Qed.

Lemma returns_with_ret {A} (P : App -> Prop) (a : A) (Q : A -> App -> Prop) :
  (forall s, P s -> Q a s) -> returns_with P (mret a) Q.
Proof. intros H s Hs. exists a, s. split; [done|]. by apply H. Qed.

End returns_with_facts.

(** ** Further facts about the page *)

Lemma mode_display_known mode :
  exists text, mode_display !! mode_key mode = Some text.
Proof. destruct mode; vm_compute; by eexists. Qed.

Lemma show_sources_returns sources : never_raises (show_sources sources).
Proof. intros s. destruct (show_sources_run sources s) as [events ->]. by eexists. Qed.

Lemma show_message_returns message : never_raises (show_message message).
Proof. intros s. destruct (show_message_run message s) as [events ->]. by eexists. Qed.

Lemma report_failure_returns e : never_raises (report_failure e).
Proof. unfold report_failure. returns_auto. Qed.

Lemma handle_pending_question_returns env :
  never_raises (handle_pending_question env).
Proof.
  unfold handle_pending_question. returns_auto.
Qed.

Lemma handle_chat_input_returns env chat_input :
  never_raises (handle_chat_input env chat_input).
Proof.
  unfold handle_chat_input. returns_auto.
Qed.

Lemma press_quick_question_returns question :
  never_raises (press_quick_question question).
Proof. unfold press_quick_question. returns_auto. Qed.

Lemma sidebar_quick_questions_returns clicked items :
  never_raises (sidebar_quick_questions clicked items).
Proof.
  induction items as [|[question_type question] rest IH]; simpl;
    [apply never_raises_ret|].
  apply never_raises_bind.
  - destruct (clicked question_type);
      [apply press_quick_question_returns|apply never_raises_ret].
  - intros [|]; [apply never_raises_mret|apply IH].
Qed.

Lemma press_clear_all_returns : never_raises press_clear_all.
Proof. unfold press_clear_all, clear_database. returns_auto. Qed.

Lemma check_connection_returns env : never_raises (check_connection env).
Proof. unfold check_connection. returns_auto. Qed.

Lemma sidebar_status_returns connection_status :
  never_raises (sidebar_status connection_status).
Proof. unfold sidebar_status, st_write. returns_auto. Qed.

Lemma press_process_resumes_returns env self uploaded_files :
  never_raises (press_process_resumes env self uploaded_files).
Proof.
  unfold press_process_resumes.
  apply never_raises_bind; [apply process_uploaded_files_returns|].
  intros [|]; returns_auto.
Qed.

Lemma sidebar_upload_returns env self input :
  never_raises (sidebar_upload env self input).
Proof.
  unfold sidebar_upload. destruct (in_uploaded_files input);
    [apply never_raises_ret|].
  destruct (in_process_clicked input);
    [apply press_process_resumes_returns|apply never_raises_ret].
Qed.

(** What a run leaves alone: a component of the state that none of the
    fields a step writes to feeds into is kept by that step. *)
Section page_frame.

Context {X : Type} (f : App -> X).
Hypothesis f_ui : forall g s, f (set_ui g s) = f s.
Hypothesis f_embed_calls : forall g s, f (set_embed_calls g s) = f s.
Hypothesis f_llm_calls : forall g s, f (set_llm_calls g s) = f s.
Hypothesis f_messages : forall g s, f (set_messages g s) = f s.
Hypothesis f_pending : forall q s, f (set_pending_question q s) = f s.
Hypothesis f_collections : forall g s, f (set_collections g s) = f s.
Hypothesis f_vector_store : forall v s, f (set_vector_store v s) = f s.
Hypothesis f_resumes : forall g s, f (set_resumes_processed g s) = f s.

Local Ltac frame_step :=
  first
    [ apply keeps_ret | apply keeps_mret | apply keeps_raise | apply keeps_lift
    | apply keeps_gets | apply keeps_bind | apply keeps_try_except
    | apply keeps_try_finally | apply keeps_for_each
    | apply keeps_modify; intros;
      solve [ apply f_ui | apply f_embed_calls | apply f_llm_calls
            | apply f_messages | apply f_pending | apply f_collections
            | apply f_vector_store | apply f_resumes ]
    | match goal with
      | |- keeps _ (match ?x with _ => _ end) => destruct x
      | |- keeps _ (if ?x then _ else _) => destruct x
      | |- forall _, _ => intro
      end ].

Local Ltac frame := repeat frame_step.

Lemma invoke_llm_keeps env prompt : keeps f (invoke_llm env prompt).
Proof. unfold invoke_llm. frame. Qed.

Lemma check_connection_keeps env : keeps f (check_connection env).
Proof. unfold check_connection, invoke_llm, show. frame. Qed.

Lemma sidebar_status_keeps connection_status :
  keeps f (sidebar_status connection_status).
Proof. unfold sidebar_status, st_write, show. frame. Qed.

Lemma show_sources_keeps sources : keeps f (show_sources sources).
Proof. unfold show_sources, show. frame. Qed.

Lemma show_message_keeps message : keeps f (show_message message).
Proof.
  unfold show_message. apply keeps_bind; [unfold show; frame|]. intros _.
  destruct (sources message) as [[|d ds]|];
    [apply keeps_ret|apply show_sources_keeps|apply keeps_ret].
Qed.

Lemma RetrievalQA_call_keeps env qa_chain query :
  keeps f (RetrievalQA_call env qa_chain query).
Proof.
  unfold RetrievalQA_call, get_relevant_documents,
    similarity_search_with_score, embed_one, invoke_llm.
  frame.
Qed.

Lemma report_failure_keeps e : keeps f (report_failure e).
Proof. unfold report_failure, show. frame. Qed.

Lemma answer_with_chain_keeps env qa_chain question :
  keeps f (answer_with_chain env qa_chain question).
Proof.
  unfold answer_with_chain.
  apply keeps_bind; [apply RetrievalQA_call_keeps|]. intros [response srcs].
  apply keeps_bind; [unfold show; frame|]. intros _.
  apply keeps_bind; [|frame].
  destruct srcs; [apply keeps_ret|apply show_sources_keeps].
Qed.

Lemma setup_qa_chain_keeps prompt_type : keeps f (setup_qa_chain prompt_type).
Proof. intros s. by rewrite setup_qa_chain_run. Qed.

Lemma handle_pending_question_keeps env : keeps f (handle_pending_question env).
Proof.
  unfold handle_pending_question.
  apply keeps_bind; [apply keeps_gets|]. intros [question|]; [|apply keeps_ret].
  apply keeps_bind; [frame|]. intros _.
  apply keeps_try_except; [|apply report_failure_keeps].
  apply keeps_bind; [apply keeps_gets|]. intros prompt_type.
  apply keeps_bind; [apply setup_qa_chain_keeps|]. intros [qa_chain|].
  - apply answer_with_chain_keeps.
  - unfold show; frame.
Qed.

Lemma handle_chat_input_keeps env chat_input :
  keeps f (handle_chat_input env chat_input).
Proof.
  unfold handle_chat_input. destruct chat_input as [prompt|]; [|apply keeps_ret].
  destruct (decide (prompt = "")); [apply keeps_ret|].
  apply keeps_bind; [frame|]. intros _.
  apply keeps_bind; [unfold show; frame|]. intros _.
  apply keeps_try_except; [|apply report_failure_keeps].
  apply keeps_bind; [apply keeps_gets|]. intros prompt_type.
  apply keeps_bind; [apply setup_qa_chain_keeps|]. intros [qa_chain|].
  - apply answer_with_chain_keeps.
  - unfold show; frame.
Qed.

Lemma main_interface_keeps env chat_input :
  keeps f (main_interface env chat_input).
Proof.
  unfold main_interface.
  apply keeps_bind; [apply keeps_gets|]. intros [|r rs]; [unfold show; frame|].
  apply keeps_bind; [apply keeps_gets|]. intros prompt_type.
  apply keeps_bind; [unfold show; frame|]. intros _.
  apply keeps_bind; [apply keeps_gets|]. intros history.
  apply keeps_bind;
    [apply keeps_for_each; intros; apply show_message_keeps|]. intros _.
  apply keeps_bind; [apply handle_pending_question_keeps|]. intros _.
  apply handle_chat_input_keeps.
Qed.

Lemma press_quick_question_keeps question :
  keeps f (press_quick_question question).
Proof. unfold press_quick_question, show. frame. Qed.

Lemma sidebar_quick_questions_keeps clicked items :
  keeps f (sidebar_quick_questions clicked items).
Proof.
  induction items as [|[question_type question] rest IH]; simpl;
    [apply keeps_ret|].
  apply keeps_bind.
  - destruct (clicked question_type);
      [apply press_quick_question_keeps|apply keeps_ret].
  - intros [|]; [apply keeps_mret|apply IH].
Qed.

Lemma delete_collection_keeps collection :
  keeps f (delete_collection collection).
Proof.
  intros s. unfold delete_collection.
  destruct (collections s !! collection); [apply f_collections|done].
Qed.

Lemma Chroma_open_keeps collection : keeps f (Chroma_open collection).
Proof. intros s. apply f_collections. Qed.

Lemma initialize_vector_store_keeps : keeps f _initialize_vector_store.
Proof.
  unfold _initialize_vector_store.
  apply keeps_try_except; [|unfold show; frame].
  apply keeps_bind; [apply Chroma_open_keeps|frame].
Qed.

Lemma clear_database_keeps : keeps f clear_database.
Proof.
  unfold clear_database.
  apply keeps_try_except; [|unfold show; frame].
  apply keeps_bind; [apply delete_collection_keeps|]. intros _.
  apply keeps_bind; [apply initialize_vector_store_keeps|frame].
Qed.

Lemma press_clear_all_keeps : keeps f press_clear_all.
Proof.
  unfold press_clear_all.
  apply keeps_bind; [apply clear_database_keeps|]. intros [|];
    unfold show; frame.
Qed.

End page_frame.

Ltac by_frame := intros; reflexivity.

(** With a prompt type the select box can return, the main interface
    returns and leaves the prompt type as it is. *)
Lemma main_interface_returns env chat_input mode :
  returns_with (fun s => current_prompt_type s = mode_key mode)
    (main_interface env chat_input)
    (fun _ s => current_prompt_type s = mode_key mode).
Proof.
  unfold main_interface.
  apply returns_with_bind
    with (Q := fun _ s => current_prompt_type s = mode_key mode).
  { apply (returns_with_frame current_prompt_type _ (fun x => x = mode_key mode));
      [apply never_raises_gets|apply keeps_gets]. }
  intros [|r rs].
  { apply (returns_with_frame current_prompt_type _ (fun x => x = mode_key mode));
      [returns_auto|unfold show; keeps_all]. }
  intros s Hs. unfold mbind at 1, M_bind at 1, bind at 1, gets at 1.
  cbv beta iota. rewrite Hs.
  destruct (mode_display_known mode) as [text ->].
  revert s Hs.
  apply (returns_with_frame current_prompt_type _ (fun x => x = mode_key mode)).
  - apply never_raises_bind; [apply never_raises_show|]. intros _.
    apply never_raises_bind; [apply never_raises_gets|]. intros history.
    apply never_raises_bind;
      [apply never_raises_loop; intros; apply show_message_returns|]. intros _.
    apply never_raises_bind; [apply handle_pending_question_returns|]. intros _.
    apply handle_chat_input_returns.
  - apply keeps_bind; [unfold show; keeps_all|]. intros _.
    apply keeps_bind; [apply keeps_gets|]. intros history.
    apply keeps_bind;
      [apply keeps_for_each; intros; apply show_message_keeps; by_frame|].
    intros _.
    apply keeps_bind; [apply handle_pending_question_keeps; by_frame|]. intros _.
    apply handle_chat_input_keeps; by_frame.
Qed.

Lemma run_returns env self input :
  returns_with (fun _ => True) (run env self input)
    (fun e s' =>
       e <> Stopped /\
       (e = Finished ->
        current_prompt_type s' = mode_key (in_selected_mode input))).
Proof.
  unfold run.
  apply returns_with_bind with (Q := fun _ _ => True);
    [apply returns_with_any, never_raises_show|]. intros _.
  apply returns_with_bind with (Q := fun _ _ => True);
    [apply returns_with_any, check_connection_returns|]. intros status.
  apply returns_with_bind with (Q := fun _ _ => True);
    [apply returns_with_any, sidebar_status_returns|]. intros _.
  apply returns_with_bind with (Q := fun _ _ => True);
    [apply returns_with_any, sidebar_upload_returns|].
  intros [|]; [by apply returns_with_ret|].
  set (k := mode_key (in_selected_mode input)).
  apply returns_with_bind with (Q := fun _ s => current_prompt_type s = k).
  { intros s _. by eexists tt, _. }
  intros _.
  apply returns_with_bind with (Q := fun _ s => current_prompt_type s = k).
  { apply (returns_with_frame current_prompt_type _ (fun x => x = k));
      [apply sidebar_quick_questions_returns
      |apply sidebar_quick_questions_keeps; by_frame]. }
  intros [|]; [by apply returns_with_ret|].
  apply returns_with_bind with (Q := fun _ s => current_prompt_type s = k).
  { destruct (in_clear_clicked input).
    - apply (returns_with_frame current_prompt_type _ (fun x => x = k));
        [apply press_clear_all_returns|apply press_clear_all_keeps; by_frame].
    - by apply returns_with_ret. }
  intros [|]; [by apply returns_with_ret|].
  apply returns_with_bind with (Q := fun _ s => current_prompt_type s = k);
    [apply main_interface_returns|].
  intros _. by apply returns_with_ret.
Qed.

(** What a run only adds to: a component of the state that each write
    moves along a preorder moves along it over the whole run. *)
Section page_growth.

Context {X : Type} (R : relation X) `{!PreOrder R} (f : App -> X).
Hypothesis f_ui : forall g s, f (set_ui g s) = f s.
Hypothesis f_files : forall g s, f (set_files g s) = f s.
Hypothesis f_tmp_counter : forall n s, f (set_tmp_counter n s) = f s.
Hypothesis f_collections : forall g s, f (set_collections g s) = f s.
Hypothesis f_pending : forall q s, f (set_pending_question q s) = f s.
Hypothesis f_prompt_type : forall k s, f (set_current_prompt_type k s) = f s.
Hypothesis f_embed :
  forall text s, R (f s) (f (set_embed_calls (fun l => l ++ [text]) s)).
Hypothesis f_llm :
  forall prompt s, R (f s) (f (set_llm_calls (fun l => l ++ [prompt]) s)).
Hypothesis f_message :
  forall m s, R (f s) (f (set_messages (fun l => l ++ [m]) s)).
Hypothesis f_resumes :
  forall names s, R (f s) (f (set_resumes_processed (fun l => l ++ names) s)).

Local Ltac grow_step :=
  first
    [ apply (evolves_ret R) | apply (evolves_mret R) | apply (evolves_bind R)
    | apply (evolves_try_except R) | apply (evolves_for_each R)
    | apply (evolves_modify R); intros;
      solve [ apply f_embed | apply f_llm | apply f_message | apply f_resumes
            | rewrite ?f_ui, ?f_files, ?f_tmp_counter, ?f_collections,
                ?f_pending, ?f_prompt_type; reflexivity ]
    | apply (evolves_keeps R);
      solve [ apply keeps_gets | apply keeps_raise | apply keeps_lift
            | apply keeps_ret ]
    | match goal with
      | |- evolves _ _ (match ?x with _ => _ end) => destruct x
      | |- evolves _ _ (if ?x then _ else _) => destruct x
      | |- forall _, _ => intro
      end ].

Local Ltac grow := repeat grow_step.

Lemma evolves_try_finally {A} (body : M A) cleanup :
  evolves R f body -> evolves R f cleanup ->
  evolves R f (try_finally body cleanup).
Proof.
  intros Hm Hc s. unfold try_finally.
  specialize (Hm s). destruct (body s) as [r s']; simpl in *.
  specialize (Hc s'). destruct (cleanup s') as [[[]|e] s'']; simpl in *;
    by etrans.
Qed.

Lemma embed_all_evolves env texts : evolves R f (embed_all env texts).
Proof.
  induction texts as [|t ts IH]; simpl; [apply (evolves_ret R)|].
  apply (evolves_bind R); [unfold embed_one; grow|]. intros e.
  apply (evolves_bind R); [apply IH|grow].
Qed.

Lemma add_documents_evolves env documents :
  evolves R f (add_documents env documents).
Proof.
  unfold add_documents, Chroma_add_documents, show.
  destruct documents; [apply (evolves_ret R)|].
  apply (evolves_try_except R); [|grow].
  apply (evolves_bind R); [grow|]. intros [store|]; [|grow].
  apply (evolves_bind R); [|grow].
  apply (evolves_bind R); [apply embed_all_evolves|grow].
Qed.

Lemma process_uploaded_files_evolves env self uploaded_files :
  evolves R f (process_uploaded_files env self uploaded_files).
Proof.
  unfold process_uploaded_files. destruct uploaded_files as [|u us];
    [apply (evolves_ret R)|].
  apply (evolves_bind R); [by apply (evolves_keeps R), save_uploads_keeps|].
  intros [temp_files names].
  apply evolves_try_finally; [|by apply (evolves_keeps R), unlink_all_keeps].
  apply (evolves_bind R); [by apply (evolves_keeps R), process_documents_keeps|].
  intros [|d ds]; [apply (evolves_mret R)|].
  apply (evolves_bind R); [apply add_documents_evolves|grow].
Qed.

Lemma sidebar_upload_evolves env self input :
  evolves R f (sidebar_upload env self input).
Proof.
  unfold sidebar_upload, press_process_resumes, show.
  destruct (in_uploaded_files input); [apply (evolves_ret R)|].
  destruct (in_process_clicked input); [|apply (evolves_ret R)].
  apply (evolves_bind R); [apply process_uploaded_files_evolves|grow].
Qed.

Lemma RetrievalQA_call_evolves env qa_chain query :
  evolves R f (RetrievalQA_call env qa_chain query).
Proof.
  unfold RetrievalQA_call, get_relevant_documents,
    similarity_search_with_score, embed_one, invoke_llm.
  grow.
Qed.

Lemma show_sources_evolves sources : evolves R f (show_sources sources).
Proof. by apply (evolves_keeps R), show_sources_keeps. Qed.

Lemma show_message_evolves message : evolves R f (show_message message).
Proof. by apply (evolves_keeps R), show_message_keeps. Qed.

Lemma answer_with_chain_evolves env qa_chain question :
  evolves R f (answer_with_chain env qa_chain question).
Proof.
  unfold answer_with_chain, show.
  apply (evolves_bind R); [apply RetrievalQA_call_evolves|]. intros [response srcs].
  apply (evolves_bind R); [grow|]. intros _.
  apply (evolves_bind R); [|grow].
  destruct srcs; [apply (evolves_ret R)|apply show_sources_evolves].
Qed.

Lemma report_failure_evolves e : evolves R f (report_failure e).
Proof. unfold report_failure, show. grow. Qed.

Lemma handle_pending_question_evolves env :
  evolves R f (handle_pending_question env).
Proof.
  unfold handle_pending_question, show.
  apply (evolves_bind R); [grow|]. intros [question|]; [|apply (evolves_ret R)].
  apply (evolves_bind R); [grow|]. intros _.
  apply (evolves_try_except R); [|apply report_failure_evolves].
  apply (evolves_bind R); [grow|]. intros prompt_type.
  apply (evolves_bind R); [by apply (evolves_keeps R), setup_qa_chain_keeps|].
  intros [qa_chain|]; [apply answer_with_chain_evolves|grow].
Qed.

Lemma handle_chat_input_evolves env chat_input :
  evolves R f (handle_chat_input env chat_input).
Proof.
  unfold handle_chat_input, show.
  destruct chat_input as [question|]; [|apply (evolves_ret R)].
  destruct (decide (question = "")); [apply (evolves_ret R)|].
  apply (evolves_bind R); [grow|]. intros _.
  apply (evolves_bind R); [grow|]. intros _.
  apply (evolves_try_except R); [|apply report_failure_evolves].
  apply (evolves_bind R); [grow|]. intros prompt_type.
  apply (evolves_bind R); [by apply (evolves_keeps R), setup_qa_chain_keeps|].
  intros [qa_chain|]; [apply answer_with_chain_evolves|grow].
Qed.

Lemma main_interface_evolves env chat_input :
  evolves R f (main_interface env chat_input).
Proof.
  unfold main_interface, show.
  apply (evolves_bind R); [grow|]. intros [|r rs]; [grow|].
  apply (evolves_bind R); [grow|]. intros prompt_type.
  apply (evolves_bind R); [grow|]. intros _.
  apply (evolves_bind R); [grow|]. intros history.
  apply (evolves_bind R);
    [apply (evolves_for_each R); intros; apply show_message_evolves|]. intros _.
  apply (evolves_bind R); [apply handle_pending_question_evolves|]. intros _.
  apply handle_chat_input_evolves.
Qed.

Lemma sidebar_quick_questions_evolves clicked items :
  evolves R f (sidebar_quick_questions clicked items).
Proof.
  induction items as [|[question_type question] rest IH]; simpl;
    [apply (evolves_ret R)|].
  apply (evolves_bind R).
  - destruct (clicked question_type); [|apply (evolves_ret R)].
    unfold press_quick_question, show. grow.
  - intros [|]; [apply (evolves_mret R)|apply IH].
Qed.

(** [run] from the status lines of the sidebar on. *)
Lemma page_evolves env self input connection_status :
  (in_clear_clicked input = true -> evolves R f press_clear_all) ->
  evolves R f
    (sidebar_status connection_status;;
     rerun ← sidebar_upload env self input;
     if rerun : bool then ret Rerun
     else
       modify (set_current_prompt_type (mode_key (in_selected_mode input)));;
       rerun ← sidebar_quick_questions (in_quick_clicked input)
                 config.QUICK_QUESTIONS;
       if rerun : bool then ret Rerun
       else
         rerun ← (if in_clear_clicked input then press_clear_all else ret false);
         if rerun : bool then ret Rerun
         else
           main_interface env (in_chat_input input);;
           ret Finished).
Proof.
  intros Hclear.
  apply (evolves_bind R); [by apply (evolves_keeps R), sidebar_status_keeps|]. intros _.
  apply (evolves_bind R); [apply sidebar_upload_evolves|].
  intros [|]; [apply (evolves_ret R)|].
  apply (evolves_bind R); [grow|]. intros _.
  apply (evolves_bind R); [apply sidebar_quick_questions_evolves|].
  intros [|]; [apply (evolves_ret R)|].
  apply (evolves_bind R).
  { destruct (in_clear_clicked input); [by apply Hclear|apply (evolves_ret R)]. }
  intros [|]; [apply (evolves_ret R)|].
  apply (evolves_bind R); [apply main_interface_evolves|grow].
Qed.

Lemma check_connection_evolves env : evolves R f (check_connection env).
Proof. unfold check_connection, invoke_llm, show. grow. Qed.

Lemma run_evolves env self input :
  (in_clear_clicked input = true -> evolves R f press_clear_all) ->
  evolves R f (run env self input).
Proof.
  intros Hclear. unfold run.
  apply (evolves_bind R); [unfold show; grow|]. intros _.
  apply (evolves_bind R); [apply check_connection_evolves|]. intros status.
  by apply page_evolves.
Qed.

End page_growth.

Lemma bind_run {A B} (m : M A) (k : A -> M B) s a s1 :
  m s = (Ok a, s1) -> (m ≫= k) s = k a s1.
Proof. intros Hm. unfold mbind, M_bind, bind. by rewrite Hm. Qed.

Lemma check_connection_run env s :
  exists status events,
    check_connection env s
    = (Ok status, add_ui events (add_llm_calls ["test"] s)).
Proof.
  unfold check_connection, try_except, invoke_llm, mbind, M_bind, bind,
    modify, lift.
  destruct (llm_invoke env "test") as [answer|e].
  - exists "🟢 Connected", []. by rewrite add_ui_nil.
  - eexists "🔴 Disconnected", [_; _]. rewrite !show_run. cbv beta iota.
    by rewrite add_ui_app.
Qed.

(** The prompts of a run start with the connection check. *)
Lemma run_llm_calls env self input s :
  exists rest,
    llm_calls (snd (run env self input s)) = llm_calls s ++ "test" :: rest.
Proof.
  unfold run, mbind at 1, M_bind at 1, bind at 1. rewrite show_run.
  cbv beta iota. unfold mbind at 1, M_bind at 1, bind at 1.
  destruct (check_connection_run env (add_ui [st_markdown "**AI-powered resume analysis with local processing and privacy**"] s))
    as (status & events & ->).
  cbv beta iota.
  match goal with |- context [snd (?page ?s0)] =>
    assert (llm_calls s0 `prefix_of` llm_calls (snd (page s0))) as [rest ->]
  end.
  { apply (page_evolves list.prefix llm_calls); try by_frame.
    - intros; by apply prefix_app_r.
    - intros _. apply (evolves_keeps list.prefix), press_clear_all_keeps; by_frame. }
  simpl. exists rest. by rewrite <- app_assoc.
Qed.

(** ** Further properties of app.py: the run of the page *)

(** X16: [run] never raises and never stops the script, whatever the
    widgets return and whatever the session holds: the lookup of the mode
    label cannot fail, since the select box has set the prompt type in
    the same run.  A run that reaches its last line leaves the selected
    mode as the session's prompt type. *)
Theorem X16_run_ends_normally env self input s :
  exists e s',
    run env self input s = (Ok e, s') /\
    e <> Stopped /\
    (e = Finished ->
     current_prompt_type s' = mode_key (in_selected_mode input)).
Proof. by apply run_returns. Qed.

(** X17: a run only appends: the prompts sent to the language model and
    the texts sent to the embedding model are extended, never rewritten;
    unless "Clear All" is clicked, so are the chat history and the list
    of processed resumes. *)
Theorem X17_a_run_only_appends env self input s :
  let s' := snd (run env self input s) in
  llm_calls s `prefix_of` llm_calls s' /\
  embed_calls s `prefix_of` embed_calls s' /\
  (in_clear_clicked input = false ->
   messages s `prefix_of` messages s' /\
   resumes_processed s `prefix_of` resumes_processed s').
Proof.
  split; [|split; [|intros Hclear; split]].
  - apply (run_evolves list.prefix llm_calls); try by_frame.
    + intros; by apply prefix_app_r.
    + intros _. apply (evolves_keeps list.prefix), press_clear_all_keeps; by_frame.
  - apply (run_evolves list.prefix embed_calls); try by_frame.
    + intros; by apply prefix_app_r.
    + intros _. apply (evolves_keeps list.prefix), press_clear_all_keeps; by_frame.
  - apply (run_evolves list.prefix messages); try by_frame.
    + intros; by apply prefix_app_r.
    + by rewrite Hclear.
  - apply (run_evolves list.prefix resumes_processed); try by_frame.
    + intros; by apply prefix_app_r.
    + by rewrite Hclear.
Qed.

(** X18: [main] runs the page only behind the health check.  When the
    model cannot complete "test", the script stops after showing the two
    help messages: no store is constructed and no session key is set.
    When it can, the script does not stop, and the page has sent "test"
    once more before any other prompt. *)
Theorem X18_health_check_gates_the_page env keys input s :
  (forall e,
     llm_invoke env "test" = Raise e ->
     main env keys input s
     = (Ok Stopped,
        add_ui [st_error "❌ Ollama is not running or model not found!";
                st_markdown ollama_help]
               (add_llm_calls ["test"] s))) /\
  (forall answer,
     llm_invoke env "test" = Ok answer ->
     exists e s' rest,
       main env keys input s = (Ok e, s') /\
       e <> Stopped /\
       llm_calls s' = llm_calls s ++ "test" :: "test" :: rest).
Proof.
  split.
  - intros e He.
    unfold main, try_except, invoke_llm, mbind, M_bind, bind, modify, lift.
    rewrite He. rewrite !show_run. cbv beta iota. by rewrite add_ui_app.
  - intros answer Hanswer. unfold main.
    rewrite (bind_run _ _ s true (add_llm_calls ["test"] s)).
    2:{ unfold try_except, invoke_llm, mbind, M_bind, bind, modify, lift.
        by rewrite Hanswer. }
    assert (exists s1,
              ResumeAnalyzer_init keys (add_llm_calls ["test"] s)
              = (Ok (mkResumeAnalyzer DocumentProcessor_init), s1) /\
              llm_calls s1 = llm_calls s ++ ["test"]) as (s1 & Hinit & Hcalls).
    { destruct keys as [[|] [|] [|] [|]]; by eexists. }
    rewrite (bind_run _ _ _ _ _ Hinit).
    destruct (run_returns env (mkResumeAnalyzer DocumentProcessor_init) input s1 I)
      as (e & s' & Hrun & Hend & _).
    destruct (run_llm_calls env (mkResumeAnalyzer DocumentProcessor_init) input s1)
      as [rest Hrest].
    rewrite Hrun in *. simpl in Hrest.
    exists e, s', rest. split; [done|]. split; [done|].
    by rewrite Hrest, Hcalls, <- app_assoc.
Qed.

Lemma sidebar_status_run connection_status s :
  exists events, sidebar_status connection_status s = (Ok tt, add_ui events s).
Proof.
  unfold sidebar_status, st_write.
  rewrite (bind_run _ _ _ _ _ (show_run _ _)).
  rewrite (bind_run _ _ _ _ _ (show_run _ _)).
  unfold mbind at 1, M_bind at 1, bind at 1, gets at 1. cbv beta iota.
  rewrite (bind_run _ _ _ _ _ (show_run _ _)). rewrite !add_ui_app.
  cbn [resumes_processed add_ui set_ui].
  destruct (resumes_processed s) as [|r rs]; [by eexists|].
  match goal with |- context [for_each ?xs ?body ?s0] =>
    destruct (for_each_shows xs body) with (s := s0) as [events Hevents] end.
  { intros x s1. by eexists [_]. }
  fold (add_ui [st_markdown ("Status: " ++ connection_status);
                st_markdown ("Model: " ++ config.DEFAULT_MODEL);
                st_markdown ("Resumes loaded: " ++ pretty (List.length (r :: rs)))] s)
    in *.
  rewrite Hevents, add_ui_app. by eexists.
Qed.

(** Without a processed resume every quick-analysis button only warns. *)
Lemma sidebar_quick_questions_without_resumes clicked items s :
  resumes_processed s = [] ->
  exists events,
    sidebar_quick_questions clicked items s = (Ok false, add_ui events s).
Proof.
  intros Hnone. revert s Hnone.
  induction items as [|[question_type question] rest IH]; intros s Hnone; simpl.
  - exists []. by rewrite add_ui_nil.
  - destruct (clicked question_type).
    + rewrite (bind_run _ _ s false
                 (add_ui [st_warning "Please upload resumes first!"] s)).
      2:{ unfold press_quick_question, mbind, M_bind, bind, gets.
          by rewrite Hnone. }
      destruct (IH (add_ui [st_warning "Please upload resumes first!"] s) Hnone)
        as [events ->].
      rewrite add_ui_app. by eexists.
    + rewrite (bind_run _ _ s false s) by done. by apply IH.
Qed.

(** X19: [ResumeAnalyzer.__init__] sets each session key only when it is
    missing: a key that is there keeps its value, a missing one gets its
    initial value.  Constructing the analyzer never raises, shows
    nothing, calls no model, and keeps every record of the database and
    a pending question. *)
Theorem X19_session_keys_are_set_once keys s :
  let s' := snd (ResumeAnalyzer_init keys s) in
  fst (ResumeAnalyzer_init keys s) = Ok (mkResumeAnalyzer DocumentProcessor_init) /\
  vector_store s'
  = (if has_vector_store keys then vector_store s
     else Some (mkChroma config.COLLECTION_NAME)) /\
  messages s' = (if has_messages keys then messages s else []) /\
  resumes_processed s'
  = (if has_resumes_processed keys then resumes_processed s else []) /\
  current_prompt_type s'
  = (if has_current_prompt_type keys then current_prompt_type s else "general") /\
  (forall collection, all_records s' collection = all_records s collection) /\
  ui s' = ui s /\ llm_calls s' = llm_calls s /\ embed_calls s' = embed_calls s /\
  pending_question s' = pending_question s.
Proof.
  assert (forall collection : string,
            default [] ((match collections s !! config.COLLECTION_NAME with
                         | Some _ => collections s
                         | None => <[config.COLLECTION_NAME := []]> (collections s)
                         end) !! collection)
            = default [] (collections s !! collection)) as Hrecords.
  { intros collection.
    destruct (collections s !! config.COLLECTION_NAME) eqn:Hc; [done|].
    destruct (decide (collection = config.COLLECTION_NAME)) as [->|Hne].
    - by rewrite lookup_insert_eq, Hc.
    - by rewrite lookup_insert_ne. }
  destruct keys as [[|] [|] [|] [|]]; simpl;
    (split; [done|]); (split; [done|]); (split; [done|]); (split; [done|]);
    (split; [done|]); (split; [|done]); intros collection; unfold all_records;
    simpl; solve [done | apply Hrecords].
Qed.

(** X20: without a processed resume in the session a run cannot ask
    anything, whatever the database holds: when no upload is processed
    and "Clear All" is not clicked, the run reaches its last line having
    shown the upload prompt; a typed question and every quick-analysis
    button are ignored, no chunk is retrieved, and the only prompt sent
    to the model is the connection check. *)
Theorem X20_questions_need_a_processed_resume env self input s :
  resumes_processed s = [] ->
  in_process_clicked input = false ->
  in_clear_clicked input = false ->
  exists s' events,
    run env self input s = (Ok Finished, s') /\
    messages s' = messages s /\
    pending_question s' = pending_question s /\
    resumes_processed s' = [] /\
    collections s' = collections s /\
    embed_calls s' = embed_calls s /\
    llm_calls s' = llm_calls s ++ ["test"] /\
    ui s' = ui s ++ events
            ++ [st_info "👆 Please upload resume files to start your analysis!";
                st_markdown example_questions_technical;
                st_markdown example_questions_experience].
Proof.
  intros Hnone Hprocess Hclear. unfold run.
  rewrite (bind_run _ _ _ _ _ (show_run _ _)).
  match goal with |- context [(check_connection env ≫= _) ?s0] =>
    destruct (check_connection_run env s0) as (status & ev1 & Hcheck) end.
  rewrite (bind_run _ _ _ _ _ Hcheck).
  match goal with |- context [(sidebar_status status ≫= _) ?s0] =>
    destruct (sidebar_status_run status s0) as (ev2 & Hstatus) end.
  rewrite (bind_run _ _ _ _ _ Hstatus).
  match goal with |- context [(sidebar_upload env self input ≫= _) ?s0] =>
    assert (sidebar_upload env self input s0 = (Ok false, s0)) as Hupload
  end.
  { unfold sidebar_upload. rewrite Hprocess.
    by destruct (in_uploaded_files input). }
  rewrite (bind_run _ _ _ _ _ Hupload). cbv beta iota.
  match goal with |- context [(modify ?g ≫= _) ?s0] =>
    rewrite (bind_run (modify g) _ s0 tt (g s0)) by done
  end.
  match goal with |- context [(sidebar_quick_questions ?c ?items ≫= _) ?s0] =>
    destruct (sidebar_quick_questions_without_resumes c items s0 Hnone)
      as (ev3 & Hquick)
  end.
  rewrite (bind_run _ _ _ _ _ Hquick). cbv beta iota. rewrite Hclear.
  match goal with |- context [(ret false ≫= _) ?s0] =>
    rewrite (bind_run (ret false) _ s0 false s0) by done
  end.
  cbv beta iota.
  match goal with |- context [(main_interface env ?c ≫= _) ?s0] =>
    rewrite (bind_run (main_interface env c) _ s0 tt
               (add_ui [st_info "👆 Please upload resume files to start your analysis!";
                        st_markdown example_questions_technical;
                        st_markdown example_questions_experience] s0))
  end.
  2:{ unfold main_interface, mbind, M_bind, bind, gets.
      cbn [resumes_processed add_ui set_ui set_current_prompt_type
           add_llm_calls set_llm_calls].
      rewrite Hnone. rewrite show_run. cbv beta iota. rewrite show_run.
      cbv beta iota. rewrite show_run. by rewrite !add_ui_app. }
  eexists _, ([st_markdown "**AI-powered resume analysis with local processing and privacy**"]
              ++ ev1 ++ ev2 ++ ev3).
  split; [reflexivity|].
  simpl. repeat split; try done.
  by rewrite <- !app_assoc.
Qed.

Lemma X20_witness :
  exists s' events,
    run sample_env sample_analyzer eager_input stocked_app = (Ok Finished, s') /\
    messages s' = messages stocked_app /\
    pending_question s' = pending_question stocked_app /\
    resumes_processed s' = [] /\
    collections s' = collections stocked_app /\
    embed_calls s' = embed_calls stocked_app /\
    llm_calls s' = llm_calls stocked_app ++ ["test"] /\
    ui s' = ui stocked_app ++ events
            ++ [st_info "👆 Please upload resume files to start your analysis!";
                st_markdown example_questions_technical;
                st_markdown example_questions_experience].
Proof.
  apply (X20_questions_need_a_processed_resume sample_env sample_analyzer
           eager_input stocked_app).
  - reflexivity.
  - reflexivity.
  - reflexivity.
Defined.

(** ** Further facts about what an upload stores *)

Lemma zip_with_chunks documents embeddings :
  Forall (fun r => chunk r ∈ documents)
         (zip_with mkVectorRecord documents embeddings).
Proof.
  revert embeddings. induction documents as [|d ds IH]; intros [|e es]; simpl;
    try constructor.
  - simpl. constructor.
  - eapply Forall_impl; [apply IH|]. intros r Hr. by constructor.
Qed.

(** What [add_documents] leaves in the store's collection: the old
    records, followed by records of the given documents. *)
Lemma add_documents_records env documents s store :
  vector_store s = Some store ->
  exists b s' added,
    add_documents env documents s = (Ok b, s') /\
    records_of s' store = records_of s store ++ added /\
    Forall (fun r => chunk r ∈ documents) added.
Proof.
  intros Hstore. destruct documents as [|d ds].
  { exists false, s, []. by rewrite app_nil_r. }
  unfold add_documents, try_except, mbind, M_bind, bind, gets.
  rewrite Hstore. unfold Chroma_add_documents, mbind, M_bind, bind.
  destruct (embed_all_run env (map page_content (d :: ds)) s)
    as (r & sent & -> & _ & _).
  destruct r as [embeddings|exc].
  - eexists true, _, (zip_with mkVectorRecord (d :: ds) embeddings).
    split; [reflexivity|]. split.
    + unfold records_of. cbn [collections add_embed_calls set_embed_calls
                              set_collections].
      by rewrite lookup_insert_eq.
    + apply zip_with_chunks.
  - eexists false, _, []. split; [reflexivity|]. split; [|constructor].
    by rewrite app_nil_r.
Qed.

(** Every chunk [process_documents] returns carries the base name of
    one of the paths it was given. *)
Lemma process_documents_filenames env self file_paths s documents d :
  fst (process_documents env self file_paths s) = Ok documents ->
  d ∈ documents ->
  exists p, p ∈ file_paths /\
            metadata d !! "filename" = Some (MStr (PyStr.basename p)).
Proof.
  rewrite process_documents_run. intros [= <-] Hd.
  assert (d ∈ split_documents (text_splitter self)
                (flat_map (loaded env (files s)) file_paths)) as Hsplit.
  { by destruct (flat_map (loaded env (files s)) file_paths). }
  apply split_documents_chunk in Hsplit as (d0 & Hd0 & -> & _).
  apply list_elem_of_In, in_flat_map in Hd0 as (p & Hp & Hd0).
  exists p. split; [by apply list_elem_of_In|].
  apply list_elem_of_In in Hd0. unfold loaded in Hd0.
  destruct (select_loader p) as [l|]; [|by apply elem_of_nil in Hd0].
  destruct (parse env l (files s !! loader_path l)) as [parsed|];
    [|by apply elem_of_nil in Hd0].
  apply list_elem_of_fmap in Hd0 as (d1 & -> & _). apply lookup_insert_eq.
Qed.

(** The part of [process_uploaded_files] inside its [try]: what it adds
    to the store's collection. *)
Lemma upload_body_records env self temp_files processed_names s store :
  vector_store s = Some store ->
  exists added,
    records_of
      (snd ((documents ← process_documents env (document_processor self) temp_files;
             match documents with
             | [] => ret false
             | _ =>
                 success ← add_documents env documents;
                 (if success : bool
                  then modify (set_resumes_processed
                                 (fun l => l ++ processed_names))
                  else ret tt);;
                 ret success
             end) s)) store
    = records_of s store ++ added /\
    Forall (fun r => exists p,
              p ∈ temp_files /\
              metadata (chunk r) !! "filename" = Some (MStr (PyStr.basename p)))
           added.
Proof.
  intros Hstore.
  rewrite (bind_run _ _ _ _ _
             (process_documents_run env (document_processor self) temp_files s)).
  assert (forall d,
            d ∈ match flat_map (loaded env (files s)) temp_files with
                | [] => []
                | all_documents =>
                    split_documents (text_splitter (document_processor self))
                                    all_documents
                end ->
            exists p, p ∈ temp_files /\
                      metadata d !! "filename" = Some (MStr (PyStr.basename p)))
    as Hnames.
  { intros d. apply (process_documents_filenames env (document_processor self)
                       temp_files s).
    by rewrite process_documents_run. }
  destruct (match flat_map (loaded env (files s)) temp_files with
            | [] => []
            | all_documents =>
                split_documents (text_splitter (document_processor self))
                                all_documents
            end) as [|d ds].
  { exists []. split; [by rewrite app_nil_r|constructor]. }
  match goal with |- context [add_documents env (d :: ds) ≫= _] =>
    match goal with |- context [(_ ≫= _) ?s1] =>
      destruct (add_documents_records env (d :: ds) s1 store)
        as (b & s2 & added & Hadd & Hrecords & Hchunks); [done|]
    end
  end.
  rewrite (bind_run _ _ _ _ _ Hadd).
  exists added. split.
  - change (records_of s store)
      with (records_of (add_ui (flat_map (load_report env (files s)) temp_files) s)
                       store).
    rewrite <- Hrecords. by destruct b.
  - eapply Forall_impl; [exact Hchunks|]. intros r Hr. by apply Hnames.
Qed.

(** ** Further properties of app.py: what an upload stores *)

(** X21: what [process_uploaded_files] adds to the database goes after
    the records that were there, and every chunk it adds carries as
    "filename" the base name of one of the temporary files the uploads
    were saved to, not the name the upload had. *)
Theorem X21_stored_chunks_carry_the_temporary_name
  env self uploaded_files s store :
  vector_store s = Some store ->
  exists temp_files added,
    fst (save_uploads env uploaded_files [] [] s)
    = Ok (temp_files, map name uploaded_files) /\
    records_of (snd (process_uploaded_files env self uploaded_files s)) store
    = records_of s store ++ added /\
    Forall (fun r => exists p,
              p ∈ temp_files /\
              metadata (chunk r) !! "filename" = Some (MStr (PyStr.basename p)))
           added.
Proof.
  intros Hstore.
  destruct (save_uploads_files env uploaded_files [] [] s)
    as (temp_files & s1 & Hsave & _). simpl in Hsave.
  exists temp_files. rewrite Hsave.
  destruct uploaded_files as [|u us].
  { exists []. split; [done|]. split; [by rewrite app_nil_r|constructor]. }
  pose proof (save_uploads_keeps vector_store (fun _ _ => eq_refl)
                (fun _ _ => eq_refl) env (u :: us) [] [] s) as Hkeep1.
  pose proof (save_uploads_keeps collections (fun _ _ => eq_refl)
                (fun _ _ => eq_refl) env (u :: us) [] [] s) as Hkeep2.
  rewrite Hsave in Hkeep1, Hkeep2. cbn [snd] in Hkeep1, Hkeep2.
  destruct (upload_body_records env self temp_files (map name (u :: us))
              s1 store) as (added & Hrecords & Hnames); [by rewrite Hkeep1|].
  exists added. split; [done|]. split; [|done].
  unfold process_uploaded_files. rewrite (bind_run _ _ _ _ _ Hsave).
  unfold try_finally.
  match goal with |- context [let (r, s') := ?body s1 in _] =>
    destruct (body s1) as [r s3]
  end.
  cbn [snd] in Hrecords.
  pose proof (unlink_all_keeps collections (fun _ _ => eq_refl) temp_files s3)
    as Hkeep3.
  destruct (unlink_all_files temp_files s3) as (s4 & Hunlink & _).
  rewrite Hunlink in Hkeep3 |- *. cbn [snd] in Hkeep3.
  unfold records_of in *. cbn [snd]. by rewrite Hkeep3, Hrecords, Hkeep2.
Qed.

Lemma X21_witness :
  exists temp_files added,
    fst (save_uploads sample_env
           [mkUploadedFile "cv.txt" "Experienced Python developer"] [] []
           started_app)
    = Ok (temp_files, map name [mkUploadedFile "cv.txt" "Experienced Python developer"]) /\
    records_of
      (snd (process_uploaded_files sample_env sample_analyzer
              [mkUploadedFile "cv.txt" "Experienced Python developer"]
              started_app))
      (mkChroma config.COLLECTION_NAME)
    = records_of started_app (mkChroma config.COLLECTION_NAME) ++ added /\
    Forall (fun r => exists p,
              p ∈ temp_files /\
              metadata (chunk r) !! "filename" = Some (MStr (PyStr.basename p)))
           added.
Proof.
  apply (X21_stored_chunks_carry_the_temporary_name sample_env sample_analyzer
           [mkUploadedFile "cv.txt" "Experienced Python developer"]
           started_app (mkChroma config.COLLECTION_NAME)).
  reflexivity.
Defined.
